(** * PySysdDeploy: systemd unit generation wizard (src/main.py)

    A shallow embedding of the command-line tool in src/main.py and the
    properties its specification states about it.

    - Python [str] values are modelled as [string]; a character
      [c : ascii] stands for the code point [N_of_ascii c], so the model
      covers the strings whose code points are below 256.
    - A config record is a [dict] in insertion order whose values are
      texts and lists of texts, which is what the wizard, the flags and
      the edit loop build; a configuration file that holds other values
      is outside the model.
    - The file system is a finite map from resolved paths to directories
      and regular files holding text, with the limits of the system on
      the length of a name and of a path, and without links and access
      rights: every directory can be searched and written to, every file
      read and replaced.  The service manager and [sudo] are outside the
      program: an oracle tells how each command ends.
    - Standard input is a list of pending lines, standard output the list
      of printed texts; computations live in a state monad with
      exceptions, [M].
    - [ray.get(task.remote(...))] is a plain call of the task.
    - Of [main], the commands [create], [list], [status], [stop] and
      [start] are modelled, from the parsed arguments on; the help text
      that is printed when no command is given is not. *)

From stdpp Require Import gmap strings list.
From Stdlib Require Import ZArith Ascii String.

Local Open Scope Z_scope.

(** ** Characters and strings, as Python sees them *)

Module PyStr.

Definition dquote : ascii := "034"%char.
Definition squote : ascii := "039"%char.
Definition backslash : ascii := "092"%char.
Definition LF : ascii := "010"%char.
Definition CR : ascii := "013"%char.
Definition TAB : ascii := "009"%char.
Definition slash : ascii := "/"%char.
Definition tilde : ascii := "~"%char.

Definition code (c : ascii) : N := N_of_ascii c.

(** [len(s) == 0] is falsy, everything else truthy. *)
Definition nonempty (s : string) : bool :=
  match s with EmptyString => false | String _ _ => true end.

Definition char (c : ascii) : string := String c EmptyString.

Fixpoint rev_string_acc (s acc : string) : string :=
  match s with
  | EmptyString => acc
  | String c r => rev_string_acc r (String c acc)
  end.

Definition rev_string (s : string) : string := rev_string_acc s EmptyString.

(** [str.isspace] on one code point below 256. *)
Definition isspace (c : ascii) : bool :=
  let n := code c in
  ((9 <=? n) && (n <=? 13) || (28 <=? n) && (n <=? 32)
   || (n =? 133) || (n =? 160))%N.

Fixpoint lstrip (s : string) : string :=
  match s with
  | EmptyString => EmptyString
  | String c r => if isspace c then lstrip r else s
  end.

Definition rstrip (s : string) : string := rev_string (lstrip (rev_string s)).

(** [s.strip()] *)
Definition strip (s : string) : string := rstrip (lstrip s).

Fixpoint rstrip_char_rev (x : ascii) (s : string) : string :=
  match s with
  | EmptyString => EmptyString
  | String c r => if Ascii.eqb c x then rstrip_char_rev x r else s
  end.

(** [s.rstrip(x)] for a single character [x]. *)
Definition rstrip_char (x : ascii) (s : string) : string :=
  rev_string (rstrip_char_rev x (rev_string s)).

Definition is_ascii_digit (c : ascii) : bool :=
  ((48 <=? code c) && (code c <=? 57))%N.

(** The code points below 256 on which [str.isdigit] holds: the ASCII
    digits and the superscripts U+00B2, U+00B3 and U+00B9. *)
Definition isdigit_char (c : ascii) : bool :=
  is_ascii_digit c || (code c =? 178)%N || (code c =? 179)%N || (code c =? 185)%N.

Fixpoint all_chars (p : ascii -> bool) (s : string) : bool :=
  match s with
  | EmptyString => true
  | String c r => p c && all_chars p r
  end.

(** [str.lower] on one code point below 256. *)
Definition lower_char (c : ascii) : ascii :=
  let n := code c in
  if ((65 <=? n) && (n <=? 90) || (192 <=? n) && (n <=? 222) && negb (n =? 215))%N
  then ascii_of_N (n + 32) else c.

Fixpoint lower (s : string) : string :=
  match s with
  | EmptyString => EmptyString
  | String c r => String (lower_char c) (lower r)
  end.

(** [s.isdigit()]: at least one character, all of them digits. *)
Definition isdigit (s : string) : bool := nonempty s && all_chars isdigit_char s.

Fixpoint int_acc (s : string) (acc : Z) : option Z :=
  match s with
  | EmptyString => Some acc
  | String c r =>
      if is_ascii_digit c
      then int_acc r (10 * acc + (Z.of_N (code c) - 48))
      else None
  end.

Fixpoint leading_digits (s : string) : nat :=
  match s with
  | EmptyString => O
  | String c r => if is_ascii_digit c then S (leading_digits r) else O
  end.

(** [sys.int_info.default_max_str_digits]: the longest run of digits
    [int] converts (Python 3.11 and later). *)
Definition int_max_str_digits : nat := 4300.

(** The ways [int(s)] ends: a number, or one of its two ValueErrors. *)
Inductive int_result :=
| IntOk (n : Z)
| IntInvalidLiteral
| IntTooManyDigits (digits : nat).

(** [int(s)] on the strings the program passes to it, which have all
    passed [isdigit]: a run of ASCII decimal digits is read in base 10
    unless it is longer than the limit, and a superscript digit is an
    invalid literal. *)
Definition int (s : string) : int_result :=
  if Nat.ltb int_max_str_digits (leading_digits s) then IntTooManyDigits (leading_digits s)
  else if nonempty s then
    match int_acc s 0 with
    | Some n => IntOk n
    | None => IntInvalidLiteral
    end
  else IntInvalidLiteral.

(** [c * n] *)
Fixpoint repeat_char (c : ascii) (n : nat) : string :=
  match n with
  | O => EmptyString
  | S n' => String c (repeat_char c n')
  end.

Fixpoint contains_char (x : ascii) (s : string) : bool :=
  match s with
  | EmptyString => false
  | String c r => Ascii.eqb c x || contains_char x r
  end.

(** [s.count(x)] for a single character [x]. *)
Fixpoint count_char (x : ascii) (s : string) : nat :=
  match s with
  | EmptyString => O
  | String c r => (if Ascii.eqb c x then 1 else 0) + count_char x r
  end.

Definition startswith_char (x : ascii) (s : string) : bool :=
  match s with
  | String c _ => Ascii.eqb c x
  | EmptyString => false
  end.

Fixpoint endswith_char (x : ascii) (s : string) : bool :=
  match s with
  | EmptyString => false
  | String c EmptyString => Ascii.eqb c x
  | String _ r => endswith_char x r
  end.

Fixpoint prefix_of (p s : string) : bool :=
  match p, s with
  | EmptyString, _ => true
  | String a p', String b s' => Ascii.eqb a b && prefix_of p' s'
  | String _ _, EmptyString => false
  end.

(** [sub in s] *)
Fixpoint contains (sub s : string) : bool :=
  prefix_of sub s
  || match s with
     | EmptyString => false
     | String _ r => contains sub r
     end.

(** [s.split(x)] for a single-character separator: the pieces between
    the separators, empty pieces included. *)
Fixpoint split_char (x : ascii) (s : string) : list string :=
  match s with
  | EmptyString => [EmptyString]
  | String c r =>
      if Ascii.eqb c x then EmptyString :: split_char x r
      else match split_char x r with
           | [] => [char c]
           | p :: ps => String c p :: ps
           end
  end.

(** [sep.join(l)] *)
Fixpoint join (sep : string) (l : list string) : string :=
  match l with
  | [] => EmptyString
  | [x] => x
  | x :: r => x +:+ sep +:+ join sep r
  end.

Fixpoint concat_strings (l : list string) : string :=
  match l with
  | [] => EmptyString
  | x :: r => x +:+ concat_strings r
  end.

(** The characters of a string, as iterating over a [str] yields them. *)
Fixpoint chars (s : string) : list string :=
  match s with
  | EmptyString => []
  | String c r => char c :: chars r
  end.

Definition hex_digit (n : N) : ascii :=
  ascii_of_N (if (n <? 10)%N then 48 + n else 87 + n).

Definition hex2 (c : ascii) : string :=
  String (hex_digit (code c / 16)) (char (hex_digit (code c mod 16))).

(** [str.isprintable] on one code point below 256. *)
Definition isprintable (c : ascii) : bool :=
  let n := code c in
  ((32 <=? n) && (n <? 127) || (161 <=? n) && negb (n =? 173))%N.

Definition repr_char (quote : ascii) (c : ascii) : string :=
  if Ascii.eqb c quote || Ascii.eqb c backslash then String backslash (char c)
  else if Ascii.eqb c TAB then String backslash "t"
  else if Ascii.eqb c LF then String backslash "n"
  else if Ascii.eqb c CR then String backslash "r"
  else if isprintable c then char c
  else String backslash (String "x" (hex2 c)).

Fixpoint repr_body (quote : ascii) (s : string) : string :=
  match s with
  | EmptyString => EmptyString
  | String c r => repr_char quote c +:+ repr_body quote r
  end.

(** [repr(s)]: single quotes unless the string has a single quote and no
    double quote. *)
Definition repr (s : string) : string :=
  let quote :=
    if contains_char squote s && negb (contains_char dquote s)
    then dquote else squote in
  String quote (repr_body quote s +:+ char quote).

(** [str(l)] of a list of strings. *)
Definition str_list (l : list string) : string :=
  "[" +:+ join ", " (map repr l) +:+ "]".

Fixpoint nat_digits (fuel : nat) (n : N) (acc : string) : string :=
  match fuel with
  | O => acc
  | S fuel' =>
      let acc' := String (ascii_of_N (48 + n mod 10)) acc in
      if (n <? 10)%N then acc' else nat_digits fuel' (n / 10) acc'
  end.

(** [str(n)] of a non-negative integer. *)
Definition str_N (n : N) : string := nat_digits (S (N.to_nat (N.log2 n))) n EmptyString.

Definition str_Z (z : Z) : string :=
  if z <? 0 then String "-" (str_N (Z.to_N (- z))) else str_N (Z.to_N z).

End PyStr.

(** ** parse_env_vars (main.py, lines 164-187) *)

(** The [for] loop over the characters; [parts] is kept in order. *)
Fixpoint parse_env_vars_loop (env_string : string) (parts : list string)
    (current : string) (in_quotes : bool) : list string :=
  match env_string with
  | EmptyString =>
      if PyStr.nonempty current then parts ++ [current] else parts
  | String char rest =>
      if Ascii.eqb char PyStr.dquote then
        parse_env_vars_loop rest parts (current +:+ PyStr.char char) (negb in_quotes)
      else if Ascii.eqb char " " && negb in_quotes then
        if PyStr.nonempty current
        then parse_env_vars_loop rest (parts ++ [current]) EmptyString in_quotes
        else parse_env_vars_loop rest parts current in_quotes
      else
        parse_env_vars_loop rest parts (current +:+ PyStr.char char) in_quotes
  end.

Definition parse_env_vars (env_string : string) : list string :=
  if negb (PyStr.nonempty env_string) then []
  else parse_env_vars_loop env_string [] EmptyString false.

(** The input string of the specification's tokenizer example:
    [KEY1=VALUE1 "KEY2=VALUE WITH SPACES"]. *)
Definition sample_env_string : string :=
  "KEY1=VALUE1 " +:+ String PyStr.dquote "KEY2=VALUE WITH SPACES"
  +:+ PyStr.char PyStr.dquote.

(** ** Config records and templates *)

(** The values a config record holds: text, or a list of texts
    ([additional_env_vars]). *)
Inductive value :=
| VStr (s : string)
| VList (l : list string).

(** A Python [dict] with string keys, in insertion order. *)
Definition dict := list (string * value).

Fixpoint dict_get (k : string) (d : dict) : option value :=
  match d with
  | [] => None
  | (k', v) :: r => if String.eqb k' k then Some v else dict_get k r
  end.

(** [d[k] = v]: an existing key keeps its position, a new one goes last. *)
Fixpoint dict_set (k : string) (v : value) (d : dict) : dict :=
  match d with
  | [] => [(k, v)]
  | (k', v') :: r =>
      if String.eqb k' k then (k', v) :: r else (k', v') :: dict_set k v r
  end.

Definition dict_keys (d : dict) : list string := map fst d.

(** [str(v)], as an f-string or a template expression formats a value. *)
Definition str_value (v : value) : string :=
  match v with
  | VStr s => s
  | VList l => PyStr.str_list l
  end.

(** Truthiness of a value. *)
Definition truthy (v : value) : bool :=
  match v with
  | VStr s => PyStr.nonempty s
  | VList l => match l with [] => false | _ => true end
  end.

(** What a [for] loop over a value yields. *)
Definition iterate (v : value) : list string :=
  match v with
  | VStr s => PyStr.chars s
  | VList l => l
  end.

#[local] Set Warnings "-register-all".

(** The subset of the template language the two unit templates use:
    literal text, [{{ name }}], [{% if name %}] and
    [{% for var in name %}]. *)
Inductive tnode :=
| TText (s : string)
| TExpr (name : string)
| TIf (name : string) (body : list tnode)
| TFor (var : string) (name : string) (body : list tnode).

(** Rendering with the default environment of [jinja2.Template]: no
    autoescaping, an undefined name prints as the empty string, is false
    and iterates as empty; the loop variable shadows the context. *)
Fixpoint render_node (ctx : dict) (n : tnode) {struct n} : string :=
  let render_nodes := fix go (l : list tnode) : string :=
    match l with
    | [] => EmptyString
    | n' :: r => render_node ctx n' +:+ go r
    end in
  match n with
  | TText s => s
  | TExpr name =>
      match dict_get name ctx with
      | Some v => str_value v
      | None => EmptyString
      end
  | TIf name body =>
      match dict_get name ctx with
      | Some v => if truthy v then render_nodes body else EmptyString
      | None => EmptyString
      end
  | TFor var name body =>
      let items := match dict_get name ctx with
                   | Some v => iterate v
                   | None => []
                   end in
      PyStr.concat_strings
        (map (fun item =>
                (fix go (l : list tnode) : string :=
                   match l with
                   | [] => EmptyString
                   | n' :: r => render_node ((var, VStr item) :: ctx) n' +:+ go r
                   end) body) items)
  end.

Fixpoint render (ctx : dict) (t : list tnode) : string :=
  match t with
  | [] => EmptyString
  | n :: r => render_node ctx n +:+ render ctx r
  end.

Definition nl : string := PyStr.char PyStr.LF.
Definition dq : string := PyStr.char PyStr.dquote.

(** The [Unit] section and the head of the [Service] section up to the
    command line, which is where the two templates differ. *)
Definition unit_head : list tnode :=
  [ TText (nl +:+ "[Unit]" +:+ nl +:+ "Description="); TExpr "description";
    TText (nl +:+ "After=network.target" +:+ nl +:+ nl +:+ "[Service]" +:+ nl
           +:+ "ExecStart=/bin/bash -c " +:+ dq +:+ "source ");
    TExpr "venv_path" ].

(** From [WorkingDirectory=] to the two fixed [Environment=] lines. *)
Definition unit_settings : list tnode :=
  [ TText (dq +:+ nl +:+ "WorkingDirectory="); TExpr "working_directory";
    TText (nl +:+ "User="); TExpr "user";
    TText (nl +:+ "Group="); TExpr "group";
    TText (nl +:+ "Restart="); TExpr "restart_policy";
    TText (nl +:+ "RestartSec="); TExpr "restart_sec";
    TText (nl +:+ "Environment=" +:+ dq +:+ "PATH="); TExpr "venv_path";
    TText ("/bin:$PATH" +:+ dq +:+ nl
           +:+ "Environment=" +:+ dq +:+ "PYTHONUNBUFFERED=1" +:+ dq +:+ nl) ].

(** Lines 39-40 and 60-61. *)
Definition env_block : tnode :=
  TIf "additional_env_vars"
    [ TFor "var" "additional_env_vars"
        [ TText (nl +:+ "Environment=" +:+ dq); TExpr "var"; TText dq ] ].

(** The rest of the template; the single newline that ends the template
    source is dropped when the template is compiled. *)
Definition unit_tail : list tnode :=
  [ TText (nl +:+ nl +:+ "[Install]" +:+ nl +:+ "WantedBy=multi-user.target") ].

Definition STANDARD_PYTHON_TEMPLATE : list tnode :=
  unit_head
  ++ [ TText "/bin/activate && python3 "; TExpr "script_path";
       TText " "; TExpr "script_args" ]
  ++ unit_settings ++ [env_block] ++ unit_tail.

Definition GUNICORN_TEMPLATE : list tnode :=
  unit_head
  ++ [ TText "/bin/activate && gunicorn --bind "; TExpr "bind_address";
       TText " "; TExpr "app_module" ]
  ++ unit_settings ++ [env_block] ++ unit_tail.

Record template_entry := {
  t_name : string;
  t_description : string;
  t_template : list tnode
}.

Definition TEMPLATES : list (string * template_entry) :=
  [ ("standard_python",
     {| t_name := "Standard Python Script";
        t_description := "Run a Python script in a virtual environment";
        t_template := STANDARD_PYTHON_TEMPLATE |});
    ("gunicorn",
     {| t_name := "Gunicorn Web Application";
        t_description := "Run a Flask/Django app with Gunicorn";
        t_template := GUNICORN_TEMPLATE |}) ].

Fixpoint templates_get (k : string) (l : list (string * template_entry))
    : option template_entry :=
  match l with
  | [] => None
  | (k', e) :: r => if String.eqb k' k then Some e else templates_get k r
  end.

(** JSON, as far as the config store needs it. *)
Module Json.

(** [json.dumps(d, indent=2)]: the text of a config document. *)

Definition escape_char (c : ascii) : string :=
  let n := PyStr.code c in
  if Ascii.eqb c PyStr.dquote then String PyStr.backslash (PyStr.char PyStr.dquote)
  else if Ascii.eqb c PyStr.backslash then String PyStr.backslash (PyStr.char PyStr.backslash)
  else if Ascii.eqb c PyStr.LF then String PyStr.backslash "n"
  else if Ascii.eqb c PyStr.CR then String PyStr.backslash "r"
  else if Ascii.eqb c PyStr.TAB then String PyStr.backslash "t"
  else if (n =? 8)%N then String PyStr.backslash "b"
  else if (n =? 12)%N then String PyStr.backslash "f"
  else if ((32 <=? n) && (n <? 127))%N then PyStr.char c
  else String PyStr.backslash ("u00" +:+ PyStr.hex2 c).

Fixpoint escape (s : string) : string :=
  match s with
  | EmptyString => EmptyString
  | String c r => escape_char c +:+ escape r
  end.

Definition dumps_str (s : string) : string := dq +:+ escape s +:+ dq.

Definition dumps_value (v : value) : string :=
  match v with
  | VStr s => dumps_str s
  | VList [] => "[]"
  | VList l =>
      "[" +:+ nl +:+ "    "
      +:+ PyStr.join ("," +:+ nl +:+ "    ") (map dumps_str l)
      +:+ nl +:+ "  ]"
  end.

Definition dumps (d : dict) : string :=
  match d with
  | [] => "{}"
  | _ =>
      "{" +:+ nl +:+ "  "
      +:+ PyStr.join ("," +:+ nl +:+ "  ")
            (map (fun kv => dumps_str (fst kv) +:+ ": " +:+ dumps_value (snd kv)) d)
      +:+ nl +:+ "}"
  end.

(** [json.loads]: the text is cut into tokens, and the tokens are read as
    an object whose values are strings and lists of strings. *)

Inductive token :=
| TLBrace | TRBrace | TLBracket | TRBracket | TColon | TComma
| TString (s : string).

Inductive lex_state :=
| LOut
| LStr (acc : string)
| LEsc (acc : string)
| LUni (acc : string) (pending : nat) (code : N).

Definition is_whitespace (c : ascii) : bool :=
  Ascii.eqb c " " || Ascii.eqb c PyStr.TAB || Ascii.eqb c PyStr.LF || Ascii.eqb c PyStr.CR.

Definition hex_value (c : ascii) : option N :=
  let n := PyStr.code c in
  if ((48 <=? n) && (n <=? 57))%N then Some (n - 48)%N
  else if ((97 <=? n) && (n <=? 102))%N then Some (n - 87)%N
  else if ((65 <=? n) && (n <=? 70))%N then Some (n - 55)%N
  else None.

Definition unescape (c : ascii) : option ascii :=
  if Ascii.eqb c PyStr.dquote then Some PyStr.dquote
  else if Ascii.eqb c PyStr.backslash then Some PyStr.backslash
  else if Ascii.eqb c "/" then Some "/"%char
  else if Ascii.eqb c "b" then Some "008"%char
  else if Ascii.eqb c "f" then Some "012"%char
  else if Ascii.eqb c "n" then Some PyStr.LF
  else if Ascii.eqb c "r" then Some PyStr.CR
  else if Ascii.eqb c "t" then Some PyStr.TAB
  else None.

(** One character of the text. *)
Definition lex_step (st : lex_state * list token) (c : ascii)
    : option (lex_state * list token) :=
  let '(state, toks) := st in
  match state with
  | LOut =>
      if is_whitespace c then Some (LOut, toks)
      else if Ascii.eqb c "{" then Some (LOut, toks ++ [TLBrace])
      else if Ascii.eqb c "}" then Some (LOut, toks ++ [TRBrace])
      else if Ascii.eqb c "[" then Some (LOut, toks ++ [TLBracket])
      else if Ascii.eqb c "]" then Some (LOut, toks ++ [TRBracket])
      else if Ascii.eqb c ":" then Some (LOut, toks ++ [TColon])
      else if Ascii.eqb c "," then Some (LOut, toks ++ [TComma])
      else if Ascii.eqb c PyStr.dquote then Some (LStr EmptyString, toks)
      else None
  | LStr acc =>
      if Ascii.eqb c PyStr.dquote then Some (LOut, toks ++ [TString acc])
      else if Ascii.eqb c PyStr.backslash then Some (LEsc acc, toks)
      else if (PyStr.code c <? 32)%N then None
      else Some (LStr (acc +:+ PyStr.char c), toks)
  | LEsc acc =>
      if Ascii.eqb c "u" then Some (LUni acc 4 0%N, toks)
      else match unescape c with
           | Some x => Some (LStr (acc +:+ PyStr.char x), toks)
           | None => None
           end
  | LUni acc pending code =>
      match hex_value c with
      | None => None
      | Some h =>
          let code' := (16 * code + h)%N in
          match pending with
          | 1%nat => if (code' <? 256)%N
                     then Some (LStr (acc +:+ PyStr.char (ascii_of_N code')), toks)
                     else None
          | _ => Some (LUni acc (Nat.pred pending) code', toks)
          end
      end
  end.

Fixpoint lex_run (st : lex_state * list token) (s : string)
    : option (lex_state * list token) :=
  match s with
  | EmptyString => Some st
  | String c r =>
      match lex_step st c with
      | Some st' => lex_run st' r
      | None => None
      end
  end.

Definition lex (s : string) : option (list token) :=
  match lex_run (LOut, []) s with
  | Some (LOut, toks) => Some toks
  | _ => None
  end.

(** Where the reader of the tokens is: in the object [d] read so far,
    at the key [k], in the list [acc]. *)
Inductive parse_state :=
| PStart
| PKeyOrEnd
| PKey (d : dict)
| PColon (d : dict) (k : string)
| PValue (d : dict) (k : string)
| PElemOrEnd (d : dict) (k : string)
| PElem (d : dict) (k : string) (acc : list string)
| PAfterElem (d : dict) (k : string) (acc : list string)
| PAfterValue (d : dict)
| PDone (d : dict).

Definition parse_step (st : parse_state) (t : token) : option parse_state :=
  match st, t with
  | PStart, TLBrace => Some PKeyOrEnd
  | PKeyOrEnd, TRBrace => Some (PDone [])
  | PKeyOrEnd, TString k => Some (PColon [] k)
  | PKey d, TString k => Some (PColon d k)
  | PColon d k, TColon => Some (PValue d k)
  | PValue d k, TString s => Some (PAfterValue (dict_set k (VStr s) d))
  | PValue d k, TLBracket => Some (PElemOrEnd d k)
  | PElemOrEnd d k, TRBracket => Some (PAfterValue (dict_set k (VList []) d))
  | PElemOrEnd d k, TString s => Some (PAfterElem d k [s])
  | PElem d k acc, TString s => Some (PAfterElem d k (acc ++ [s]))
  | PAfterElem d k acc, TComma => Some (PElem d k acc)
  | PAfterElem d k acc, TRBracket => Some (PAfterValue (dict_set k (VList acc) d))
  | PAfterValue d, TComma => Some (PKey d)
  | PAfterValue d, TRBrace => Some (PDone d)
  | _, _ => None
  end.

Fixpoint parse_run (st : parse_state) (toks : list token) : option parse_state :=
  match toks with
  | [] => Some st
  | t :: r =>
      match parse_step st t with
      | Some st' => parse_run st' r
      | None => None
      end
  end.

(** [json.loads(s)] for the documents of the config store; [None] is a
    text that is not such a document.  A document with other values
    (numbers, [true], [null], nested objects), which [json.loads] reads
    as well, has no counterpart among the records of the model and is
    taken for a text that is no document. *)
Definition loads (s : string) : option dict :=
  match lex s with
  | Some toks =>
      match parse_run PStart toks with
      | Some (PDone d) => Some d
      | _ => None
      end
  | None => None
  end.


(** The tokens of the text [dumps] writes. *)
Definition list_tokens (l : list string) : list token :=
  match l with
  | [] => [TLBracket; TRBracket]
  | s :: r =>
      TLBracket :: TString s :: flat_map (fun x => [TComma; TString x]) r ++ [TRBracket]
  end.

Definition value_tokens (v : value) : list token :=
  match v with
  | VStr s => [TString s]
  | VList l => list_tokens l
  end.

Definition item_tokens (kv : string * value) : list token :=
  TString (fst kv) :: TColon :: value_tokens (snd kv).

Definition dict_tokens (d : dict) : list token :=
  match d with
  | [] => [TLBrace; TRBrace]
  | kv :: r =>
      TLBrace :: item_tokens kv ++ flat_map (fun x => TComma :: item_tokens x) r ++ [TRBrace]
  end.

End Json.

(** ** The file system *)

(** A node is a directory or a regular file with its text. *)
Inductive node :=
| Dir
| File (text : string).

(** A resolved path is the list of names from the root; the root itself
    ([[]]) is always a directory. *)
Abbreviation path := (list string).
Abbreviation fs := (gmap (list string) node).

Definition ENOENT : Z := 2.
Definition EBADF : Z := 9.
Definition EEXIST : Z := 17.
Definition ENOTDIR : Z := 20.
Definition EISDIR : Z := 21.
Definition ENAMETOOLONG : Z := 36.
Definition ELOOP : Z := 40.

Definition strerror (errno : Z) : string :=
  if errno =? ENOENT then "No such file or directory"
  else if errno =? EBADF then "Bad file descriptor"
  else if errno =? EEXIST then "File exists"
  else if errno =? ENOTDIR then "Not a directory"
  else if errno =? EISDIR then "Is a directory"
  else if errno =? ENAMETOOLONG then "File name too long"
  else if errno =? ELOOP then "Too many levels of symbolic links"
  else "Unknown error".

(** The limits of the system: the bytes of one name, and the bytes of a
    whole path with the NUL that ends it. *)
Definition NAME_MAX : N := 255.
Definition PATH_MAX : N := 4096.

(** The bytes a text takes in a path (UTF-8): two for a code point from
    128 on. *)
Fixpoint byte_length (s : string) : N :=
  match s with
  | EmptyString => 0
  | String c r => (if PyStr.code c <? 128 then 1 else 2) + byte_length r
  end%N.

Definition lookup_node (f : fs) (p : path) : option node :=
  match p with
  | [] => Some Dir
  | _ => f !! p
  end.

Definition parent (p : path) : path := removelast p.

Definition is_dot (c : string) : bool := String.eqb c "" || String.eqb c ".".

(** Walks the components of a path from the directory [cur]: every
    component is looked up in a directory that exists, and a name may not
    be longer than [NAME_MAX]; the last one need not exist itself. *)
Fixpoint walk (f : fs) (cur : path) (comps : list string) : Z + path :=
  match comps with
  | [] => inr cur
  | c :: rest =>
      match lookup_node f cur with
      | None => inl ENOENT
      | Some (File _) => inl ENOTDIR
      | Some Dir =>
          if is_dot c then walk f cur rest
          else if String.eqb c ".." then walk f (parent cur) rest
          else if (NAME_MAX <? byte_length c)%N then inl ENAMETOOLONG
          else walk f (cur ++ [c]) rest
      end
  end.

Definition components (p : string) : list string := PyStr.split_char PyStr.slash p.

Definition is_abs (p : string) : bool := PyStr.startswith_char PyStr.slash p.

(** The directory a path string starts from. *)
Definition start_dir (cwd : string) (p : string) : path :=
  if is_abs p then [] else List.filter (fun c => negb (is_dot c)) (components cwd).

(** Path resolution as the system calls do it. *)
Definition resolve (f : fs) (cwd : string) (p : string) : Z + path :=
  if PyStr.nonempty p then
    if (PATH_MAX <=? byte_length p)%N then inl ENAMETOOLONG
    else walk f (start_dir cwd p) (components p)
  else inl ENOENT.

(** The components of a path without the empty ones that its trailing
    slashes leave. *)
Fixpoint drop_trailing_empty (comps : list string) : list string :=
  match comps with
  | [] => []
  | c :: rest =>
      match drop_trailing_empty rest with
      | [] => if PyStr.nonempty c then [c] else []
      | rest' => c :: rest'
      end
  end.

(** Resolution of the path of an entry that a call is to make: slashes
    after the name of the entry do not count. *)
Definition resolve_entry (f : fs) (cwd : string) (p : string) : Z + path :=
  if PyStr.nonempty p then
    if (PATH_MAX <=? byte_length p)%N then inl ENAMETOOLONG
    else walk f (start_dir cwd p) (drop_trailing_empty (components p))
  else inl ENOENT.

(** [os.stat] *)
Definition stat (f : fs) (cwd : string) (p : string) : Z + node :=
  match resolve f cwd p with
  | inl e => inl e
  | inr q => match lookup_node f q with
             | Some n => inr n
             | None => inl ENOENT
             end
  end.

(** [os.path.exists]: no error of the lookup gets out of it. *)
Definition path_exists (f : fs) (cwd : string) (p : string) : bool :=
  match stat f cwd p with inr _ => true | inl _ => false end.

(** [os.path.isdir] *)
Definition path_isdir (f : fs) (cwd : string) (p : string) : bool :=
  match stat f cwd p with inr Dir => true | _ => false end.

(** [str(pathlib.Path(p))]: [pathlib] drops the empty and the [.]
    components and the trailing slashes when it builds a path; exactly
    two leading slashes are kept, and an empty path is [.]. *)
Definition Path_str (p : string) : string :=
  let root :=
    match p with
    | String "/" (String "/" (String "/" _)) => "/"
    | String "/" (String "/" _) => "//"
    | String "/" _ => "/"
    | _ => EmptyString
    end in
  let s := root +:+ PyStr.join "/" (List.filter (fun c => negb (is_dot c)) (components p)) in
  if PyStr.nonempty s then s else ".".

(** [pathlib.Path(p).stat()] *)
Definition Path_stat (f : fs) (cwd : string) (p : string) : Z + node :=
  stat f cwd (Path_str p).

(** The errors of a lookup that [pathlib] takes for the absence of the
    file ([_IGNORED_ERRNOS]); every other one it lets through. *)
Definition pathlib_ignores (errno : Z) : bool :=
  (errno =? ENOENT) || (errno =? ENOTDIR) || (errno =? EBADF) || (errno =? ELOOP).

(** [open(p, 'w')] followed by writing [text]: the file is created or
    replaced in a directory that exists. *)
Definition fs_write (f : fs) (cwd : string) (p : string) (text : string) : Z + fs :=
  if PyStr.endswith_char PyStr.slash p then
    match resolve_entry f cwd p with
    | inl e => inl e
    | inr _ => inl EISDIR
    end
  else
    match resolve f cwd p with
    | inl e => inl e
    | inr q => match lookup_node f q with
               | Some Dir => inl EISDIR
               | _ => inr (<[q := File text]> f)
               end
    end.

(** [open(p, 'r')] followed by reading everything. *)
Definition fs_read (f : fs) (cwd : string) (p : string) : Z + string :=
  match stat f cwd p with
  | inl e => inl e
  | inr Dir => inl EISDIR
  | inr (File text) => inr text
  end.

(** [os.mkdir(p)] *)
Definition fs_mkdir (f : fs) (cwd : string) (p : string) : Z + fs :=
  match resolve_entry f cwd p with
  | inl e => inl e
  | inr q => match lookup_node f q with
             | Some _ => inl EEXIST
             | None => inr (<[q := Dir]> f)
             end
  end.

(** ** Paths as strings: [os.path] *)

(** [os.path.join(a, b)] *)
Definition path_join (a b : string) : string :=
  if is_abs b then b
  else if negb (PyStr.nonempty a) || PyStr.endswith_char PyStr.slash a then a +:+ b
  else a +:+ "/" +:+ b.

Definition normpath_step (initial_slashes : nat) (new_comps : list string)
    (comp : string) : list string :=
  if is_dot comp then new_comps
  else if negb (String.eqb comp "..")
          || (Nat.eqb initial_slashes 0 && match new_comps with [] => true | _ => false end)
          || match last new_comps with Some l => String.eqb l ".." | None => false end
       then new_comps ++ [comp]
       else removelast new_comps.

(** [os.path.normpath] *)
Definition normpath (p : string) : string :=
  if negb (PyStr.nonempty p) then "." else
  let initial_slashes : nat :=
    match p with
    | String "/" (String "/" (String "/" _)) => 1
    | String "/" (String "/" _) => 2
    | String "/" _ => 1
    | _ => 0
    end%nat in
  let comps := fold_left (normpath_step initial_slashes) (components p) [] in
  let r := PyStr.concat_strings (replicate initial_slashes "/") +:+ PyStr.join "/" comps in
  if PyStr.nonempty r then r else ".".

(** [os.path.abspath] *)
Definition abspath (cwd : string) (p : string) : string :=
  normpath (if is_abs p then p else path_join cwd p).

(** Splits [~name/rest] after the tilde: the name and the rest from the
    first slash on. *)
Fixpoint break_at_slash (s : string) : string * string :=
  match s with
  | EmptyString => (EmptyString, EmptyString)
  | String c r =>
      if Ascii.eqb c PyStr.slash then (EmptyString, s)
      else let '(a, b) := break_at_slash r in (String c a, b)
  end.

(** [os.path.expanduser]: [home] is the caller's home directory and
    [pw_dir] the home directories of the password database. *)
Definition expanduser (home : string) (pw_dir : string -> option string)
    (p : string) : string :=
  match p with
  | String "~" rest =>
      let '(name, tail) := break_at_slash rest in
      match (if PyStr.nonempty name then pw_dir name else Some home) with
      | None => p
      | Some userhome =>
          let r := PyStr.rstrip_char PyStr.slash userhome +:+ tail in
          if PyStr.nonempty r then r else "/"
      end
  | _ => p
  end.

(** [os.path.split(p)]: what comes before the last slash, without the
    slashes it ends with unless it is made of slashes only, and what
    comes after it. *)
Fixpoint split_at_last_slash (s : string) : string * string :=
  match s with
  | EmptyString => (EmptyString, EmptyString)
  | String c r =>
      let '(head, tail) := split_at_last_slash r in
      if PyStr.nonempty head then (String c head, tail)
      else if Ascii.eqb c PyStr.slash then (PyStr.char c, r)
      else (EmptyString, s)
  end.

Definition path_split (p : string) : string * string :=
  let '(head, tail) := split_at_last_slash p in
  (if PyStr.nonempty head
      && negb (PyStr.all_chars (fun c => Ascii.eqb c PyStr.slash) head)
   then PyStr.rstrip_char PyStr.slash head else head,
   tail).

(** ** The process and its environment *)

Inductive exn :=
| EOFError
| KeyError (key : string)
| IndexError
| AttributeError (msg : string)
| ValueError (msg : string)
| TypeError (msg : string)
| OSError (errno : Z) (filename : string)
| CalledProcessError (cmd : list string) (returncode : N)
| JSONDecodeError
| SystemExit (code : Z).

(** [str(e)] *)
Definition exn_str (e : exn) : string :=
  match e with
  | EOFError => "EOF when reading a line"
  | KeyError key => PyStr.repr key
  | IndexError => "list index out of range"
  | AttributeError msg | ValueError msg | TypeError msg => msg
  | OSError errno filename =>
      "[Errno " +:+ PyStr.str_Z errno +:+ "] " +:+ strerror errno +:+ ": "
      +:+ PyStr.repr filename
  | CalledProcessError cmd returncode =>
      "Command '" +:+ PyStr.str_list cmd +:+ "' returned non-zero exit status "
      +:+ PyStr.str_N returncode +:+ "."
  | JSONDecodeError => "Expecting value: line 1 column 1 (char 0)"
  | SystemExit code => PyStr.str_Z code
  end.

(** How a child process ends: with an exit status and what it wrote to
    its standard output, or not started at all.  (A child that a signal
    ends, whose [returncode] is negative, is outside the model.) *)
Inductive proc_result :=
| Completed (returncode : N) (stdout : string)
| LaunchError (errno : Z).

(** The state the program runs in.  [w_sys] stands for the rest of the
    system: given the commands run so far (the last one being the one
    asked for) it tells how that command ends. *)
Record world := World {
  w_fs : fs;
  w_cwd : string;
  w_home : string;
  w_pw_dir : string -> option string;
  w_user : string;
  w_stdin : list string;
  w_stdout : list string;
  w_cmds : list (list string);
  w_sys : list (list string) -> proc_result
}.

Definition set_fs (f : fs) (w : world) : world :=
  World f (w_cwd w) (w_home w) (w_pw_dir w) (w_user w) (w_stdin w) (w_stdout w)
        (w_cmds w) (w_sys w).
Definition set_stdin (l : list string) (w : world) : world :=
  World (w_fs w) (w_cwd w) (w_home w) (w_pw_dir w) (w_user w) l (w_stdout w)
        (w_cmds w) (w_sys w).
Definition set_stdout (l : list string) (w : world) : world :=
  World (w_fs w) (w_cwd w) (w_home w) (w_pw_dir w) (w_user w) (w_stdin w) l
        (w_cmds w) (w_sys w).
Definition set_cmds (l : list (list string)) (w : world) : world :=
  World (w_fs w) (w_cwd w) (w_home w) (w_pw_dir w) (w_user w) (w_stdin w)
        (w_stdout w) l (w_sys w).

Inductive outcome (A : Type) :=
| Ret (a : A)
| Raise (e : exn).
Arguments Ret {A} a.
Arguments Raise {A} e.

(** Computations that read and change the world and may raise. *)
Definition M (A : Type) : Type := world -> outcome A * world.

Definition ret {A} (a : A) : M A := fun w => (Ret a, w).
Definition raise {A} (e : exn) : M A := fun w => (Raise e, w).
Definition bind {A B} (m : M A) (k : A -> M B) : M B :=
  fun w => match m w with
           | (Ret a, w') => k a w'
           | (Raise e, w') => (Raise e, w')
           end.

#[global] Instance M_ret : MRet M := @ret.
#[global] Instance M_bind : MBind M := fun A B k m => bind m k.

(** [try: m except <handled> as e: h e] *)
Definition try_except {A} (m : M A) (handled : exn -> bool) (h : exn -> M A) : M A :=
  fun w => match m w with
           | (Raise e, w') => if handled e then h e w' else (Raise e, w')
           | r => r
           end.

(** [except Exception]: everything but SystemExit. *)
Definition is_Exception (e : exn) : bool :=
  match e with SystemExit _ => false | _ => true end.

Definition is_CalledProcessError (e : exn) : bool :=
  match e with CalledProcessError _ _ => true | _ => false end.

Definition get_world : M world := fun w => (Ret w, w).

Definition print (s : string) : M unit :=
  fun w => (Ret tt, set_stdout (w_stdout w ++ [s]) w).

Fixpoint print_all (l : list string) : M unit :=
  match l with
  | [] => ret tt
  | s :: r => _ ← print s; print_all r
  end.

(** [input(prompt)]: shows the prompt and reads one line. *)
Definition input (prompt : string) : M string :=
  fun w =>
    let w' := set_stdout (w_stdout w ++ [prompt]) w in
    match w_stdin w with
    | [] => (Raise EOFError, w')
    | line :: rest => (Ret line, set_stdin rest w')
    end.

Definition getcwd : M string := fun w => (Ret (w_cwd w), w).
Definition getuser : M string := fun w => (Ret (w_user w), w).

Definition os_expanduser (p : string) : M string :=
  fun w => (Ret (expanduser (w_home w) (w_pw_dir w) p), w).

Definition os_abspath (p : string) : M string :=
  fun w => (Ret (abspath (w_cwd w) p), w).

Definition os_path_exists (p : string) : M bool :=
  fun w => (Ret (path_exists (w_fs w) (w_cwd w) p), w).

Definition os_path_isdir (p : string) : M bool :=
  fun w => (Ret (path_isdir (w_fs w) (w_cwd w) p), w).

(** [Path(p).exists()] and [Path(p).is_file()]: an error of the lookup
    that does not stand for absence is raised, with the path as [pathlib]
    writes it. *)
Definition Path_exists (p : string) : M bool :=
  fun w => match Path_stat (w_fs w) (w_cwd w) p with
           | inr _ => (Ret true, w)
           | inl errno =>
               if pathlib_ignores errno then (Ret false, w)
               else (Raise (OSError errno (Path_str p)), w)
           end.

Definition Path_is_file (p : string) : M bool :=
  fun w => match Path_stat (w_fs w) (w_cwd w) p with
           | inr (File _) => (Ret true, w)
           | inr Dir => (Ret false, w)
           | inl errno =>
               if pathlib_ignores errno then (Ret false, w)
               else (Raise (OSError errno (Path_str p)), w)
           end.

Definition os_mkdir (p : string) : M unit :=
  fun w => match fs_mkdir (w_fs w) (w_cwd w) p with
           | inl errno => (Raise (OSError errno p), w)
           | inr f => (Ret tt, set_fs f w)
           end.

Definition is_OSError (e : exn) : bool :=
  match e with OSError _ _ => true | _ => false end.

Definition is_FileExistsError (e : exn) : bool :=
  match e with OSError errno _ => errno =? EEXIST | _ => false end.

(** [os.makedirs(name, exist_ok=True)], as the standard library writes
    it: the directories above [name] are made first, from the outermost
    one that is missing, then [name] itself, and a failure to make [name]
    counts only if [name] is no directory afterwards.  Each call is for a
    shorter path than the one before; [fuel] bounds their number. *)
Fixpoint makedirs (fuel : nat) (name : string) : M unit :=
  let '(head, tail) := path_split name in
  let '(head, tail) := if PyStr.nonempty tail then (head, tail) else path_split head in
  missing ← (if PyStr.nonempty head && PyStr.nonempty tail
             then found ← os_path_exists head; ret (negb found)
             else ret false);
  made ← (if missing : bool then
            match fuel with
            | O => ret false
            | S fuel' =>
                _ ← try_except (makedirs fuel' head) is_FileExistsError (fun _ => ret tt);
                ret (String.eqb tail ".")
            end
          else ret false);
  if made : bool then ret tt
  else try_except (os_mkdir name) is_OSError
         (fun e => isdir ← os_path_isdir name;
                   if isdir : bool then ret tt else raise e).

Definition os_makedirs (p : string) : M unit := makedirs (String.length p) p.

Definition write_file (p : string) (text : string) : M unit :=
  fun w => match fs_write (w_fs w) (w_cwd w) p text with
           | inl errno => (Raise (OSError errno p), w)
           | inr f => (Ret tt, set_fs f w)
           end.

Definition read_file (p : string) : M string :=
  fun w => match fs_read (w_fs w) (w_cwd w) p with
           | inl errno => (Raise (OSError errno p), w)
           | inr text => (Ret text, w)
           end.

(** [subprocess.run(cmd, check=check, ...)]: the exit status and the
    captured output. *)
Definition subprocess_run (cmd : list string) (check : bool) : M (N * string) :=
  fun w =>
    let log := w_cmds w ++ [cmd] in
    match w_sys w log with
    | LaunchError errno => (Raise (OSError errno (hd EmptyString cmd)), w)
    | Completed returncode stdout =>
        if check && negb (returncode =? 0)%N
        then (Raise (CalledProcessError cmd returncode), set_cmds log w)
        else (Ret (returncode, stdout), set_cmds log w)
    end.

(** An argument of a command line or of a path function must be text. *)
Definition as_text (v : value) : M string :=
  match v with
  | VStr s => ret s
  | VList _ => raise (TypeError "expected str, bytes or os.PathLike object, not list")
  end.

(** [d[k]] *)
Definition dict_index (k : string) (d : dict) : M value :=
  match dict_get k d with
  | Some v => ret v
  | None => raise (KeyError k)
  end.

(** The names that the [getpass] module of the standard library binds
    (its dunder attributes aside); [user] is not one of them. *)
Definition getpass_namespace : list string :=
  ["getpass"; "getuser"; "GetPassWarning"; "unix_getpass"; "win_getpass";
   "fallback_getpass"; "contextlib"; "io"; "os"; "sys"; "warnings"; "termios"].

(** [getpass.<name>]; the objects of the module are functions, classes
    and modules, all truthy, and the model names them by [name]. *)
Definition getpass_getattr (name : string) : M value :=
  if existsb (String.eqb name) getpass_namespace then ret (VStr name)
  else raise (AttributeError ("module 'getpass' has no attribute " +:+ PyStr.repr name)).

(** [int(s)]; the message of an invalid literal shows the first 200
    characters of its [repr]. *)
Definition py_int (s : string) : M Z :=
  match PyStr.int s with
  | PyStr.IntOk n => ret n
  | PyStr.IntInvalidLiteral =>
      raise (ValueError ("invalid literal for int() with base 10: "
                         +:+ substring 0 200 (PyStr.repr s)))
  | PyStr.IntTooManyDigits digits =>
      raise (ValueError
               ("Exceeds the limit (" +:+ PyStr.str_N (N.of_nat PyStr.int_max_str_digits)
                +:+ " digits) for integer string conversion: value has "
                +:+ PyStr.str_N (N.of_nat digits)
                +:+ " digits; use sys.set_int_max_str_digits() to increase the limit"))
  end.

Definition str_nat (n : nat) : string := PyStr.str_N (N.of_nat n).

Definition or_default (s d : string) : string := if PyStr.nonempty s then s else d.

(** Truthiness of an optional command-line argument: given and not empty. *)
Definition given (o : option string) : option string :=
  match o with
  | Some s => if PyStr.nonempty s then Some s else None
  | None => None
  end.

Definition is_given (o : option string) : bool :=
  match given o with Some _ => true | None => false end.

(** ** The tasks (main.py, lines 81-162)

    Each task is called as [ray.get(task.remote(...))], which runs it and
    waits for its result: a plain call. *)

Definition validate_python_script (script_path : value) : M (bool * string) :=
  p ← as_text script_path;
  found ← Path_exists p;
  if negb found then ret (false, "Script " +:+ p +:+ " does not exist")
  else
    is_file ← Path_is_file p;
    if negb is_file then ret (false, p +:+ " is not a file")
    else ret (true, "Script is valid").

Definition validate_venv (venv_path : value) : M (bool * string) :=
  p ← as_text venv_path;
  let activate_script := path_join (path_join p "bin") "activate" in
  found ← os_path_exists activate_script;
  if negb found then ret (false, "Virtual environment not found at " +:+ p)
  else ret (true, "Virtual environment is valid").

(** [template_name in TEMPLATES]; a list cannot be hashed. *)
Definition lookup_template (template_name : value) : M (option template_entry) :=
  match template_name with
  | VStr t => ret (templates_get t TEMPLATES)
  | VList _ => raise (TypeError "unhashable type: 'list'")
  end.

(** The call of [jinja2.Template(t).render] with the record unpacked
    into keyword arguments: a key [self] clashes with the receiver of the
    call. *)
Definition template_render (t : list tnode) (context : dict) : M string :=
  match dict_get "self" context with
  | Some _ => raise (TypeError "Template.render() got multiple values for argument 'self'")
  | None => ret (render context t)
  end.

Definition create_service_file (service_name template_name : value)
    (context : dict) (output_dir : string) : M (bool * string) :=
  try_except
    (entry ← lookup_template template_name;
     match entry with
     | None => ret (false, "Unknown template: " +:+ str_value template_name)
     | Some e =>
         service_content ← template_render (t_template e) context;
         _ ← os_makedirs output_dir;
         let service_path :=
           path_join output_dir (str_value service_name +:+ ".service") in
         _ ← write_file service_path service_content;
         ret (true, service_path)
     end)
    is_Exception
    (fun e => ret (false, exn_str e)).

Definition deploy_service (service_name : value) (service_path : string)
    : M (bool * string) :=
  try_except
    (_ ← subprocess_run
           ["sudo"; "cp"; service_path;
            "/etc/systemd/system/" +:+ str_value service_name +:+ ".service"] true;
     _ ← subprocess_run ["sudo"; "systemctl"; "daemon-reload"] true;
     ret (true, "Service " +:+ str_value service_name +:+ " deployed successfully"))
    is_CalledProcessError
    (fun e => ret (false, "Failed to deploy service: " +:+ exn_str e)).

Definition enable_service (service_name : value) : M (bool * string) :=
  try_except
    (name ← as_text service_name;
     _ ← subprocess_run ["sudo"; "systemctl"; "enable"; name] true;
     _ ← subprocess_run ["sudo"; "systemctl"; "start"; name] true;
     result ← subprocess_run ["systemctl"; "is-active"; name] false;
     if String.eqb (PyStr.strip (snd result)) "active" then
       ret (true, "Service " +:+ name +:+ " is now active and enabled at boot")
     else
       ret (false, "Service " +:+ name
                   +:+ " is not active, check logs with: sudo journalctl -u " +:+ name))
    is_CalledProcessError
    (fun e => ret (false, "Failed to enable/start service: " +:+ exn_str e)).

Definition check_service_status (service_name : value) : M (bool * string) :=
  try_except
    (name ← as_text service_name;
     result ← subprocess_run ["systemctl"; "status"; name] false;
     ret (true, snd result))
    is_CalledProcessError
    (fun _ => ret (false, "Failed to get status for " +:+ str_value service_name)).

(** ** The wizard (lines 189-278) *)

Definition restart_options : list string :=
  ["no"; "always"; "on-success"; "on-failure"; "on-abnormal"; "on-abort"; "on-watchdog"].

(** [options[idx]] *)
Definition list_index {A} (l : list A) (idx : Z) : M A :=
  let i := if idx <? 0 then idx + Z.of_nat (List.length l) else idx in
  match (if i <? 0 then None else nth_error l (Z.to_nat i)) with
  | Some x => ret x
  | None => raise IndexError
  end.

Definition len {A} (l : list A) : Z := Z.of_nat (List.length l).

(** Lines 204-207: the menu position chosen at the template prompt. *)
Definition choose_template_idx (template_choice : string) : M Z :=
  if PyStr.nonempty template_choice && PyStr.isdigit template_choice then
    n ← py_int template_choice;
    ret (if (0 <=? n - 1) && (n - 1 <? len TEMPLATES) then n - 1 else 0)
  else ret 0.

(** Lines 253-256: the position chosen at the restart-policy prompt. *)
Definition choose_restart_idx (restart_choice : string) : M Z :=
  if PyStr.nonempty restart_choice && PyStr.isdigit restart_choice then
    n ← py_int restart_choice;
    ret (if (0 <=? n) && (n <? len restart_options) then n else 1)
  else ret 1.

Definition gather_service_info : M dict :=
  _ ← print (nl +:+ "=== Python Systemd Deployment Wizard ===");
  let service_info : dict := [] in
  name ← input "Service name: ";
  let service_info := dict_set "name" (VStr (PyStr.strip name)) service_info in
  description ← input "Service description: ";
  let service_info := dict_set "description" (VStr (PyStr.strip description)) service_info in
  _ ← print (nl +:+ "Available templates:");
  _ ← print_all
        (imap (fun i kv => str_nat (S i) +:+ ") " +:+ t_name (snd kv) +:+ " - "
                           +:+ t_description (snd kv)) TEMPLATES);
  template_choice ← input ("Select template [1-" +:+ str_nat (List.length TEMPLATES) +:+ "]: ");
  template_idx ← choose_template_idx (PyStr.strip template_choice);
  template_id ← list_index (map fst TEMPLATES) template_idx;
  let service_info := dict_set "template" (VStr template_id) service_info in
  default_dir ← getcwd;
  working_dir ← input ("Working directory [default: " +:+ default_dir +:+ "]: ");
  let service_info :=
    dict_set "working_directory"
      (VStr (or_default (PyStr.strip working_dir) default_dir)) service_info in
  venv_path ← input "Path to virtual environment (e.g., /path/to/venv): ";
  venv_path ← os_expanduser (PyStr.strip venv_path);
  venv_path ← os_abspath venv_path;
  let service_info := dict_set "venv_path" (VStr venv_path) service_info in
  service_info ←
    (if String.eqb template_id "standard_python" then
       script_path ← input "Full path to Python script: ";
       script_path ← os_expanduser (PyStr.strip script_path);
       script_path ← os_abspath script_path;
       let service_info := dict_set "script_path" (VStr script_path) service_info in
       script_args ← input "Script arguments (if any): ";
       ret (dict_set "script_args" (VStr (PyStr.strip script_args)) service_info)
     else if String.eqb template_id "gunicorn" then
       bind_address ← input "Bind address (e.g., 0.0.0.0:8000): ";
       let service_info :=
         dict_set "bind_address"
           (VStr (or_default (PyStr.strip bind_address) "0.0.0.0:8000")) service_info in
       app_module ←
         input "App module (e.g., app:app for Flask or wsgi:application for Django): ";
       ret (dict_set "app_module" (VStr (PyStr.strip app_module)) service_info)
     else ret service_info);
  default_user ← getuser;
  user ← input ("User to run the service [default: " +:+ default_user +:+ "]: ");
  let service_info :=
    dict_set "user" (VStr (or_default (PyStr.strip user) default_user)) service_info in
  let default_group := default_user in
  group ← input ("Group to run the service [default: " +:+ default_group +:+ "]: ");
  let service_info :=
    dict_set "group" (VStr (or_default (PyStr.strip group) default_group)) service_info in
  _ ← print (nl +:+ "Restart policies:");
  _ ← print_all (imap (fun i policy => str_nat i +:+ ") " +:+ policy) restart_options);
  restart_choice ← input "Select restart policy [default: 1 (always)]: ";
  restart_idx ← choose_restart_idx (PyStr.strip restart_choice);
  restart_policy ← list_index restart_options restart_idx;
  let service_info := dict_set "restart_policy" (VStr restart_policy) service_info in
  restart_sec ← input "Restart delay in seconds [default: 3]: ";
  let service_info :=
    dict_set "restart_sec" (VStr (or_default (PyStr.strip restart_sec) "3")) service_info in
  _ ← print (nl +:+ "Additional environment variables (beyond PATH and PYTHONUNBUFFERED)");
  _ ← print "Format: KEY1=VALUE1 KEY2=VALUE2 (space-separated)";
  env_vars ← input "Environment variables: ";
  let service_info :=
    dict_set "additional_env_vars" (VList (parse_env_vars (PyStr.strip env_vars)))
      service_info in
  _ ← print (nl +:+ "=== Service Configuration Summary ===");
  _ ← print_all (map (fun kv => fst kv +:+ ": " +:+ str_value (snd kv)) service_info);
  confirm ← input (nl +:+ "Does this look correct? [Y/n]: ");
  if String.eqb (PyStr.lower (PyStr.strip confirm)) "n" then
    _ ← print "Configuration cancelled. Please run the wizard again.";
    raise (SystemExit 0)
  else ret service_info.

(** ** The config store (lines 280-301) *)

Definition save_service_config (service_info : dict) (path : option string) : M string :=
  path ← match path with
         | Some p => ret p
         | None =>
             config_dir ← os_expanduser "~/.config/pysysddeploy";
             _ ← os_makedirs config_dir;
             name ← dict_index "name" service_info;
             ret (path_join config_dir (str_value name +:+ ".json"))
         end;
  _ ← write_file path (Json.dumps service_info);
  ret path.

(** [json.load(f)], on the text read from [f]. *)
Definition json_load (text : string) : M dict :=
  match Json.loads text with
  | Some d => ret d
  | None => raise JSONDecodeError
  end.

Definition load_service_config (name path : option string) : M (option dict) :=
  path ← match path, name with
         | None, Some n => p ← os_expanduser ("~/.config/pysysddeploy/" +:+ n +:+ ".json");
                           ret (Some p)
         | _, _ => ret path
         end;
  match path with
  | None =>
      raise (TypeError
        "stat: path should be string, bytes, os.PathLike or integer, not NoneType")
  | Some path =>
      found ← os_path_exists path;
      if negb found then ret None
      else
        c ← read_file path;
        d ← json_load c;
        ret (Some d)
  end.

(** ** Preview and the edit loop (lines 303-348) *)

Definition preview_service_file (template_name : value) (context : dict) : M unit :=
  entry ← lookup_template template_name;
  match entry with
  | None => print ("Unknown template: " +:+ str_value template_name)
  | Some e =>
      service_content ← template_render (t_template e) context;
      _ ← print (nl +:+ "=== Service File Preview ===");
      _ ← print service_content;
      print "==========================="
  end.

(** One pass of the [while True] loop per unit of [fuel]; every pass
    reads at least one line, so one unit per pending line and one more
    is enough to reach the end of the input. *)
Fixpoint edit_loop (fuel : nat) (service_info : dict) : M dict :=
  match fuel with
  | O => raise EOFError
  | S fuel' =>
      _ ← print (nl +:+ "=== Edit Service Configuration ===");
      let fields := dict_keys service_info in
      _ ← print_all (imap (fun i kv => str_nat (S i) +:+ ") " +:+ fst kv +:+ ": "
                                       +:+ str_value (snd kv)) service_info);
      _ ← print (str_nat (S (List.length fields)) +:+ ") Done editing");
      choice ← input ("Select field to edit [1-" +:+ str_nat (S (List.length fields)) +:+ "]: ");
      let choice := PyStr.strip choice in
      if negb (PyStr.isdigit choice) then edit_loop fuel' service_info
      else
        choice ← py_int choice;
        if choice =? len fields + 1 then ret service_info
        else if (1 <=? choice) && (choice <=? len fields) then
          field ← list_index fields (choice - 1);
          current ← dict_index field service_info;
          match current with
          | VList l =>
              _ ← print ("Current value: " +:+ PyStr.join " " l);
              new_value ← input ("Enter new value for " +:+ field
                                 +:+ " (space-separated list): ");
              edit_loop fuel'
                (dict_set field (VList (parse_env_vars (PyStr.strip new_value))) service_info)
          | VStr cur =>
              new_value ← input ("Enter new value for " +:+ field +:+ " [current: "
                                 +:+ cur +:+ "]: ");
              let new_value := PyStr.strip new_value in
              edit_loop fuel'
                (if PyStr.nonempty new_value
                 then dict_set field (VStr new_value) service_info
                 else service_info)
          end
        else
          _ ← print "Invalid choice";
          edit_loop fuel' service_info
  end.

Definition edit_service_info (service_info : dict) : M dict :=
  w ← get_world;
  edit_loop (S (List.length (w_stdin w))) service_info.

(** ** The create command (lines 350-375 and 394-514) *)

Record args := {
  a_interactive : bool;
  a_load : option string;
  a_name : option string;
  a_template : option string;
  a_description : option string;
  a_working_dir : option string;
  a_venv_path : option string;
  a_script_path : option string;
  a_script_args : option string;
  a_bind_address : option string;
  a_app_module : option string;
  a_user : option string;
  a_group : option string;
  a_restart : string;
  a_restart_sec : string;
  a_env : option string;
  a_preview : bool;
  a_edit : bool;
  a_output : option string
}.

(** What the parser leaves when only [create] is given. *)
Definition default_args : args :=
  {| a_interactive := false; a_load := None; a_name := None; a_template := None;
     a_description := None; a_working_dir := None; a_venv_path := None;
     a_script_path := None; a_script_args := None; a_bind_address := None;
     a_app_module := None; a_user := None; a_group := None;
     a_restart := "always"; a_restart_sec := "3"; a_env := None;
     a_preview := false; a_edit := false; a_output := None |}.

Definition text_of (o : option string) : string :=
  match o with Some s => s | None => EmptyString end.

(** Lines 405 and 408: the command-line branch is taken without
    [--load] and [--interactive] and with a name, a template and a
    virtual environment. *)
Definition flag_mode (a : args) : bool :=
  negb (is_given (a_load a))
  && negb (a_interactive a
           || negb (is_given (a_name a) && is_given (a_template a)
                    && is_given (a_venv_path a))).

(** Lines 419-438: the record built from the flags. *)
Definition flags_service_info (a : args) : M dict :=
  let template := text_of (a_template a) in
  let name := text_of (a_name a) in
  let description :=
    match given (a_description a) with
    | Some d => d
    | None => "Python service " +:+ name
    end in
  working_directory ←
    match given (a_working_dir a) with
    | Some d => d ← os_expanduser d; os_abspath d
    | None => getcwd
    end;
  venv_path ← os_expanduser (text_of (a_venv_path a));
  venv_path ← os_abspath venv_path;
  user ← match given (a_user a) with
         | Some u => ret u
         | None => getuser
         end;
  group ← match given (a_group a) with
          | Some g => ret (VStr g)
          | None =>
              attr ← getpass_getattr "user";
              if truthy attr then ret attr
              else u ← getuser; ret (VStr u)
          end;
  let service_info : dict :=
    [ ("name", VStr name);
      ("description", VStr description);
      ("template", VStr template);
      ("working_directory", VStr working_directory);
      ("venv_path", VStr venv_path);
      ("user", VStr user);
      ("group", group);
      ("restart_policy", VStr (a_restart a));
      ("restart_sec", VStr (a_restart_sec a));
      ("additional_env_vars", VList (parse_env_vars (text_of (given (a_env a))))) ] in
  if String.eqb template "standard_python" then
    script_path ← os_expanduser (text_of (a_script_path a));
    script_path ← os_abspath script_path;
    let service_info := dict_set "script_path" (VStr script_path) service_info in
    ret (dict_set "script_args" (VStr (text_of (given (a_script_args a)))) service_info)
  else if String.eqb template "gunicorn" then
    let service_info :=
      dict_set "bind_address"
        (VStr (match given (a_bind_address a) with
               | Some b => b
               | None => "0.0.0.0:8000"
               end)) service_info in
    ret (dict_set "app_module" (VStr (text_of (a_app_module a))) service_info)
  else ret service_info.

(** Lines 396-438: load the record, ask for it, or build it from the
    flags.  [inl code] is an early [return code]. *)
Definition build_service_info (a : args) : M (Z + dict) :=
  match given (a_load a) with
  | Some file =>
      service_info ← load_service_config None (Some file);
      match service_info with
      | None =>
          _ ← print ("Error: Could not load configuration from " +:+ file);
          ret (inl 1)
      | Some d =>
          _ ← print ("Loaded service configuration from " +:+ file);
          ret (inr d)
      end
  | None =>
      if a_interactive a
         || negb (is_given (a_name a) && is_given (a_template a)
                  && is_given (a_venv_path a))
      then d ← gather_service_info; ret (inr d)
      else
        let template := text_of (a_template a) in
        if String.eqb template "standard_python" && negb (is_given (a_script_path a)) then
          _ ← print "Error: --script-path is required for standard_python template";
          ret (inl 1)
        else if String.eqb template "gunicorn" && negb (is_given (a_app_module a)) then
          _ ← print "Error: --app-module is required for gunicorn template";
          ret (inl 1)
        else d ← flags_service_info a; ret (inr d)
  end.

Definition value_eqb (v : value) (s : string) : bool :=
  match v with
  | VStr t => String.eqb t s
  | VList _ => false
  end.

Definition dict_truthy (d : dict) : bool :=
  match d with [] => false | _ => true end.

(** Lines 444-460: the two advisory checks; [Some code] is an early
    [return code]. *)
Definition check_paths (service_info : dict) : M (option Z) :=
  venv_path ← dict_index "venv_path" service_info;
  _ ← print (nl +:+ "Validating virtual environment at " +:+ str_value venv_path +:+ "...");
  '(is_valid, message) ← validate_venv venv_path;
  stop ← (if negb is_valid then
            _ ← print ("Warning: " +:+ message);
            proceed ← input "Virtual environment validation failed. Proceed anyway? [y/N]: ";
            ret (negb (String.eqb (PyStr.lower (PyStr.strip proceed)) "y"))
          else ret false);
  if stop : bool then ret (Some 1)
  else
    template ← dict_index "template" service_info;
    if value_eqb template "standard_python" then
      script_path ← dict_index "script_path" service_info;
      _ ← print ("Validating script at " +:+ str_value script_path +:+ "...");
      '(is_valid, message) ← validate_python_script script_path;
      if negb is_valid then
        _ ← print ("Warning: " +:+ message);
        proceed ← input "Script validation failed. Proceed anyway? [y/N]: ";
        ret (if String.eqb (PyStr.lower (PyStr.strip proceed)) "y" then None else Some 1)
      else ret None
    else ret None.

(** Lines 463-469. *)
Definition preview_step (a : args) (service_info : dict) : M (option Z) :=
  if a_preview a then
    template ← dict_index "template" service_info;
    _ ← preview_service_file template service_info;
    proceed ← input (nl +:+ "Proceed with creation? [Y/n]: ");
    ret (if String.eqb (PyStr.lower (PyStr.strip proceed)) "n" then Some 0 else None)
  else ret None.

(** Lines 396-469: everything the create command does before it saves
    the record.  [inl code] is an early [return code], [inr d] the record
    that goes on to be saved. *)
Definition prepare_config (a : args) : M (Z + dict) :=
  built ← build_service_info a;
  match built with
  | inl code => ret (inl code)
  | inr service_info =>
      service_info ← (if a_edit a && dict_truthy service_info
                      then edit_service_info service_info
                      else ret service_info);
      stop ← check_paths service_info;
      match stop with
      | Some code => ret (inl code)
      | None =>
          stop ← preview_step a service_info;
          match stop with
          | Some code => ret (inl code)
          | None => ret (inr service_info)
          end
      end
  end.

(** Lines 497-514. *)
Definition deploy_step (service_info : dict) (result : string) : M unit :=
  deploy ← input "Deploy service now? [y/N]: ";
  if String.eqb (PyStr.lower (PyStr.strip deploy)) "y" then
    _ ← print "Deploying service...";
    name ← dict_index "name" service_info;
    '(success, message) ← deploy_service name result;
    _ ← print message;
    if success : bool then
      start ← input "Start and enable service? [Y/n]: ";
      if negb (String.eqb (PyStr.lower (PyStr.strip start)) "n") then
        name ← dict_index "name" service_info;
        '(success, message) ← enable_service name;
        _ ← print message;
        if success : bool then
          name ← dict_index "name" service_info;
          '(_, status) ← check_service_status name;
          _ ← print (nl +:+ "Service Status:");
          print status
        else ret tt
      else ret tt
    else ret tt
  else ret tt.

(** Lines 471-514: save the record, write the unit file, deploy. *)
Definition persist_and_deploy (a : args) (service_info : dict) : M (option Z) :=
  config_path ← save_service_config service_info None;
  _ ← print ("Configuration saved to: " +:+ config_path);
  output_dir ← match given (a_output a) with
               | Some o => ret o
               | None => os_expanduser "~/systemd-services"
               end;
  _ ← print "Creating service file...";
  name ← dict_index "name" service_info;
  template ← dict_index "template" service_info;
  '(success, result) ← create_service_file name template service_info output_dir;
  if negb success then
    _ ← print ("Error creating service file: " +:+ result);
    ret (Some 1)
  else
    _ ← print ("Service file created at: " +:+ result);
    text ← read_file result;
    _ ← print (nl +:+ "=== Service File ===");
    _ ← print text;
    _ ← print "===================";
    _ ← deploy_step service_info result;
    ret None.

(** [main()] for [args.command == "create"]. *)
Definition main_create (a : args) : M (option Z) :=
  prepared ← prepare_config a;
  match prepared with
  | inl code => ret (Some code)
  | inr service_info => persist_and_deploy a service_info
  end.

(** ** The other commands (lines 516-570) *)

(** [s.endswith(suffix)] *)
Definition endswith (suffix s : string) : bool :=
  PyStr.prefix_of (PyStr.rev_string suffix) (PyStr.rev_string s).

Fixpoint rfind_char_from (x : ascii) (s : string) (i found : Z) : Z :=
  match s with
  | EmptyString => found
  | String c r => rfind_char_from x r (i + 1) (if Ascii.eqb c x then i else found)
  end.

(** [s.rfind(x)] for a single character: its last position, or -1. *)
Definition rfind_char (x : ascii) (s : string) : Z := rfind_char_from x s 0 (-1).

(** [os.path.splitext(p)]: the extension starts at the last dot of the
    last component, unless nothing but dots comes before it there. *)
Definition splitext (p : string) : string * string :=
  let sepIndex := rfind_char PyStr.slash p in
  let dotIndex := rfind_char "." p in
  if sepIndex <? dotIndex then
    let leading :=
      substring (Z.to_nat (sepIndex + 1)) (Z.to_nat (dotIndex - (sepIndex + 1))) p in
    if PyStr.all_chars (fun c => Ascii.eqb c ".") leading then (p, EmptyString)
    else (substring 0 (Z.to_nat dotIndex) p,
          substring (Z.to_nat dotIndex) (String.length p - Z.to_nat dotIndex) p)
  else (p, EmptyString).

(** The names in the directory [q]. *)
Definition entries (f : fs) (q : path) : list string :=
  omap (fun kv : path * node => if decide (parent kv.1 = q) then last kv.1 else None)
       (map_to_list f).

(** [os.listdir(p)].  The system lists a directory in no particular
    order; the model lists it in the order of the map. *)
Definition os_listdir (p : string) : M (list string) :=
  fun w => match resolve (w_fs w) (w_cwd w) p with
           | inl errno => (Raise (OSError errno p), w)
           | inr q =>
               match lookup_node (w_fs w) q with
               | Some Dir => (Ret (entries (w_fs w) q), w)
               | Some (File _) => (Raise (OSError ENOTDIR p), w)
               | None => (Raise (OSError ENOENT p), w)
               end
           end.

(** Line 531: the display name of the template of a loaded
    configuration; [config] is [None] when the file was not found. *)
Definition template_display_name (config : option dict) : M string :=
  match config with
  | None => raise (TypeError "argument of type 'NoneType' is not iterable")
  | Some d =>
      match dict_get "template" d with
      | None => ret "Unknown"
      | Some (VList _) => raise (TypeError "unhashable type: 'list'")
      | Some (VStr t) =>
          match templates_get t TEMPLATES with
          | Some e => ret (t_name e)
          | None => raise (KeyError t)
          end
      end
  end.

(** Lines 528-532: one line per saved configuration, numbered from [i]. *)
Fixpoint list_configs (i : nat) (configs : list string) : M unit :=
  match configs with
  | [] => ret tt
  | config_file :: rest =>
      let service_name := fst (splitext config_file) in
      config ← load_service_config (Some service_name) None;
      template_name ← template_display_name config;
      _ ← print (str_nat i +:+ ") " +:+ service_name +:+ " - " +:+ template_name);
      list_configs (S i) rest
  end.

(** The arguments of [create --load file]. *)
Definition load_from (file : string) : args :=
  {| a_interactive := false; a_load := Some file; a_name := None;
     a_template := None; a_description := None; a_working_dir := None;
     a_venv_path := None; a_script_path := None; a_script_args := None;
     a_bind_address := None; a_app_module := None; a_user := None;
     a_group := None; a_restart := "always"; a_restart_sec := "3";
     a_env := None; a_preview := false; a_edit := false; a_output := None |}.

(** [main()] for [args.command == "list"].  [os.execl] replaces the
    process by a run of the program with [create --load <file>]: what
    that run does is what is left of this one, and it reads on where
    this one stopped reading (as on a terminal). *)
Definition main_list : M (option Z) :=
  config_dir ← os_expanduser "~/.config/pysysddeploy";
  found ← os_path_exists config_dir;
  if negb found then
    _ ← print "No saved service configurations found.";
    ret (Some 0)
  else
    names ← os_listdir config_dir;
    let configs := List.filter (endswith ".json") names in
    match configs with
    | [] =>
        _ ← print "No saved service configurations found.";
        ret (Some 0)
    | _ =>
        _ ← print (nl +:+ "Saved service configurations:");
        _ ← list_configs 1 configs;
        select ← input (nl +:+ "Enter number to view details (or press Enter to cancel): ");
        let select := PyStr.strip select in
        chosen ← (if PyStr.nonempty select && PyStr.isdigit select then
                    n ← py_int select;
                    ret ((1 <=? n) && (n <=? len configs))
                  else ret false);
        if chosen : bool then
          n ← py_int select;
          config_file ← list_index configs (n - 1);
          let service_name := fst (splitext config_file) in
          config ← load_service_config (Some service_name) None;
          _ ← print (nl +:+ "=== " +:+ service_name +:+ " Configuration ===");
          config ← match config with
                   | Some d => ret d
                   | None =>
                       raise (AttributeError "'NoneType' object has no attribute 'items'")
                   end;
          _ ← print_all (map (fun kv => fst kv +:+ ": " +:+ str_value (snd kv)) config);
          option ← input (nl +:+ "[L]oad this config, [P]review service file, or [C]ancel? ");
          let option := PyStr.lower (PyStr.strip option) in
          if String.eqb option "l" then
            main_create (load_from (path_join config_dir config_file))
          else if String.eqb option "p" then
            template ← dict_index "template" config;
            _ ← preview_service_file template config;
            ret None
          else ret None
        else ret None
    end.

(** [main()] for [args.command == "status"]. *)
Definition main_status (name : string) : M (option Z) :=
  '(_, status) ← check_service_status (VStr name);
  _ ← print status;
  ret None.

(** [main()] for [args.command == "stop"]. *)
Definition main_stop (name : string) : M (option Z) :=
  _ ← try_except
        (_ ← subprocess_run ["sudo"; "systemctl"; "stop"; name] true;
         print ("Service " +:+ name +:+ " stopped"))
        is_CalledProcessError
        (fun e => print ("Failed to stop service: " +:+ exn_str e));
  ret None.

(** [main()] for [args.command == "start"]. *)
Definition main_start (name : string) : M (option Z) :=
  _ ← try_except
        (_ ← subprocess_run ["sudo"; "systemctl"; "start"; name] true;
         '(_, status) ← check_service_status (VStr name);
         print status)
        is_CalledProcessError
        (fun e => print ("Failed to start service: " +:+ exn_str e));
  ret None.

(** The commands of the parser (lines 353-390). *)
Inductive command :=
| Create (a : args)
| ListConfigs
| Status (name : string)
| Stop (name : string)
| Start (name : string).

(** [main()], once the arguments are parsed. *)
Definition main (c : command) : M (option Z) :=
  match c with
  | Create a => main_create a
  | ListConfigs => main_list
  | Status name => main_status name
  | Stop name => main_stop name
  | Start name => main_start name
  end.

(** [sys.exit(main())]: the exit status of the process. *)
Definition exit_status (r : option Z) : Z :=
  match r with
  | Some code => code
  | None => 0
  end.

(** ** Vocabulary of the properties *)

(** The template-specific flag that flag mode insists on (lines 412-417). *)
Definition required_field_missing (a : args) : bool :=
  String.eqb (text_of (a_template a)) "standard_python" && negb (is_given (a_script_path a))
  || String.eqb (text_of (a_template a)) "gunicorn" && negb (is_given (a_app_module a)).

(** The three commands of [enable_service]. *)
Definition enable_cmd (name : string) : list string := ["sudo"; "systemctl"; "enable"; name].
Definition start_cmd (name : string) : list string := ["sudo"; "systemctl"; "start"; name].
Definition is_active_cmd (name : string) : list string := ["systemctl"; "is-active"; name].

(** The lines of a unit file. *)
Definition lines (text : string) : list string := PyStr.split_char PyStr.LF text.

(** The text the templates emit for one entry of [additional_env_vars],
    and the lines it takes. *)
Definition env_line (entry : string) : string := "Environment=" +:+ dq +:+ entry +:+ dq.

Definition entry_lines (entry : string) : list string := lines (env_line entry).

Fixpoint strip_prefix (p s : string) : option string :=
  match p, s with
  | EmptyString, _ => Some s
  | String a p', String b s' => if Ascii.eqb a b then strip_prefix p' s' else None
  | String _ _, EmptyString => None
  end.

(** A line of the form [Environment="..."]. *)
Definition is_env_line (line : string) : bool :=
  match strip_prefix ("Environment=" +:+ dq) line with
  | Some rest => PyStr.endswith_char PyStr.dquote rest
  | None => false
  end.

Definition no_line_break (s : string) : bool := negb (PyStr.contains_char PyStr.LF s).

(** The nodes of a template piece are text and expressions, none of them
    naming [k]. *)
Definition plain_without (k : string) (t : list tnode) : bool :=
  forallb (fun n => match n with
                    | TText _ => true
                    | TExpr name => negb (String.eqb name k)
                    | _ => false
                    end) t.

(** The lines every unit file ends with. *)
Definition unit_tail_lines : list string := [""; "[Install]"; "WantedBy=multi-user.target"].

(** A computation that changes nothing but the files. *)
Definition files_only {A} (m : M A) : Prop :=
  forall w, exists f, snd (m w) = set_fs f w.

(** The directory of the config store. *)
Definition config_dir (w : world) : string :=
  expanduser (w_home w) (w_pw_dir w) "~/.config/pysysddeploy".

(** The invariant the specification states for the name of a record,
    in two parts: the name is a non-empty text, and it is safe as a
    file-name stem (no slash and no NUL character). *)
Definition name_nonempty (d : dict) : Prop :=
  exists n, dict_get "name" d = Some (VStr n) /\ PyStr.nonempty n = true.

Definition filesystem_safe (n : string) : bool :=
  negb (PyStr.contains_char PyStr.slash n) && negb (PyStr.contains_char "000"%char n).

(** An entry that can be typed as it is: not empty, and free of spaces
    and double quotes. *)
Definition plain_entry (e : string) : bool :=
  PyStr.nonempty e && negb (PyStr.contains_char " " e)
  && negb (PyStr.contains_char PyStr.dquote e).


(** A computation that talks and does nothing else: however it ends, the
    world it leaves is the one it started in, up to the lines read and
    the texts printed. *)
Definition quiet {A} (m : M A) : Prop :=
  forall w, exists stdin stdout, snd (m w) = set_stdin stdin (set_stdout stdout w).

(** Two values of the same kind: both texts, or both lists. *)
Definition same_kind (v v' : value) : bool :=
  match v, v' with
  | VStr _, VStr _ | VList _, VList _ => true
  | _, _ => false
  end.

(** Two records with the same keys in the same order, each holding a
    value of the same kind in both. *)
Definition same_shape (d d' : dict) : Prop :=
  Forall2 (fun kv kv' => fst kv = fst kv' /\ same_kind (snd kv) (snd kv') = true) d d'.

(** The fields of a record of the wizard, in the order it asks for
    them. *)
Definition wizard_fields (template : string) : list string :=
  ["name"; "description"; "template"; "working_directory"; "venv_path"]
  ++ (if String.eqb template "standard_python" then ["script_path"; "script_args"]
      else ["bind_address"; "app_module"])
  ++ ["user"; "group"; "restart_policy"; "restart_sec"; "additional_env_vars"].

(** The other commands the program runs. *)
Definition cp_cmd (name service_path : string) : list string :=
  ["sudo"; "cp"; service_path; "/etc/systemd/system/" +:+ name +:+ ".service"].
Definition reload_cmd : list string := ["sudo"; "systemctl"; "daemon-reload"].
Definition status_cmd (name : string) : list string := ["systemctl"; "status"; name].
Definition stop_cmd (name : string) : list string := ["sudo"; "systemctl"; "stop"; name].

(** Every command can be started: the system answers each with an exit
    status. *)
Definition launches (w : world) : Prop :=
  forall log, exists rc out, w_sys w log = Completed rc out.

(** A text of ASCII characters. *)
Definition ascii_only (s : string) : bool :=
  PyStr.all_chars (fun c => (PyStr.code c <? 128)%N) s.

(** The commands of a deployment, in the order they are run. *)
Definition deploy_sequence (name service_path : string) : list (list string) :=
  [ cp_cmd name service_path; reload_cmd; enable_cmd name; start_cmd name;
    is_active_cmd name; status_cmd name ].

(** What a template expression prints for a field: the value as text,
    and nothing when the record lacks the field. *)
Definition field (ctx : dict) (k : string) : string :=
  match dict_get k ctx with
  | Some v => str_value v
  | None => EmptyString
  end.

(** The entries the templates loop over. *)
Definition env_entries (ctx : dict) : list string :=
  match dict_get "additional_env_vars" ctx with
  | Some v => iterate v
  | None => []
  end.

(** The fields a template prints as text. *)
Definition unit_fields (id : string) : list string :=
  ["description"; "venv_path"]
  ++ (if String.eqb id "standard_python" then ["script_path"; "script_args"]
      else ["bind_address"; "app_module"])
  ++ ["working_directory"; "user"; "group"; "restart_policy"; "restart_sec"].

(** The command line of the unit. *)
Definition exec_start (id : string) (ctx : dict) : string :=
  "ExecStart=/bin/bash -c " +:+ dq +:+ "source " +:+ field ctx "venv_path"
  +:+ "/bin/activate && "
  +:+ (if String.eqb id "standard_python"
       then "python3 " +:+ field ctx "script_path" +:+ " " +:+ field ctx "script_args"
       else "gunicorn --bind " +:+ field ctx "bind_address" +:+ " "
            +:+ field ctx "app_module")
  +:+ dq.

(** The unit of a record, line by line. *)
Definition unit_lines (id : string) (ctx : dict) : list string :=
  [ ""; "[Unit]"; "Description=" +:+ field ctx "description"; "After=network.target";
    ""; "[Service]"; exec_start id ctx;
    "WorkingDirectory=" +:+ field ctx "working_directory";
    "User=" +:+ field ctx "user"; "Group=" +:+ field ctx "group";
    "Restart=" +:+ field ctx "restart_policy";
    "RestartSec=" +:+ field ctx "restart_sec";
    env_line ("PATH=" +:+ field ctx "venv_path" +:+ "/bin:$PATH");
    env_line "PYTHONUNBUFFERED=1"; "" ]
  ++ map env_line (env_entries ctx) ++ unit_tail_lines.

(** The lines of a text that continues another: the last line of the
    first text runs on into the first line of the second. *)
Definition glue (la lb : list string) : list string :=
  match lb with
  | [] => la
  | h :: t => removelast la ++ (List.last la EmptyString +:+ h) :: t
  end.


(** ** Worlds, arguments and records to run the program on *)

Definition no_system : list (list string) -> proc_result := fun _ => Completed 0 EmptyString.

(** A service manager under which every command succeeds and the unit
    reports [active]. *)
Definition healthy_system : list (list string) -> proc_result :=
  fun log =>
    match last log with
    | Some ("systemctl" :: "is-active" :: _) => Completed 0 ("active" +:+ nl)
    | _ => Completed 0 EmptyString
    end.

(** A service manager under which the unit is enabled and started but
    is found [inactive] (exit status 3 of is-active). *)
Definition idle_system : list (list string) -> proc_result :=
  fun log =>
    match last log with
    | Some ("systemctl" :: "is-active" :: _) => Completed 3 ("inactive" +:+ nl)
    | _ => Completed 0 EmptyString
    end.

(** A service manager under which the unit is enabled but fails to
    start, with exit status 5. *)
Definition unstartable_system : list (list string) -> proc_result :=
  fun log =>
    match last log with
    | Some ("sudo" :: "systemctl" :: "start" :: _) => Completed 5 EmptyString
    | _ => Completed 0 EmptyString
    end.

(** A service manager that refuses every request with exit status 1. *)
Definition refusing_system : list (list string) -> proc_result :=
  fun _ => Completed 1 EmptyString.

(** A machine with [/tmp] and the home directory [/home/ops]. *)
Definition small_fs : fs :=
  <[ ["home"; "ops"] := Dir ]> (<[ ["home"] := Dir ]> (<[ ["tmp"] := Dir ]> ∅)).

Definition small_world (stdin : list string) : world :=
  {| w_fs := small_fs; w_cwd := "/home/ops"; w_home := "/home/ops";
     w_pw_dir := fun _ => None; w_user := "ops"; w_stdin := stdin;
     w_stdout := []; w_cmds := []; w_sys := no_system |}.

(** The same machine with a virtual environment in [/tmp/venv] and a
    script [/tmp/x.py]. *)
Definition venv_fs : fs :=
  <[ ["tmp"; "x.py"] := File "" ]>
  (<[ ["tmp"; "venv"; "bin"; "activate"] := File "" ]>
  (<[ ["tmp"; "venv"; "bin"] := Dir ]>
  (<[ ["tmp"; "venv"] := Dir ]> small_fs))).

Definition venv_world (stdin : list string) : world := set_fs venv_fs (small_world stdin).

Definition with_sys (sys : list (list string) -> proc_result) (w : world) : world :=
  World (w_fs w) (w_cwd w) (w_home w) (w_pw_dir w) (w_user w) (w_stdin w)
        (w_stdout w) (w_cmds w) sys.



(** Flag-mode arguments for a [standard_python] service. *)
Definition flag_args : args :=
  {| a_interactive := false; a_load := None; a_name := Some "demo";
     a_template := Some "standard_python"; a_description := None;
     a_working_dir := None; a_venv_path := Some "/tmp/venv";
     a_script_path := Some "/tmp/x.py"; a_script_args := None;
     a_bind_address := None; a_app_module := None; a_user := None;
     a_group := Some "ops"; a_restart := "always"; a_restart_sec := "3";
     a_env := None; a_preview := false; a_edit := false; a_output := None |}.

Definition with_script_path (o : option string) (a : args) : args :=
  {| a_interactive := a_interactive a; a_load := a_load a; a_name := a_name a;
     a_template := a_template a; a_description := a_description a;
     a_working_dir := a_working_dir a; a_venv_path := a_venv_path a;
     a_script_path := o; a_script_args := a_script_args a;
     a_bind_address := a_bind_address a; a_app_module := a_app_module a;
     a_user := a_user a; a_group := a_group a; a_restart := a_restart a;
     a_restart_sec := a_restart_sec a; a_env := a_env a;
     a_preview := a_preview a; a_edit := a_edit a; a_output := a_output a |}.

Definition with_group (o : option string) (a : args) : args :=
  {| a_interactive := a_interactive a; a_load := a_load a; a_name := a_name a;
     a_template := a_template a; a_description := a_description a;
     a_working_dir := a_working_dir a; a_venv_path := a_venv_path a;
     a_script_path := a_script_path a; a_script_args := a_script_args a;
     a_bind_address := a_bind_address a; a_app_module := a_app_module a;
     a_user := a_user a; a_group := o; a_restart := a_restart a;
     a_restart_sec := a_restart_sec a; a_env := a_env a;
     a_preview := a_preview a; a_edit := a_edit a; a_output := a_output a |}.

Definition with_name (o : option string) (a : args) : args :=
  {| a_interactive := a_interactive a; a_load := a_load a; a_name := o;
     a_template := a_template a; a_description := a_description a;
     a_working_dir := a_working_dir a; a_venv_path := a_venv_path a;
     a_script_path := a_script_path a; a_script_args := a_script_args a;
     a_bind_address := a_bind_address a; a_app_module := a_app_module a;
     a_user := a_user a; a_group := a_group a; a_restart := a_restart a;
     a_restart_sec := a_restart_sec a; a_env := a_env a;
     a_preview := a_preview a; a_edit := a_edit a; a_output := a_output a |}.

(** The record of the specification's end-to-end scenario. *)
Definition demo_ctx : dict :=
  [ ("name", VStr "demo"); ("description", VStr "Python service demo");
    ("template", VStr "standard_python"); ("working_directory", VStr "/home/ops");
    ("venv_path", VStr "/tmp/venv"); ("user", VStr "ops"); ("group", VStr "ops");
    ("restart_policy", VStr "always"); ("restart_sec", VStr "3");
    ("additional_env_vars", VList []);
    ("script_path", VStr "/tmp/x.py"); ("script_args", VStr "") ].

(** A record with one entry that holds a line break. *)
Definition multiline_ctx : dict :=
  dict_set "additional_env_vars" (VList ["MOTD=hello" +:+ nl +:+ "world"]) demo_ctx.

(** Answers to the wizard that leave every field at its default, the
    name included: an empty name, the first template, the virtual
    environment [/tmp/venv], the script [/tmp/x.py]; the configuration is
    confirmed and the unit is not deployed. *)
Definition blank_name_answers : list string :=
  [""; ""; ""; ""; "/tmp/venv"; "/tmp/x.py"; ""; ""; ""; ""; ""; ""; ""; ""].

(** The one-character string U+00B2 (superscript two): a digit for
    [str.isdigit], not a literal for [int]. *)
Definition superscript_two : string := String "178"%char EmptyString.

(** A decimal numeral one digit longer than [int] converts. *)
Definition long_numeral : string := PyStr.repeat_char "1" 4301.

(** A saved configuration whose name is empty, and the arguments that
    load it. *)
Definition stored_fs : fs :=
  <[ ["tmp"; "cfg.json"] := File (Json.dumps (dict_set "name" (VStr "") demo_ctx)) ]> venv_fs.

Definition load_args : args :=
  {| a_interactive := false; a_load := Some "/tmp/cfg.json"; a_name := None;
     a_template := None; a_description := None; a_working_dir := None;
     a_venv_path := None; a_script_path := None; a_script_args := None;
     a_bind_address := None; a_app_module := None; a_user := None;
     a_group := None; a_restart := "always"; a_restart_sec := "3";
     a_env := None; a_preview := false; a_edit := false; a_output := None |}.

(** The record the wizard builds from [blank_name_answers]. *)
Definition blank_name_record : dict :=
  [ ("name", VStr ""); ("description", VStr "");
    ("template", VStr "standard_python"); ("working_directory", VStr "/home/ops");
    ("venv_path", VStr "/tmp/venv"); ("script_path", VStr "/tmp/x.py");
    ("script_args", VStr ""); ("user", VStr "ops"); ("group", VStr "ops");
    ("restart_policy", VStr "always"); ("restart_sec", VStr "3");
    ("additional_env_vars", VList []) ].

(** The machine after the wizard was run with [blank_name_answers]: the
    configuration is saved under the empty name. *)
Definition nameless_saved_world : world :=
  snd (main_create default_args (venv_world blank_name_answers)).

(** The entry of the registry for [standard_python]. *)
Definition standard_python_entry : template_entry :=
  {| t_name := "Standard Python Script";
     t_description := "Run a Python script in a virtual environment";
     t_template := STANDARD_PYTHON_TEMPLATE |}.

(** Flag-mode arguments with relative paths. *)
Definition relative_flag_args : args :=
  {| a_interactive := false; a_load := None; a_name := Some "demo";
     a_template := Some "standard_python"; a_description := None;
     a_working_dir := None; a_venv_path := Some "venv";
     a_script_path := Some "x.py"; a_script_args := None;
     a_bind_address := None; a_app_module := None; a_user := None;
     a_group := Some "ops"; a_restart := "always"; a_restart_sec := "3";
     a_env := None; a_preview := false; a_edit := false; a_output := None |}.


(** * Properties *)

#[local] Arguments String.append !_ _ / : simpl nomatch.

(** ** Strings *)

Lemma append_assoc (a b c : string) : (a +:+ b) +:+ c = a +:+ (b +:+ c).
Proof. induction a as [|x a IH]; simpl; [reflexivity | now rewrite IH]. Qed.

Lemma append_nil_r (a : string) : a +:+ "" = a.
Proof. induction a as [|x a IH]; simpl; [reflexivity | now rewrite IH]. Qed.

(** ** The monad *)

Lemma bind_ret {A B} (a : A) (k : A -> M B) (w : world) :
  (mret a ≫= k) w = k a w.
Proof. reflexivity. Qed.

Lemma bind_eq {A B} (m : M A) (k : A -> M B) (w w' : world) (a : A) :
  m w = (Ret a, w') -> (m ≫= k) w = k a w'.
Proof. intros H. unfold mbind, M_bind, bind. now rewrite H. Qed.

Lemma bind_raise {A B} (m : M A) (k : A -> M B) (w w' : world) (e : exn) :
  m w = (Raise e, w') -> (m ≫= k) w = (Raise e, w').
Proof. intros H. unfold mbind, M_bind, bind. now rewrite H. Qed.

(** A computation bound to a continuation returns only if it returned
    itself. *)
Lemma bind_inv {A B} (m : M A) (k : A -> M B) (w w' : world) (b : B) :
  (m ≫= k) w = (Ret b, w') ->
  exists a w1, m w = (Ret a, w1) /\ k a w1 = (Ret b, w').
Proof.
  unfold mbind, M_bind, bind. destruct (m w) as [[a|e] w1]; intros H.
  - eauto.
  - discriminate.
Qed.

Lemma bind_ext {A B} (m : M A) (k1 k2 : A -> M B) (w : world) :
  (forall a w', m w = (Ret a, w') -> k1 a w' = k2 a w') ->
  (m ≫= k1) w = (m ≫= k2) w.
Proof.
  intros H. unfold mbind, M_bind, bind.
  destruct (m w) as [[a|e] w']; [now apply H | reflexivity].
Qed.

Lemma bind_ext_l {A B} (m1 m2 : M A) (k : A -> M B) (w : world) :
  m1 w = m2 w -> (m1 ≫= k) w = (m2 ≫= k) w.
Proof. unfold mbind, M_bind, bind. now intros ->. Qed.

(** ** parse_env_vars *)

(** C3. Parsing [KEY1=VALUE1 "KEY2=VALUE WITH SPACES"] yields exactly two
    tokens; the second keeps its inner spaces, and the tokenizer keeps
    the surrounding double quotes in the token: they are not stripped. *)
Theorem parse_env_vars_quoted_sample :
  parse_env_vars sample_env_string
  = [ "KEY1=VALUE1"; dq +:+ "KEY2=VALUE WITH SPACES" +:+ dq ]
  /\ List.length (parse_env_vars sample_env_string) = 2%nat.
Proof. split; reflexivity. Qed.

Lemma count_char_app (x : ascii) (a b : string) :
  PyStr.count_char x (a +:+ b) = (PyStr.count_char x a + PyStr.count_char x b)%nat.
Proof.
  induction a as [|c a IH]; [reflexivity|].
  cbn [String.append PyStr.count_char]. rewrite IH. lia.
Qed.

Lemma concat_strings_snoc (l : list string) (s : string) :
  PyStr.concat_strings (l ++ [s]) = PyStr.concat_strings l +:+ s.
Proof.
  induction l as [|x l IH]; cbn [app PyStr.concat_strings].
  - cbn [String.append]. apply append_nil_r.
  - rewrite IH. symmetry. apply append_assoc.
Qed.

(** The tokenizer drops nothing but separating spaces: every double
    quote of the input is in a token. *)
Lemma parse_env_vars_loop_quotes (s : string) :
  forall parts current in_quotes,
    PyStr.count_char PyStr.dquote
      (PyStr.concat_strings (parse_env_vars_loop s parts current in_quotes))
    = (PyStr.count_char PyStr.dquote (PyStr.concat_strings parts)
       + PyStr.count_char PyStr.dquote current
       + PyStr.count_char PyStr.dquote s)%nat.
Proof.
  induction s as [|c s IH]; intros parts current in_quotes; cbn [parse_env_vars_loop].
  - destruct current as [|x current]; cbn [PyStr.nonempty PyStr.count_char]; [lia|].
    rewrite concat_strings_snoc, count_char_app. cbn [PyStr.count_char]. lia.
  - destruct (Ascii.eqb c PyStr.dquote) eqn:Hq.
    + rewrite IH, count_char_app. cbn [PyStr.count_char PyStr.char]. rewrite Hq. lia.
    + cbn [PyStr.count_char]. rewrite Hq.
      destruct (Ascii.eqb c " " && negb in_quotes).
      * destruct current as [|x current]; cbn [PyStr.nonempty]; rewrite IH.
        -- reflexivity.
        -- rewrite concat_strings_snoc, count_char_app. cbn [PyStr.count_char]. lia.
      * rewrite IH, count_char_app. cbn [PyStr.count_char PyStr.char]. rewrite Hq. lia.
Qed.

Lemma parse_env_vars_keeps_quotes (s : string) :
  PyStr.count_char PyStr.dquote (PyStr.concat_strings (parse_env_vars s))
  = PyStr.count_char PyStr.dquote s.
Proof.
  unfold parse_env_vars. destruct s as [|c s]; [reflexivity|].
  cbn [PyStr.nonempty negb]. now rewrite parse_env_vars_loop_quotes.
Qed.

(** No token is empty. *)
Lemma parse_env_vars_loop_nonempty (s : string) :
  forall parts current in_quotes,
    Forall (fun t => PyStr.nonempty t = true) parts ->
    Forall (fun t => PyStr.nonempty t = true)
      (parse_env_vars_loop s parts current in_quotes).
Proof.
  induction s as [|c s IH]; intros parts current in_quotes Hparts;
    cbn [parse_env_vars_loop].
  - destruct (PyStr.nonempty current) eqn:Hc; [|exact Hparts].
    apply Forall_app. split; [exact Hparts | now constructor].
  - destruct (Ascii.eqb c PyStr.dquote); [now apply IH|].
    destruct (Ascii.eqb c " " && negb in_quotes); [|now apply IH].
    destruct (PyStr.nonempty current) eqn:Hc; apply IH; [|exact Hparts].
    apply Forall_app. split; [exact Hparts | now constructor].
Qed.

Lemma parse_env_vars_nonempty (s : string) :
  Forall (fun t => PyStr.nonempty t = true) (parse_env_vars s).
Proof.
  unfold parse_env_vars. destruct (negb (PyStr.nonempty s)); [constructor|].
  apply parse_env_vars_loop_nonempty. constructor.
Qed.

(** ** The template registry *)

Lemma TEMPLATES_keys : map fst TEMPLATES = ["standard_python"; "gunicorn"].
Proof. reflexivity. Qed.

Lemma templates_get_unknown (t : string) :
  t <> "standard_python" -> t <> "gunicorn" -> templates_get t TEMPLATES = None.
Proof.
  intros H1 H2. unfold TEMPLATES, templates_get.
  destruct (String.eqb_spec "standard_python" t) as [E|_]; [congruence|].
  destruct (String.eqb_spec "gunicorn" t) as [E|_]; [congruence|].
  reflexivity.
Qed.

(** C8. For a template identifier outside the two entries of the
    registry, [create_service_file] returns the failure
    [Unknown template: <identifier>] and leaves the world as it was (no
    directory made, no unit file written), and the preview prints the
    same message and does nothing else. *)
Theorem unknown_template_rejected (t : string) (service_name : value)
    (context : dict) (output_dir : string) (w : world) :
  t <> "standard_python" -> t <> "gunicorn" ->
  create_service_file service_name (VStr t) context output_dir w
  = (Ret (false, "Unknown template: " +:+ t), w)
  /\ preview_service_file (VStr t) context w
     = (Ret tt, set_stdout (w_stdout w ++ ["Unknown template: " +:+ t]) w).
Proof.
  intros H1 H2.
  pose proof (templates_get_unknown t H1 H2) as Hget.
  unfold create_service_file, preview_service_file, try_except, lookup_template.
  unfold mbind, M_bind, bind, ret. rewrite Hget. split; reflexivity.
Qed.

Lemma unknown_template_rejected_witness :
  create_service_file (VStr "demo") (VStr "nginx") [] "/tmp/out" (small_world [])
  = (Ret (false, "Unknown template: nginx"), small_world [])
  /\ preview_service_file (VStr "nginx") [] (small_world [])
     = (Ret tt, set_stdout (w_stdout (small_world []) ++ ["Unknown template: nginx"])
                  (small_world [])).
Proof.
  apply (unknown_template_rejected "nginx" (VStr "demo") [] "/tmp/out" (small_world []));
    discriminate.
Defined.

(** ** Flag mode *)

Lemma flag_mode_inv (a : args) :
  flag_mode a = true ->
  given (a_load a) = None /\ a_interactive a = false
  /\ is_given (a_name a) = true /\ is_given (a_template a) = true
  /\ is_given (a_venv_path a) = true.
Proof.
  unfold flag_mode, is_given.
  destruct (given (a_load a)); [discriminate|].
  destruct (a_interactive a); [discriminate|].
  destruct (given (a_name a)); [|discriminate].
  destruct (given (a_template a)); [|discriminate].
  destruct (given (a_venv_path a)); [|discriminate].
  auto.
Qed.

(** In flag mode the first branches of the create command are passed. *)
Lemma build_service_info_flag_mode (a : args) (w : world) :
  flag_mode a = true ->
  build_service_info a w =
    (let template := text_of (a_template a) in
     if String.eqb template "standard_python" && negb (is_given (a_script_path a)) then
       _ ← print "Error: --script-path is required for standard_python template";
       mret (inl 1)
     else if String.eqb template "gunicorn" && negb (is_given (a_app_module a)) then
       _ ← print "Error: --app-module is required for gunicorn template";
       mret (inl 1)
     else d ← flags_service_info a; mret (inr d)) w.
Proof.
  intros H. destruct (flag_mode_inv a H) as (Hl & Hi & Hn & Ht & Hv).
  unfold build_service_info. rewrite Hl, Hi, Hn, Ht, Hv. reflexivity.
Qed.

(** C6. In flag mode, a [standard_python] template without a script
    path, or a [gunicorn] template without an app module, makes the
    create command print the error that names the missing flag and return
    1 at once: the world differs from the initial one by that printed line
    only, so no config file and no unit file is written and no command is
    run. *)
Theorem flag_mode_missing_required_field (a : args) (w : world) :
  flag_mode a = true ->
  (a_template a = Some "standard_python" /\ is_given (a_script_path a) = false
   \/ a_template a = Some "gunicorn" /\ is_given (a_app_module a) = false) ->
  main_create a w
  = (Ret (Some 1),
     set_stdout
       (w_stdout w
        ++ [if String.eqb (text_of (a_template a)) "standard_python"
            then "Error: --script-path is required for standard_python template"
            else "Error: --app-module is required for gunicorn template"]) w)
  /\ w_fs (snd (main_create a w)) = w_fs w
  /\ w_cmds (snd (main_create a w)) = w_cmds w.
Proof.
  intros Hflag Hmiss.
  match goal with |- ?P /\ _ => assert (Hrun : P) end.
  { unfold main_create, prepare_config.
    unfold mbind at 1 2, M_bind at 1 2, bind at 1 2.
    rewrite (build_service_info_flag_mode a w Hflag).
    destruct Hmiss as [[Ht Hs] | [Ht Hs]]; rewrite Ht, Hs; reflexivity. }
  rewrite Hrun. auto.
Qed.

Lemma flag_mode_missing_required_field_witness :
  main_create (with_script_path None flag_args) (small_world [])
  = (Ret (Some 1),
     set_stdout ["Error: --script-path is required for standard_python template"]
       (small_world []))
  /\ w_fs (snd (main_create (with_script_path None flag_args) (small_world []))) = small_fs
  /\ w_cmds (snd (main_create (with_script_path None flag_args) (small_world []))) = [].
Proof.
  apply (flag_mode_missing_required_field (with_script_path None flag_args) (small_world [])).
  - reflexivity.
  - left. split; reflexivity.
Defined.

(** When the template-specific flag is there, flag mode goes on to build
    the record from the flags. *)
Lemma build_service_info_flags (a : args) (w : world) :
  flag_mode a = true -> required_field_missing a = false ->
  build_service_info a w = (d ← flags_service_info a; mret (inr d)) w.
Proof.
  intros Hflag Hreq. rewrite (build_service_info_flag_mode a w Hflag).
  unfold required_field_missing in Hreq. apply orb_false_iff in Hreq as [H1 H2].
  cbv zeta. rewrite H1, H2. reflexivity.
Qed.

(** [user] is not a name of the [getpass] module. *)
Lemma getpass_user_missing (w : world) :
  getpass_getattr "user" w
  = (Raise (AttributeError "module 'getpass' has no attribute 'user'"), w).
Proof. reflexivity. Qed.


(** C4. In flag mode, when [--group] is omitted (or empty), computing the
    default of the group evaluates [getpass.user], which the module does
    not have: building the record from the flags raises AttributeError,
    and so does the create command once the template-specific flag is
    there, before anything is printed or written.  There is no fall-back
    to the account name, which is what the wizard uses. *)
Theorem flag_mode_group_default_raises (a : args) (w : world) :
  is_given (a_group a) = false ->
  flags_service_info a w
  = (Raise (AttributeError "module 'getpass' has no attribute 'user'"), w)
  /\ (flag_mode a = true -> required_field_missing a = false ->
      main_create a w
      = (Raise (AttributeError "module 'getpass' has no attribute 'user'"), w)).
Proof.
  intros Hgroup.
  assert (Hflags : flags_service_info a w
    = (Raise (AttributeError "module 'getpass' has no attribute 'user'"), w)).
  { unfold is_given in Hgroup.
    destruct (given (a_group a)) eqn:Hg; [discriminate|].
    unfold flags_service_info. rewrite Hg.
    unfold mbind, M_bind, bind, mret, M_ret, ret, os_expanduser, os_abspath, getcwd, getuser.
    destruct (given (a_working_dir a)); destruct (given (a_user a)); reflexivity. }
  split; [exact Hflags|].
  intros Hflag Hreq.
  unfold main_create, prepare_config.
  unfold mbind at 1 2, M_bind at 1 2, bind at 1 2.
  rewrite (build_service_info_flags a w Hflag Hreq).
  now rewrite (bind_raise _ _ _ _ _ Hflags).
Qed.

Lemma flag_mode_group_default_raises_witness :
  main_create (with_group None flag_args) (small_world [])
  = (Raise (AttributeError "module 'getpass' has no attribute 'user'"), small_world []).
Proof.
  exact (proj2 (flag_mode_group_default_raises (with_group None flag_args)
                  (small_world []) eq_refl) eq_refl eq_refl).
Defined.

(** With [--group] given, the same flags build the record. *)
Lemma flag_mode_group_given :
  fst (flags_service_info flag_args (small_world []))
  = Ret [ ("name", VStr "demo"); ("description", VStr "Python service demo");
          ("template", VStr "standard_python");
          ("working_directory", VStr "/home/ops"); ("venv_path", VStr "/tmp/venv");
          ("user", VStr "ops"); ("group", VStr "ops");
          ("restart_policy", VStr "always"); ("restart_sec", VStr "3");
          ("additional_env_vars", VList []);
          ("script_path", VStr "/tmp/x.py"); ("script_args", VStr "") ].
Proof. reflexivity. Qed.

(** ** The validators *)




(** The message of a failed script check names the path. *)
Lemma missing_script_message_names_path (p : string) :
  PyStr.contains p ("Script " +:+ p +:+ " does not exist") = true.
Proof.
  assert (Hpre : forall a b, PyStr.prefix_of a (a +:+ b) = true).
  { induction a as [|c a IH]; intros b; simpl; [reflexivity|].
    now rewrite Ascii.eqb_refl, IH. }
  assert (Hsub : forall pre s, PyStr.contains p s = true ->
                               PyStr.contains p (pre +:+ s) = true).
  { induction pre as [|c pre IH]; intros s H; simpl; [exact H|].
    rewrite (IH s H). apply orb_true_r. }
  apply (Hsub "Script "). destruct p; simpl; [reflexivity|].
  now rewrite Ascii.eqb_refl, Hpre.
Qed.

(** A list in place of a path is a type error, not a verdict. *)
Lemma validators_reject_lists (l : list string) (w : world) :
  fst (validate_python_script (VList l) w)
  = Raise (TypeError "expected str, bytes or os.PathLike object, not list")
  /\ fst (validate_venv (VList l) w)
     = Raise (TypeError "expected str, bytes or os.PathLike object, not list").
Proof. split; reflexivity. Qed.

(** ** Enabling and starting the unit *)

(** C7, as amended. [enable_service] runs [sudo systemctl enable], then
    [sudo systemctl start], then [systemctl is-active], and stops at the
    first of the first two that exits with another status than 0: it then
    reports the failure of that command, [Failed to enable/start service:
    Command '[...]' returned non-zero exit status N.], and runs nothing
    else.  When both exit with status 0 it reports success exactly when
    the output of is-active, stripped of surrounding white space, is
    [active], whatever the exit status of is-active; otherwise it reports
    the failure that points at [journalctl]. *)
Theorem enable_service_outcome (s : string) (w : world)
    (rc1 rc2 rc3 : N) (out1 out2 out3 : string) :
  w_sys w (w_cmds w ++ [enable_cmd s]) = Completed rc1 out1 ->
  (rc1 = 0%N ->
   w_sys w (w_cmds w ++ [enable_cmd s; start_cmd s]) = Completed rc2 out2) ->
  (rc1 = 0%N -> rc2 = 0%N ->
   w_sys w (w_cmds w ++ [enable_cmd s; start_cmd s; is_active_cmd s])
   = Completed rc3 out3) ->
  enable_service (VStr s) w
  = if negb (rc1 =? 0)%N then
      (Ret (false, "Failed to enable/start service: Command '"
                   +:+ PyStr.str_list (enable_cmd s)
                   +:+ "' returned non-zero exit status " +:+ PyStr.str_N rc1 +:+ "."),
       set_cmds (w_cmds w ++ [enable_cmd s]) w)
    else if negb (rc2 =? 0)%N then
      (Ret (false, "Failed to enable/start service: Command '"
                   +:+ PyStr.str_list (start_cmd s)
                   +:+ "' returned non-zero exit status " +:+ PyStr.str_N rc2 +:+ "."),
       set_cmds (w_cmds w ++ [enable_cmd s; start_cmd s]) w)
    else
      (Ret (if String.eqb (PyStr.strip out3) "active"
            then (true, "Service " +:+ s +:+ " is now active and enabled at boot")
            else (false, "Service " +:+ s
                         +:+ " is not active, check logs with: sudo journalctl -u " +:+ s)),
       set_cmds (w_cmds w ++ [enable_cmd s; start_cmd s; is_active_cmd s]) w).
Proof.
  intros H1 H2 H3.
  unfold enable_service, try_except, as_text, subprocess_run.
  unfold mbind, M_bind, bind, ret. fold (enable_cmd s) (start_cmd s) (is_active_cmd s).
  rewrite H1. cbn [andb].
  destruct (N.eqb_spec rc1 0) as [->|Hrc1]; cbn [negb]; [|reflexivity].
  cbn [w_cmds w_sys set_cmds].
  rewrite <- app_assoc. cbn [app]. rewrite (H2 eq_refl). cbn [andb].
  destruct (N.eqb_spec rc2 0) as [->|Hrc2]; cbn [negb]; [|reflexivity].
  cbn [w_cmds w_sys set_cmds].
  rewrite <- app_assoc. cbn [app]. rewrite (H3 eq_refl eq_refl).
  cbn [andb negb w_cmds w_sys set_cmds snd].
  destruct (String.eqb (PyStr.strip out3) "active"); reflexivity.
Qed.

Lemma enable_service_outcome_witness :
  enable_service (VStr "demo") (with_sys healthy_system (small_world []))
  = (Ret (true, "Service demo is now active and enabled at boot"),
     set_cmds [enable_cmd "demo"; start_cmd "demo"; is_active_cmd "demo"]
       (with_sys healthy_system (small_world [])))
  /\ enable_service (VStr "demo") (with_sys idle_system (small_world []))
     = (Ret (false, "Service demo is not active, check logs with: sudo journalctl -u demo"),
        set_cmds [enable_cmd "demo"; start_cmd "demo"; is_active_cmd "demo"]
          (with_sys idle_system (small_world [])))
  /\ enable_service (VStr "demo") (with_sys unstartable_system (small_world []))
     = (Ret (false, "Failed to enable/start service: Command '['sudo', 'systemctl', 'start', 'demo']' returned non-zero exit status 5."),
        set_cmds [enable_cmd "demo"; start_cmd "demo"]
          (with_sys unstartable_system (small_world []))).
Proof.
  exact (conj (enable_service_outcome "demo" (with_sys healthy_system (small_world []))
                 0 0 0 "" "" ("active" +:+ nl) eq_refl (fun _ => eq_refl)
                 (fun _ _ => eq_refl))
        (conj (enable_service_outcome "demo" (with_sys idle_system (small_world []))
                 0 0 3 "" "" ("inactive" +:+ nl) eq_refl (fun _ => eq_refl)
                 (fun _ _ => eq_refl))
              (enable_service_outcome "demo" (with_sys unstartable_system (small_world []))
                 0 5 0 "" "" "" eq_refl (fun _ => eq_refl)
                 (fun _ (H : 5%N = 0%N) => match N.eqb_neq 5 0 with
                                           | conj f _ => match f eq_refl H with end
                                           end)))).
Defined.

(** Success is reported only after the three commands, with the unit
    found [active]. *)
Lemma enable_service_success_inv (s : string) (w w' : world) (msg : string) :
  enable_service (VStr s) w = (Ret (true, msg), w') ->
  exists out1 out2 rc out,
    w_sys w (w_cmds w ++ [enable_cmd s]) = Completed 0 out1
    /\ w_sys w (w_cmds w ++ [enable_cmd s; start_cmd s]) = Completed 0 out2
    /\ w_sys w (w_cmds w ++ [enable_cmd s; start_cmd s; is_active_cmd s]) = Completed rc out
    /\ PyStr.strip out = "active"
    /\ w_cmds w' = w_cmds w ++ [enable_cmd s; start_cmd s; is_active_cmd s].
Proof.
  unfold enable_service, try_except, as_text, subprocess_run.
  unfold mbind, M_bind, bind, ret. fold (enable_cmd s) (start_cmd s) (is_active_cmd s).
  destruct (w_sys w (w_cmds w ++ [enable_cmd s])) as [rc1 o1|e1] eqn:H1;
    [|discriminate].
  destruct (N.eqb_spec rc1 0) as [->|Hne]; cbn [andb negb w_cmds w_sys set_cmds is_CalledProcessError];
    [|discriminate].
  rewrite <- app_assoc. cbn [app].
  destruct (w_sys w (w_cmds w ++ [enable_cmd s; start_cmd s])) as [rc2 o2|e2] eqn:H2;
    [|discriminate].
  destruct (N.eqb_spec rc2 0) as [->|Hne]; cbn [andb negb w_cmds w_sys set_cmds is_CalledProcessError];
    [|discriminate].
  rewrite <- app_assoc. cbn [app].
  destruct (w_sys w (w_cmds w ++ [enable_cmd s; start_cmd s; is_active_cmd s]))
    as [rc3 o3|e3] eqn:H3; [|discriminate].
  cbn [andb negb w_cmds w_sys set_cmds snd].
  destruct (String.eqb_spec (PyStr.strip o3) "active") as [Hact|Hact]; [|discriminate].
  intros Heq. injection Heq as _ Hw. subst w'.
  exists o1, o2, rc3, o3. repeat split; auto.
Qed.

(** C7 as stated fails: when [systemctl enable] exits with status 1 the
    unit is neither started nor queried, and the failure reported does not
    mention [journalctl]. *)
Lemma enable_service_failure_without_journalctl :
  exists msg,
    enable_service (VStr "demo") (with_sys refusing_system (small_world []))
    = (Ret (false, msg),
       set_cmds [enable_cmd "demo"] (with_sys refusing_system (small_world [])))
    /\ msg = "Failed to enable/start service: Command '['sudo', 'systemctl', 'enable', 'demo']' returned non-zero exit status 1."
    /\ PyStr.contains "journalctl" msg = false.
Proof. eexists. split; [reflexivity|]. split; reflexivity. Qed.

(** ** Rendering *)

Lemma dict_get_set_eq (k : string) (v : value) (d : dict) :
  dict_get k (dict_set k v d) = Some v.
Proof.
  induction d as [|[k' v'] d IH]; simpl.
  - now rewrite String.eqb_refl.
  - destruct (String.eqb k' k) eqn:E; simpl; rewrite E; [reflexivity | exact IH].
Qed.

Lemma dict_get_set_ne (k k' : string) (v : value) (d : dict) :
  k <> k' -> dict_get k' (dict_set k v d) = dict_get k' d.
Proof.
  intros Hne. induction d as [|[k0 v0] d IH]; simpl.
  - apply String.eqb_neq in Hne. now rewrite Hne.
  - destruct (String.eqb k0 k) eqn:E; simpl.
    + apply String.eqb_eq in E. subst k0.
      apply String.eqb_neq in Hne. now rewrite Hne.
    + now rewrite IH.
Qed.

Lemma render_app (ctx : dict) (t1 t2 : list tnode) :
  render ctx (t1 ++ t2) = render ctx t1 +:+ render ctx t2.
Proof.
  induction t1 as [|n t1 IH]; simpl; [reflexivity|].
  now rewrite IH, append_assoc.
Qed.

(** A piece of template that does not name [k] renders the same whatever
    [k] holds. *)
Lemma render_plain_without (k : string) (v : value) (ctx : dict) (t : list tnode) :
  plain_without k t = true -> render (dict_set k v ctx) t = render ctx t.
Proof.
  induction t as [|n t IH]; simpl; [reflexivity|].
  intros H. apply andb_prop in H as [Hn Ht]. rewrite (IH Ht).
  destruct n as [s|name|? ?|? ? ?]; try discriminate; [reflexivity|].
  simpl. apply negb_true_iff, String.eqb_neq in Hn.
  rewrite dict_get_set_ne by congruence. reflexivity.
Qed.

(** What the block of lines 39-40 renders to: one chunk per entry. *)
Lemma render_env_block (ctx : dict) (l : list string) :
  render_node (dict_set "additional_env_vars" (VList l) ctx) env_block
  = PyStr.concat_strings (map (fun e => nl +:+ env_line e) l).
Proof.
  unfold env_block. cbn [render_node]. rewrite dict_get_set_eq.
  destruct l as [|e l]; [reflexivity|].
  cbn [truthy]. rewrite append_nil_r. reflexivity.
Qed.

Lemma split_char_nonempty (x : ascii) (s : string) : PyStr.split_char x s <> [].
Proof.
  destruct s as [|c s]; simpl; [discriminate|].
  destruct (Ascii.eqb c x); [discriminate|].
  destruct (PyStr.split_char x s); discriminate.
Qed.

(** Splitting at a separator splits the list of pieces. *)
Lemma split_char_app (x : ascii) (a b : string) :
  PyStr.split_char x (a +:+ String x b) = PyStr.split_char x a ++ PyStr.split_char x b.
Proof.
  induction a as [|c a IH]; simpl.
  - now rewrite Ascii.eqb_refl.
  - destruct (Ascii.eqb c x); [now rewrite IH|].
    rewrite IH. pose proof (split_char_nonempty x a) as Hne.
    destruct (PyStr.split_char x a) as [|p ps]; [congruence | reflexivity].
Qed.

Lemma split_char_absent (x : ascii) (s : string) :
  PyStr.contains_char x s = false -> PyStr.split_char x s = [s].
Proof.
  induction s as [|c s IH]; simpl; [reflexivity|].
  intros H. apply orb_false_iff in H as [Hc Hs]. rewrite Hc, (IH Hs). reflexivity.
Qed.


Lemma contains_char_app (x : ascii) (a b : string) :
  PyStr.contains_char x (a +:+ b) = PyStr.contains_char x a || PyStr.contains_char x b.
Proof.
  induction a as [|c a IH]; simpl; [reflexivity|]. now rewrite IH, orb_assoc.
Qed.

Lemma env_line_no_line_break (e : string) :
  no_line_break e = true -> PyStr.contains_char PyStr.LF (env_line e) = false.
Proof.
  unfold no_line_break, env_line. intros H. apply negb_true_iff in H.
  rewrite !contains_char_app, H. reflexivity.
Qed.

Lemma lines_app (a b : string) : lines (a +:+ String PyStr.LF b) = lines a ++ lines b.
Proof. apply split_char_app. Qed.

(** The lines of the chunks of the entries, after the text [p] and
    before the text [rest]: every chunk begins a line. *)
Lemma lines_env_chunks (l : list string) (p rest : string) :
  lines (p +:+ PyStr.concat_strings (map (fun e => nl +:+ env_line e) l)
           +:+ String PyStr.LF rest)
  = lines p ++ flat_map entry_lines l ++ lines rest.
Proof.
  revert p. induction l as [|e l IH]; intros p.
  - cbn [map PyStr.concat_strings String.append flat_map app]. apply lines_app.
  - cbn [map PyStr.concat_strings flat_map].
    change (nl +:+ env_line e) with (String PyStr.LF (env_line e)).
    cbn [String.append]. rewrite lines_app, append_assoc, (IH (env_line e)).
    now rewrite <- app_assoc.
Qed.

(** An entry without a line break takes one line. *)
Lemma entry_lines_no_line_break (e : string) :
  no_line_break e = true -> entry_lines e = [env_line e].
Proof.
  intros H. apply split_char_absent, env_line_no_line_break, H.
Qed.

Lemma flat_map_entry_lines (l : list string) :
  forallb no_line_break l = true -> flat_map entry_lines l = map env_line l.
Proof.
  induction l as [|e l IH]; [reflexivity|]. cbn [forallb flat_map map].
  intros [He Hl]%andb_prop. now rewrite (entry_lines_no_line_break e He), (IH Hl).
Qed.

(** The pieces of a text between its separators are as many as the
    separators and one more, and joined by the separator they give the
    text back. *)
Lemma split_char_length (x : ascii) (s : string) :
  List.length (PyStr.split_char x s) = S (PyStr.count_char x s).
Proof.
  induction s as [|c s IH]; [reflexivity|]. cbn [PyStr.split_char PyStr.count_char].
  destruct (Ascii.eqb c x); cbn [List.length Nat.add]; [now rewrite IH|].
  destruct (PyStr.split_char x s); [discriminate | exact IH].
Qed.

Lemma join_split_char (x : ascii) (s : string) :
  PyStr.join (PyStr.char x) (PyStr.split_char x s) = s.
Proof.
  induction s as [|c s IH]; [reflexivity|]. cbn [PyStr.split_char].
  pose proof (split_char_nonempty x s) as Hne.
  destruct (PyStr.split_char x s) as [|q qs]; [congruence|].
  destruct (Ascii.eqb_spec c x) as [->|Hc].
  - change (PyStr.join (PyStr.char x) (EmptyString :: q :: qs))
      with (String x (PyStr.join (PyStr.char x) (q :: qs))).
    now rewrite IH.
  - destruct qs as [|q' qs]; [cbn [PyStr.join] in *; now rewrite IH|].
    change (PyStr.join (PyStr.char x) (String c q :: q' :: qs))
      with (String c (PyStr.join (PyStr.char x) (q :: q' :: qs))).
    now rewrite IH.
Qed.

(** The two templates share everything from [WorkingDirectory=] on. *)
Lemma templates_shape (id : string) (e : template_entry) :
  templates_get id TEMPLATES = Some e ->
  exists pre : list tnode,
    plain_without "additional_env_vars" pre = true
    /\ t_template e
       = pre
         ++ [ TText ("/bin:$PATH" +:+ dq +:+ nl +:+ "Environment=" +:+ dq
                     +:+ "PYTHONUNBUFFERED=1" +:+ dq +:+ nl) ]
         ++ [env_block] ++ unit_tail.
Proof.
  unfold TEMPLATES, templates_get.
  destruct (String.eqb "standard_python" id).
  - intros [= <-]. exists (removelast (removelast (removelast STANDARD_PYTHON_TEMPLATE))).
    split; reflexivity.
  - destruct (String.eqb "gunicorn" id); [|discriminate].
    intros [= <-]. exists (removelast (removelast (removelast GUNICORN_TEMPLATE))).
    split; reflexivity.
Qed.

(** C1, as amended. For every config record and both templates: the
    lines of the rendered unit are those of the unit rendered with an
    empty [additional_env_vars] list, with the text
    [Environment="<entry>"] of every entry inserted before the closing
    [Install] section, in order, verbatim and from the beginning of a
    line on.  An entry without a line break gives exactly one line, so
    [N] such entries give [N] lines; an entry with [k] line breaks gives
    [k + 1] lines, which joined by line breaks are that text again.  With
    the empty list nothing is inserted. *)
Theorem render_env_lines (ctx : dict) (id : string) (e : template_entry)
    (l : list string) :
  templates_get id TEMPLATES = Some e ->
  exists before : list string,
    lines (render (dict_set "additional_env_vars" (VList []) ctx) (t_template e))
    = before ++ unit_tail_lines
    /\ lines (render (dict_set "additional_env_vars" (VList l) ctx) (t_template e))
       = before ++ flat_map entry_lines l ++ unit_tail_lines
    /\ (forall entry,
          List.length (entry_lines entry) = S (PyStr.count_char PyStr.LF entry)
          /\ PyStr.join nl (entry_lines entry) = env_line entry
          /\ (no_line_break entry = true -> entry_lines entry = [env_line entry]))
    /\ (forallb no_line_break l = true ->
        lines (render (dict_set "additional_env_vars" (VList l) ctx) (t_template e))
        = before ++ map env_line l ++ unit_tail_lines).
Proof.
  intros Hget. destruct (templates_shape id e Hget) as (pre & Hpre & ->).
  assert (Hlines : forall l',
    lines (render (dict_set "additional_env_vars" (VList l') ctx)
             (pre
              ++ [ TText ("/bin:$PATH" +:+ dq +:+ nl +:+ "Environment=" +:+ dq
                          +:+ "PYTHONUNBUFFERED=1" +:+ dq +:+ nl) ]
              ++ [env_block] ++ unit_tail))
    = (lines (render ctx pre +:+ "/bin:$PATH" +:+ dq +:+ nl +:+ "Environment=" +:+ dq
              +:+ "PYTHONUNBUFFERED=1" +:+ dq) ++ [""])
      ++ flat_map entry_lines l' ++ unit_tail_lines).
  { intros l'. rewrite !render_app, (render_plain_without _ _ _ _ Hpre).
    cbn [render]. rewrite render_env_block.
    set (chunks := PyStr.concat_strings (map (fun e0 => nl +:+ env_line e0) l')).
    cbn [render_node unit_tail render].
    rewrite !append_nil_r.
    change (render ctx pre +:+ ("/bin:$PATH" +:+ dq +:+ nl +:+ "Environment=" +:+ dq
              +:+ "PYTHONUNBUFFERED=1" +:+ dq +:+ nl) +:+ chunks
            +:+ nl +:+ nl +:+ "[Install]" +:+ nl +:+ "WantedBy=multi-user.target")
      with (render ctx pre
            +:+ ("/bin:$PATH" +:+ dq +:+ nl +:+ "Environment=" +:+ dq
                 +:+ "PYTHONUNBUFFERED=1" +:+ dq)
            +:+ String PyStr.LF
                 ("" +:+ chunks
                  +:+ String PyStr.LF
                        (nl +:+ "[Install]" +:+ nl +:+ "WantedBy=multi-user.target"))).
    rewrite <- append_assoc, lines_app. subst chunks.
    rewrite (lines_env_chunks l' "" _).
    rewrite <- !app_assoc. reflexivity. }
  eexists. split; [rewrite (Hlines []); reflexivity|].
  split; [apply (Hlines l)|]. split.
  - intros entry. split; [|split].
    + unfold entry_lines, lines, env_line. rewrite split_char_length.
      f_equal. rewrite !count_char_app. change (PyStr.count_char PyStr.LF dq) with O.
      change (PyStr.count_char PyStr.LF "Environment=") with O. lia.
    + apply (join_split_char PyStr.LF).
    + apply entry_lines_no_line_break.
  - intros Hl. rewrite (Hlines l). now rewrite (flat_map_entry_lines l Hl).
Qed.

Lemma render_env_lines_witness :
  exists before : list string,
    lines (render demo_ctx STANDARD_PYTHON_TEMPLATE) = before ++ unit_tail_lines
    /\ lines (render (dict_set "additional_env_vars" (VList ["A=1"; "B=2"]) demo_ctx)
                STANDARD_PYTHON_TEMPLATE)
       = before ++ [env_line "A=1"; env_line "B=2"] ++ unit_tail_lines.
Proof.
  destruct (render_env_lines demo_ctx "standard_python"
              {| t_name := "Standard Python Script";
                 t_description := "Run a Python script in a virtual environment";
                 t_template := STANDARD_PYTHON_TEMPLATE |}
              ["A=1"; "B=2"] eq_refl) as (before & H0 & _ & _ & H2).
  exists before. exact (conj H0 (H2 eq_refl)).
Defined.

(** The end-to-end scenario of the specification: the command line of the
    rendered unit. *)
Lemma render_demo_exec_start :
  nth_error (lines (render demo_ctx STANDARD_PYTHON_TEMPLATE)) 6
  = Some ("ExecStart=/bin/bash -c " +:+ dq
          +:+ "source /tmp/venv/bin/activate && python3 /tmp/x.py " +:+ dq).
Proof. reflexivity. Qed.

(** A record without the key renders like one with the empty list. *)
Lemma render_without_env_key (ctx : dict) (id : string) (e : template_entry) :
  templates_get id TEMPLATES = Some e ->
  dict_get "additional_env_vars" ctx = None ->
  render ctx (t_template e)
  = render (dict_set "additional_env_vars" (VList []) ctx) (t_template e).
Proof.
  intros Hget Hnone. destruct (templates_shape id e Hget) as (pre & Hpre & ->).
  rewrite !render_app, (render_plain_without _ _ _ _ Hpre).
  cbn [render]. rewrite render_env_block.
  unfold env_block. cbn [render_node]. rewrite Hnone. reflexivity.
Qed.

(** C1 as stated fails: one entry that holds a line break gives no line
    of the form [Environment="KEY=VALUE"] for it; the only such lines are
    the two fixed ones, and the entry is spread over two lines. *)
Lemma env_entry_with_line_break :
  dict_get "additional_env_vars" multiline_ctx
  = Some (VList ["MOTD=hello" +:+ nl +:+ "world"])
  /\ List.filter is_env_line (lines (render multiline_ctx STANDARD_PYTHON_TEMPLATE))
     = [ env_line "PATH=/tmp/venv/bin:$PATH"; env_line "PYTHONUNBUFFERED=1" ]
  /\ skipn 14 (lines (render multiline_ctx STANDARD_PYTHON_TEMPLATE))
     = [ ""; "Environment=" +:+ dq +:+ "MOTD=hello"; "world" +:+ dq;
         ""; "[Install]"; "WantedBy=multi-user.target" ].
Proof. repeat split. Qed.

(** ** JSON documents *)

Lemma lex_run_app (a b : string) :
  forall st, Json.lex_run st (a +:+ b)
             = match Json.lex_run st a with
               | Some st' => Json.lex_run st' b
               | None => None
               end.
Proof.
  induction a as [|c a IH]; intros st; [reflexivity|].
  cbn [String.append Json.lex_run]. destruct (Json.lex_step st c); [apply IH | reflexivity].
Qed.

(** An escaped character is read back as the character. *)
Lemma lex_escape_char (c : ascii) (acc : string) (toks : list Json.token) :
  Json.lex_run (Json.LStr acc, toks) (Json.escape_char c)
  = Some (Json.LStr (acc +:+ PyStr.char c), toks).
Proof.
  destruct c as [b0 b1 b2 b3 b4 b5 b6 b7].
  destruct b0, b1, b2, b3, b4, b5, b6, b7; reflexivity.
Qed.

Lemma lex_escape (s : string) :
  forall acc toks,
    Json.lex_run (Json.LStr acc, toks) (Json.escape s) = Some (Json.LStr (acc +:+ s), toks).
Proof.
  induction s as [|c s IH]; intros acc toks; cbn [Json.escape].
  - now rewrite append_nil_r.
  - rewrite lex_run_app, lex_escape_char, IH, append_assoc. reflexivity.
Qed.

Lemma lex_dumps_str (s : string) (toks : list Json.token) :
  Json.lex_run (Json.LOut, toks) (Json.dumps_str s)
  = Some (Json.LOut, toks ++ [Json.TString s]).
Proof.
  unfold Json.dumps_str. change (dq +:+ Json.escape s +:+ dq)
    with (String PyStr.dquote (Json.escape s +:+ dq)).
  cbn [Json.lex_run Json.lex_step]. cbv [Json.is_whitespace].
  cbn [Ascii.eqb Bool.eqb orb PyStr.dquote PyStr.TAB PyStr.LF PyStr.CR].
  rewrite lex_run_app, lex_escape. reflexivity.
Qed.

Lemma join_cons (sep x : string) (r : list string) :
  PyStr.join sep (x :: r) = x +:+ PyStr.concat_strings (map (fun y => sep +:+ y) r).
Proof.
  revert x. induction r as [|y r IH]; intros x.
  - cbn [PyStr.join map PyStr.concat_strings]. now rewrite append_nil_r.
  - cbn [map PyStr.concat_strings]. rewrite append_assoc, <- (IH y). reflexivity.
Qed.

(** Reading pieces that each start with a separator. *)
Lemma lex_separated {A} (f : A -> string) (tf : A -> list Json.token) (sep : string) :
  (forall toks, Json.lex_run (Json.LOut, toks) sep = Some (Json.LOut, toks ++ [Json.TComma])) ->
  (forall x toks, Json.lex_run (Json.LOut, toks) (f x) = Some (Json.LOut, toks ++ tf x)) ->
  forall (l : list A) toks,
    Json.lex_run (Json.LOut, toks) (PyStr.concat_strings (map (fun y => sep +:+ f y) l))
    = Some (Json.LOut, toks ++ flat_map (fun x => Json.TComma :: tf x) l).
Proof.
  intros Hsep Hf. induction l as [|x l IH]; intros toks.
  - cbn [map PyStr.concat_strings flat_map Json.lex_run]. now rewrite app_nil_r.
  - cbn [map PyStr.concat_strings flat_map].
    rewrite lex_run_app, lex_run_app, Hsep, Hf, IH.
    now rewrite <- !app_assoc.
Qed.

Lemma lex_step_frame (toks0 toks : list Json.token) (st : Json.lex_state) (c : ascii) :
  Json.lex_step (st, toks0 ++ toks) c
  = match Json.lex_step (st, toks) c with
    | Some (st', toks') => Some (st', toks0 ++ toks')
    | None => None
    end.
Proof.
  unfold Json.lex_step. destruct st as [|acc|acc|acc pending code].
  - repeat match goal with |- context [if ?b then _ else _] => destruct b end;
      rewrite ?app_assoc; reflexivity.
  - repeat match goal with |- context [if ?b then _ else _] => destruct b end;
      rewrite ?app_assoc; reflexivity.
  - destruct (Ascii.eqb c "u"); [reflexivity|]. destruct (Json.unescape c); reflexivity.
  - destruct (Json.hex_value c); [|reflexivity].
    destruct pending as [|[|pending]]; try reflexivity.
    destruct (16 * code + n <? 256)%N; reflexivity.
Qed.

(** Tokens already cut stay as they are. *)
Lemma lex_run_frame (toks0 : list Json.token) (s : string) :
  forall st toks,
    Json.lex_run (st, toks0 ++ toks) s
    = match Json.lex_run (st, toks) s with
      | Some (st', toks') => Some (st', toks0 ++ toks')
      | None => None
      end.
Proof.
  induction s as [|c s IH]; intros st toks; [reflexivity|].
  cbn [Json.lex_run]. rewrite lex_step_frame.
  destruct (Json.lex_step (st, toks) c) as [[st' toks']|]; [apply IH | reflexivity].
Qed.

(** A fixed piece of text between tokens. *)
Lemma lex_literal (lit : string) (tl toks : list Json.token) :
  Json.lex_run (Json.LOut, []) lit = Some (Json.LOut, tl) ->
  Json.lex_run (Json.LOut, toks) lit = Some (Json.LOut, toks ++ tl).
Proof.
  intros H. rewrite <- (app_nil_r toks) at 1. now rewrite lex_run_frame, H.
Qed.

Ltac lex_lit lit tl :=
  rewrite lex_run_app, (lex_literal lit tl) by reflexivity; cbv beta iota.

Lemma lex_dumps_value (v : value) (toks : list Json.token) :
  Json.lex_run (Json.LOut, toks) (Json.dumps_value v)
  = Some (Json.LOut, toks ++ Json.value_tokens v).
Proof.
  destruct v as [s|[|x l]]; cbn [Json.dumps_value Json.value_tokens Json.list_tokens].
  - apply lex_dumps_str.
  - now apply lex_literal.
  - cbn [map]. rewrite join_cons, map_map.
    lex_lit "[" [Json.TLBracket]. lex_lit nl (@nil Json.token).
    lex_lit "    " (@nil Json.token). rewrite !app_nil_r.
    rewrite lex_run_app, lex_run_app, lex_dumps_str. cbv beta iota.
    rewrite (lex_separated Json.dumps_str (fun s => [Json.TString s]));
      [| intros; now apply lex_literal | intros; apply lex_dumps_str].
    lex_lit nl (@nil Json.token).
    rewrite (lex_literal "  ]" [Json.TRBracket]) by reflexivity.
    rewrite app_nil_r, <- !app_assoc. reflexivity.
Qed.

Lemma lex_dumps_item (kv : string * value) (toks : list Json.token) :
  Json.lex_run (Json.LOut, toks) (Json.dumps_str (fst kv) +:+ ": " +:+ Json.dumps_value (snd kv))
  = Some (Json.LOut, toks ++ Json.item_tokens kv).
Proof.
  rewrite lex_run_app, lex_dumps_str. cbv beta iota.
  lex_lit ": " [Json.TColon].
  rewrite lex_dumps_value. unfold Json.item_tokens. now rewrite <- !app_assoc.
Qed.

(** The text of a document is cut into the tokens of the document. *)
Lemma lex_dumps (d : dict) : Json.lex (Json.dumps d) = Some (Json.dict_tokens d).
Proof.
  unfold Json.lex. destruct d as [|kv d]; [reflexivity|].
  cbn [Json.dumps Json.dict_tokens map]. rewrite join_cons, map_map.
  lex_lit "{" [Json.TLBrace]. lex_lit nl (@nil Json.token).
  lex_lit "  " (@nil Json.token). rewrite !app_nil_r.
  rewrite lex_run_app, lex_run_app, (lex_dumps_item kv). cbv beta iota.
  rewrite (lex_separated
             (fun kv => Json.dumps_str (fst kv) +:+ ": " +:+ Json.dumps_value (snd kv))
             Json.item_tokens);
    [| intros; now apply lex_literal | intros; apply lex_dumps_item].
  lex_lit nl (@nil Json.token).
  rewrite (lex_literal "}" [Json.TRBrace]) by reflexivity.
  rewrite app_nil_r, <- !app_assoc. reflexivity.
Qed.

Lemma parse_run_app (a b : list Json.token) :
  forall st, Json.parse_run st (a ++ b)
             = match Json.parse_run st a with
               | Some st' => Json.parse_run st' b
               | None => None
               end.
Proof.
  induction a as [|t a IH]; intros st; [reflexivity|].
  cbn [app Json.parse_run]. destruct (Json.parse_step st t); [apply IH | reflexivity].
Qed.

Lemma parse_elems (d : dict) (k : string) (l : list string) :
  forall acc,
    Json.parse_run (Json.PAfterElem d k acc)
      (flat_map (fun x => [Json.TComma; Json.TString x]) l)
    = Some (Json.PAfterElem d k (acc ++ l)).
Proof.
  induction l as [|x l IH]; intros acc.
  - cbn. now rewrite app_nil_r.
  - cbn [flat_map app Json.parse_run Json.parse_step]. rewrite IH.
    now rewrite <- app_assoc.
Qed.

Lemma parse_value (d : dict) (k : string) (v : value) :
  Json.parse_run (Json.PValue d k) (Json.value_tokens v)
  = Some (Json.PAfterValue (dict_set k v d)).
Proof.
  destruct v as [s|[|x l]]; [reflexivity..|].
  cbn [Json.value_tokens Json.list_tokens Json.parse_run Json.parse_step].
  rewrite parse_run_app, parse_elems. reflexivity.
Qed.

Lemma parse_item (d : dict) (kv : string * value) :
  Json.parse_run (Json.PKey d) (Json.item_tokens kv)
  = Some (Json.PAfterValue (dict_set (fst kv) (snd kv) d)).
Proof.
  unfold Json.item_tokens. cbn [Json.parse_run Json.parse_step]. apply parse_value.
Qed.

Lemma parse_items (l : dict) :
  forall d,
    Json.parse_run (Json.PAfterValue d) (flat_map (fun x => Json.TComma :: Json.item_tokens x) l)
    = Some (Json.PAfterValue (fold_left (fun d kv => dict_set (fst kv) (snd kv) d) l d)).
Proof.
  induction l as [|kv l IH]; intros d; [reflexivity|].
  cbn [flat_map]. rewrite parse_run_app.
  change (Json.parse_run (Json.PAfterValue d) (Json.TComma :: Json.item_tokens kv))
    with (Json.parse_run (Json.PKey d) (Json.item_tokens kv)).
  rewrite parse_item. apply IH.
Qed.

Lemma dict_get_app_None (k : string) (d : dict) :
  k ∉ dict_keys d -> dict_get k d = None.
Proof.
  induction d as [|[k' v'] d IH]; [reflexivity|].
  cbn [dict_keys map fst dict_get]. intros Hk.
  apply not_elem_of_cons in Hk as [Hne Hk].
  destruct (String.eqb_spec k' k) as [->|_]; [congruence|]. now apply IH.
Qed.

(** Setting a new key appends it. *)
Lemma dict_set_new (k : string) (v : value) (d : dict) :
  k ∉ dict_keys d -> dict_set k v d = d ++ [(k, v)].
Proof.
  induction d as [|[k' v'] d IH]; [reflexivity|].
  cbn [dict_keys map fst dict_set app]. intros Hk.
  apply not_elem_of_cons in Hk as [Hne Hk].
  destruct (String.eqb_spec k' k) as [->|_]; [congruence|]. now rewrite IH.
Qed.

Lemma dict_keys_set (k : string) (v : value) (d : dict) :
  dict_keys (dict_set k v d)
  = if bool_decide (k ∈ dict_keys d) then dict_keys d else dict_keys d ++ [k].
Proof.
  induction d as [|[k' v'] d IH]; [reflexivity|].
  cbn [dict_set dict_keys map fst].
  destruct (String.eqb_spec k' k) as [->|Hne].
  - rewrite bool_decide_eq_true_2 by left. reflexivity.
  - cbn [map fst]. fold (dict_keys (dict_set k v d)). rewrite IH.
    fold (dict_keys d). destruct (bool_decide (k ∈ dict_keys d)) eqn:Hin.
    + apply bool_decide_eq_true_1 in Hin.
      rewrite bool_decide_eq_true_2 by now right. reflexivity.
    + apply bool_decide_eq_false_1 in Hin.
      rewrite bool_decide_eq_false_2; [reflexivity|].
      intros [?|?]%elem_of_cons; congruence.
Qed.

(** Assignments keep the keys of a [dict] distinct. *)
Lemma dict_set_NoDup (k : string) (v : value) (d : dict) :
  NoDup (dict_keys d) -> NoDup (dict_keys (dict_set k v d)).
Proof.
  intros Hnd. rewrite dict_keys_set.
  destruct (bool_decide (k ∈ dict_keys d)) eqn:Hin; [exact Hnd|].
  apply bool_decide_eq_false_1 in Hin.
  apply NoDup_app. split; [exact Hnd|]. split; [|apply NoDup_singleton].
  intros x Hx Hx'. apply list_elem_of_singleton in Hx'. congruence.
Qed.

Lemma fold_dict_set (l : dict) :
  forall d, NoDup (dict_keys (d ++ l)) ->
            fold_left (fun d kv => dict_set (fst kv) (snd kv) d) l d = d ++ l.
Proof.
  induction l as [|[k v] l IH]; intros d Hnd; cbn [fold_left fst snd].
  - now rewrite app_nil_r.
  - assert (Hk : k ∉ dict_keys d).
    { unfold dict_keys in *. rewrite map_app in Hnd. cbn [map fst] in Hnd.
      apply NoDup_app in Hnd as (_ & Hdisj & _). intros Hin.
      apply (Hdisj k Hin). left. }
    rewrite (dict_set_new _ _ _ Hk), IH; rewrite <- app_assoc; [reflexivity | exact Hnd].
Qed.

(** Reading back what was written: a record, whose keys are distinct as
    those of any [dict], is the record [json.loads] makes of its text. *)
Lemma loads_dumps (d : dict) : NoDup (dict_keys d) -> Json.loads (Json.dumps d) = Some d.
Proof.
  intros Hnd. unfold Json.loads. rewrite lex_dumps.
  destruct d as [|kv d]; [reflexivity|].
  cbn [Json.dict_tokens Json.parse_run Json.parse_step].
  change (Json.parse_run Json.PKeyOrEnd
            (Json.item_tokens kv ++ flat_map (fun x => Json.TComma :: Json.item_tokens x) d
             ++ [Json.TRBrace]))
    with (Json.parse_run (Json.PKey [])
            (Json.item_tokens kv ++ flat_map (fun x => Json.TComma :: Json.item_tokens x) d
             ++ [Json.TRBrace])).
  rewrite parse_run_app, parse_item, parse_run_app, parse_items.
  cbn [Json.parse_run Json.parse_step dict_set].
  destruct kv as [k v]. cbn [fst snd].
  now rewrite (fold_dict_set d [(k, v)] Hnd).
Qed.

(** ** The config store *)

(** Writing a regular file changes no directory, so every path resolves
    as before. *)
Lemma walk_insert_file (f : fs) (q : path) (c : string) (comps : list string)
    (cur q' : path) :
  lookup_node f q <> Some Dir ->
  walk f cur comps = inr q' ->
  walk (<[q := File c]> f) cur comps = inr q'.
Proof.
  intros Hq. revert cur. induction comps as [|x rest IH]; intros cur H; [exact H|].
  cbn [walk] in *.
  destruct (lookup_node f cur) as [[|?]|] eqn:Hcur; try discriminate.
  assert (Hcur' : lookup_node (<[q := File c]> f) cur = Some Dir).
  { destruct cur as [|a cur]; [reflexivity|]. cbn [lookup_node] in *.
    rewrite lookup_insert_ne; [exact Hcur|]. intros Heq. apply Hq.
    rewrite Heq. exact Hcur. }
  rewrite Hcur'.
  destruct (is_dot x); [now apply IH|].
  destruct (String.eqb x ".."); [now apply IH|].
  destruct (NAME_MAX <? byte_length x)%N; [discriminate | now apply IH].
Qed.

(** What was written is what is read back, under the same path string. *)
Lemma fs_write_read (f f' : fs) (cwd p : string) (c : string) :
  fs_write f cwd p c = inr f' ->
  path_exists f' cwd p = true /\ fs_read f' cwd p = inr c.
Proof.
  unfold fs_write, path_exists, fs_read, stat, resolve.
  destruct (PyStr.endswith_char PyStr.slash p);
    [destruct (resolve_entry f cwd p); discriminate|].
  destruct (PyStr.nonempty p); [|discriminate].
  destruct (PATH_MAX <=? byte_length p)%N; [discriminate|].
  destruct (walk f (start_dir cwd p) (components p)) as [e|q] eqn:Hwalk; [discriminate|].
  intros Hw.
  assert (Hq : lookup_node f q <> Some Dir /\ f' = <[q := File c]> f).
  { destruct (lookup_node f q) as [[|?]|]; try discriminate;
      injection Hw as <-; split; congruence. }
  destruct Hq as [Hq ->].
  rewrite (walk_insert_file f q c _ _ _ Hq Hwalk).
  assert (Hlook : lookup_node (<[q := File c]> f) q = Some (File c)).
  { destruct q as [|a q]; [now contradiction Hq|].
    cbn [lookup_node]. apply lookup_insert_eq. }
  rewrite Hlook. auto.
Qed.

Lemma nonempty_app_r (a b : string) :
  PyStr.nonempty b = true -> PyStr.nonempty (a +:+ b) = true.
Proof. destruct a; simpl; auto. Qed.

Lemma endswith_char_app (x : ascii) (a b : string) :
  PyStr.nonempty b = true ->
  PyStr.endswith_char x (a +:+ b) = PyStr.endswith_char x b.
Proof.
  intros Hb. induction a as [|c a IH]; [reflexivity|].
  cbn [String.append PyStr.endswith_char]. rewrite IH.
  pose proof (nonempty_app_r a b Hb) as Hne.
  destruct (a +:+ b); [discriminate | reflexivity].
Qed.

(** The directory of the store: the home directory without trailing
    slashes, followed by [/.config/pysysddeploy]. *)
Lemma config_dir_eq (w : world) :
  config_dir w = PyStr.rstrip_char PyStr.slash (w_home w) +:+ "/.config/pysysddeploy".
Proof.
  unfold config_dir, expanduser. cbn [break_at_slash Ascii.eqb Bool.eqb PyStr.slash PyStr.nonempty].
  now rewrite nonempty_app_r.
Qed.

(** The file a name is saved to, when the name is not an absolute
    path. *)
Lemma save_path_eq (w : world) (n : string) :
  is_abs n = false ->
  path_join (config_dir w) (n +:+ ".json") = config_dir w +:+ "/" +:+ n +:+ ".json".
Proof.
  intros Hn. unfold path_join.
  assert (Habs : is_abs (n +:+ ".json") = false) by (destruct n; [reflexivity | exact Hn]).
  rewrite Habs, config_dir_eq.
  rewrite nonempty_app_r by reflexivity.
  rewrite endswith_char_app by reflexivity. reflexivity.
Qed.

(** The file a name is loaded from. *)
Lemma load_path_eq (w : world) (n : string) :
  expanduser (w_home w) (w_pw_dir w) ("~/.config/pysysddeploy/" +:+ n +:+ ".json")
  = config_dir w +:+ "/" +:+ n +:+ ".json".
Proof.
  rewrite config_dir_eq. unfold expanduser.
  cbn [String.append break_at_slash Ascii.eqb Bool.eqb PyStr.slash PyStr.nonempty].
  rewrite nonempty_app_r by reflexivity.
  now rewrite append_assoc.
Qed.

(** [os.makedirs] changes nothing but the files. *)
Lemma files_only_ret {A} (a : A) : files_only (ret a).
Proof. intros w. exists (w_fs w). now destruct w. Qed.

Lemma files_only_raise {A} (e : exn) : files_only (@raise A e).
Proof. intros w. exists (w_fs w). now destruct w. Qed.

Lemma files_only_bind {A B} (m : M A) (k : A -> M B) :
  files_only m -> (forall a, files_only (k a)) -> files_only (bind m k).
Proof.
  intros Hm Hk w. unfold bind. destruct (Hm w) as (f & Hf).
  destruct (m w) as [[a|e] w1]; cbn [snd] in *; subst w1.
  - destruct (Hk a (set_fs f w)) as (f' & ->). now exists f'.
  - now exists f.
Qed.

Lemma files_only_try_except {A} (m : M A) (handled : exn -> bool) (h : exn -> M A) :
  files_only m -> (forall e, files_only (h e)) -> files_only (try_except m handled h).
Proof.
  intros Hm Hh w. unfold try_except. destruct (Hm w) as (f & Hf).
  destruct (m w) as [[a|e] w1]; cbn [snd] in *; subst w1; [now exists f|].
  destruct (handled e); [|now exists f].
  destruct (Hh e (set_fs f w)) as (f' & ->). now exists f'.
Qed.

Lemma files_only_os_path_exists (p : string) : files_only (os_path_exists p).
Proof. intros w. exists (w_fs w). now destruct w. Qed.

Lemma files_only_os_path_isdir (p : string) : files_only (os_path_isdir p).
Proof. intros w. exists (w_fs w). now destruct w. Qed.

Lemma files_only_os_mkdir (p : string) : files_only (os_mkdir p).
Proof.
  intros w. unfold os_mkdir. destruct (fs_mkdir (w_fs w) (w_cwd w) p) as [e|f].
  - exists (w_fs w). now destruct w.
  - now exists f.
Qed.

Lemma files_only_makedirs (fuel : nat) : forall name, files_only (makedirs fuel name).
Proof.
  induction fuel as [|fuel IH]; intros name; cbn [makedirs];
    destruct (path_split name) as [head tail];
    destruct (if PyStr.nonempty tail then (head, tail) else path_split head)
      as [head' tail'];
    (apply files_only_bind;
     [destruct (PyStr.nonempty head' && PyStr.nonempty tail');
      [apply files_only_bind; [apply files_only_os_path_exists|intros; apply files_only_ret]
      |apply files_only_ret]
     |intros missing]);
    (apply files_only_bind;
     [destruct missing; [|apply files_only_ret]
     |intros [|]; [apply files_only_ret|];
      apply files_only_try_except; [apply files_only_os_mkdir|intros e];
      apply files_only_bind; [apply files_only_os_path_isdir|];
      intros [|]; [apply files_only_ret | apply files_only_raise]]).
  - apply files_only_ret.
  - apply files_only_bind; [|intros; apply files_only_ret].
    apply files_only_try_except; [apply IH | intros; apply files_only_ret].
Qed.

Lemma rev_string_acc_length (s acc : string) :
  String.length (PyStr.rev_string_acc s acc) = (String.length s + String.length acc)%nat.
Proof.
  revert acc. induction s as [|c s IH]; intros acc; cbn [PyStr.rev_string_acc String.length];
    [reflexivity|].
  rewrite IH. cbn [String.length]. lia.
Qed.

Lemma rstrip_char_length (x : ascii) (s : string) :
  (String.length (PyStr.rstrip_char x s) <= String.length s)%nat.
Proof.
  unfold PyStr.rstrip_char, PyStr.rev_string. rewrite rev_string_acc_length.
  assert (H : forall r, (String.length (PyStr.rstrip_char_rev x r) <= String.length r)%nat).
  { induction r as [|c r IH]; cbn [PyStr.rstrip_char_rev String.length]; [lia|].
    destruct (Ascii.eqb c x); cbn [String.length]; lia. }
  pose proof (H (PyStr.rev_string_acc s "")) as Hr.
  rewrite rev_string_acc_length in Hr. cbn [String.length] in *. lia.
Qed.

Lemma split_at_last_slash_length (s : string) :
  (String.length (fst (split_at_last_slash s)) + String.length (snd (split_at_last_slash s))
   = String.length s)%nat.
Proof.
  induction s as [|c s IH]; [reflexivity|]. cbn [split_at_last_slash].
  destruct (split_at_last_slash s) as [head tail]. cbn [fst snd] in IH.
  destruct head as [|h head]; cbn [PyStr.nonempty].
  - destruct (Ascii.eqb c PyStr.slash); cbn [fst snd String.length PyStr.char] in *; lia.
  - cbn [fst snd String.length] in *. lia.
Qed.

Lemma path_split_length (p : string) :
  (String.length (fst (path_split p)) + String.length (snd (path_split p))
   <= String.length p)%nat.
Proof.
  unfold path_split. pose proof (split_at_last_slash_length p) as H.
  destruct (split_at_last_slash p) as [head tail]. cbn [fst snd] in *.
  destruct (_ && _); [|lia].
  pose proof (rstrip_char_length PyStr.slash head). lia.
Qed.

(** Each call of [os.makedirs] within a call is for a shorter path. *)
Lemma makedirs_head_shorter (name head tail : string) :
  (let '(h, t) := path_split name in
   if PyStr.nonempty t then (h, t) else path_split h) = (head, tail) ->
  PyStr.nonempty tail = true ->
  (String.length head < String.length name)%nat.
Proof.
  pose proof (path_split_length name) as H1.
  destruct (path_split name) as [h t]. cbn [fst snd] in H1.
  destruct t as [|c t]; cbn [PyStr.nonempty].
  - pose proof (path_split_length h) as H2. intros Heq. rewrite Heq in H2.
    cbn [fst snd] in H2.
    destruct tail; [discriminate|]. cbn [String.length] in *. lia.
  - intros [= <- <-] _. cbn [String.length] in *. lia.
Qed.

(** The run of [os.makedirs] is the same with any fuel from the length
    of the path on: the bound is never reached. *)
Lemma makedirs_fuel (n : nat) :
  forall (m : nat) (name : string) (w : world),
    (String.length name <= n)%nat -> (String.length name <= m)%nat ->
    makedirs n name w = makedirs m name w.
Proof.
  induction n as [|n IH]; intros m name w Hn Hm.
  - destruct name; [|cbn [String.length] in Hn; lia]. now destruct m.
  - destruct m as [|m]; [destruct name; [reflexivity|cbn [String.length] in Hm; lia]|].
    cbn [makedirs].
    pose proof (makedirs_head_shorter name) as Hshort.
    destruct (path_split name) as [h t].
    destruct (if PyStr.nonempty t then (h, t) else path_split h) as [head tail].
    specialize (Hshort head tail eq_refl).
    apply bind_ext. intros missing w1 Hmissing.
    destruct (PyStr.nonempty head && PyStr.nonempty tail) eqn:Hne.
    + apply andb_prop in Hne as [_ Htail]. specialize (Hshort Htail).
      apply bind_ext_l. destruct missing; [|reflexivity].
      apply bind_ext_l. unfold try_except.
      rewrite (IH m head w1) by lia. reflexivity.
    + unfold ret in Hmissing. injection Hmissing as <- <-. reflexivity.
Qed.

(** The round trip of the store. For every config record (a [dict], so
    with distinct keys) whose name does not begin with a slash: if
    [save_service_config] completes, it has written
    [<config-dir>/<name>.json], and [load_service_config] with that name
    then returns a record equal to the original, key by key and in the
    same order, leaving the world as it is. *)
Theorem save_then_load_by_name (d : dict) (v : value) (w w1 : world) (p : string) :
  NoDup (dict_keys d) ->
  dict_get "name" d = Some v ->
  is_abs (str_value v) = false ->
  save_service_config d None w = (Ret p, w1) ->
  p = config_dir w +:+ "/" +:+ str_value v +:+ ".json"
  /\ load_service_config (Some (str_value v)) None w1 = (Ret (Some d), w1).
Proof.
  intros Hkeys Hname Habs Hsave.
  unfold save_service_config, os_expanduser, os_makedirs, dict_index, write_file in Hsave.
  unfold mbind, M_bind, bind, ret in Hsave. fold (config_dir w) in Hsave.
  destruct (files_only_makedirs (String.length (config_dir w)) (config_dir w) w)
    as (f1 & Hmk).
  destruct (makedirs (String.length (config_dir w)) (config_dir w) w) as [[[]|e] w0];
    [|discriminate].
  cbn [snd] in Hmk. subst w0.
  rewrite Hname in Hsave. cbn [w_fs w_cwd set_fs] in Hsave.
  rewrite (save_path_eq w _ Habs) in Hsave.
  destruct (fs_write f1 (w_cwd w) (config_dir w +:+ "/" +:+ str_value v +:+ ".json")
              (Json.dumps d)) as [e|f2] eqn:Hwrite; [discriminate|].
  injection Hsave as <- <-. split; [reflexivity|].
  destruct (fs_write_read _ _ _ _ _ Hwrite) as [Hex Hread].
  unfold load_service_config, os_expanduser, os_path_exists, read_file, json_load.
  unfold mbind, M_bind, bind, ret. cbn [w_home w_pw_dir w_fs w_cwd set_fs].
  rewrite (load_path_eq w), Hex. cbn [negb w_fs w_cwd set_fs].
  rewrite Hread, (loads_dumps d Hkeys). reflexivity.
Qed.

Lemma save_then_load_by_name_witness :
  exists w1,
    save_service_config demo_ctx None (small_world [])
    = (Ret "/home/ops/.config/pysysddeploy/demo.json", w1)
    /\ load_service_config (Some "demo") None w1 = (Ret (Some demo_ctx), w1).
Proof.
  eexists. split; [reflexivity|].
  apply (save_then_load_by_name demo_ctx (VStr "demo") (small_world []) _
           "/home/ops/.config/pysysddeploy/demo.json");
    [apply (bool_decide_unpack (NoDup (dict_keys demo_ctx))); vm_compute; reflexivity
    | reflexivity..].
Defined.

(** For a name that begins with a slash the two functions build
    different paths: [os.path.join] drops the config directory, the
    concatenation of [load_service_config] keeps it. *)
Lemma save_path_absolute (w : world) (n : string) :
  is_abs n = true ->
  path_join (config_dir w) (n +:+ ".json") = n +:+ ".json"
  /\ expanduser (w_home w) (w_pw_dir w) ("~/.config/pysysddeploy/" +:+ n +:+ ".json")
     = config_dir w +:+ "/" +:+ n +:+ ".json".
Proof.
  intros Hn. split; [|apply load_path_eq].
  unfold path_join. destruct n as [|c n]; [discriminate|].
  cbn [String.append is_abs PyStr.startswith_char] in *. now rewrite Hn.
Qed.

(** C2. The round trip fails for the record named [/tmp/demo], which
    flag mode builds from [--name /tmp/demo]: [save_service_config]
    writes it to [/tmp/demo.json], outside the config directory, and
    [load_service_config] with that name looks for
    [/home/ops/.config/pysysddeploy//tmp/demo.json], finds no file and
    returns [None]. *)
Theorem save_then_load_absolute_name :
  exists w1,
    save_service_config (dict_set "name" (VStr "/tmp/demo") demo_ctx) None (small_world [])
    = (Ret "/tmp/demo.json", w1)
    /\ w_fs w1 !! ["tmp"; "demo.json"]
       = Some (File (Json.dumps (dict_set "name" (VStr "/tmp/demo") demo_ctx)))
    /\ expanduser (w_home w1) (w_pw_dir w1) ("~/.config/pysysddeploy/" +:+ "/tmp/demo" +:+ ".json")
       = "/home/ops/.config/pysysddeploy//tmp/demo.json"
    /\ path_exists (w_fs w1) (w_cwd w1) "/home/ops/.config/pysysddeploy//tmp/demo.json"
       = false
    /\ load_service_config (Some "/tmp/demo") None w1 = (Ret None, w1).
Proof. eexists. split; [reflexivity|]. repeat split; vm_compute; reflexivity. Qed.

(** ** The name of a persisted record *)

Ltac inv_bind H :=
  let a := fresh "a" in
  let w := fresh "w" in
  let Hstep := fresh "Hstep" in
  apply bind_inv in H as (a & w & Hstep & H).

Section EditLoop.

(** A property of records that survives the two kinds of update the
    edit loop makes. *)
Variable P : dict -> Prop.
Hypothesis P_list : forall d field l l',
  dict_get field d = Some (VList l) -> P d -> P (dict_set field (VList l') d).
Hypothesis P_text : forall d field cur new,
  dict_get field d = Some (VStr cur) -> PyStr.nonempty new = true ->
  P d -> P (dict_set field (VStr new) d).

Lemma edit_loop_preserves (fuel : nat) :
  forall d w d' w', P d -> edit_loop fuel d w = (Ret d', w') -> P d'.
Proof.
  induction fuel as [|fuel IH]; intros d w d' w' Hd H; [discriminate|].
  cbn [edit_loop] in H.
  do 4 inv_bind H.
  destruct (negb (PyStr.isdigit (PyStr.strip a2))); [now apply (IH _ _ _ _ Hd H)|].
  inv_bind H.
  destruct (a3 =? len (dict_keys d) + 1);
    [unfold ret in H; injection H as <- _; exact Hd|].
  destruct ((1 <=? a3) && (a3 <=? len (dict_keys d))).
  - inv_bind H. rename a4 into field. inv_bind H. rename a4 into current.
    unfold dict_index in Hstep5.
    destruct (dict_get field d) as [cur|] eqn:Hget; [|discriminate].
    unfold ret in Hstep5. injection Hstep5 as <- <-.
    destruct cur as [cur|l].
    + inv_bind H. apply (IH _ _ _ _) in H; [exact H|].
      destruct (PyStr.nonempty (PyStr.strip a4)) eqn:Hnew; [|exact Hd].
      now apply (P_text d field cur).
    + do 2 inv_bind H. apply (IH _ _ _ _) in H; [exact H|].
      now apply (P_list d field l).
  - inv_bind H. now apply (IH _ _ _ _ Hd H).
Qed.

Lemma edit_service_info_preserves (d d' : dict) (w w' : world) :
  P d -> edit_service_info d w = (Ret d', w') -> P d'.
Proof.
  intros Hd H. unfold edit_service_info in H. inv_bind H.
  now apply (edit_loop_preserves _ _ _ _ _ Hd H).
Qed.

End EditLoop.

Lemma name_nonempty_set_list (d : dict) (field : string) (l l' : list string) :
  dict_get field d = Some (VList l) -> name_nonempty d ->
  name_nonempty (dict_set field (VList l') d).
Proof.
  intros Hget (n & Hn & Hne). exists n. split; [|exact Hne].
  rewrite dict_get_set_ne; [exact Hn|]. intros ->. congruence.
Qed.

Lemma name_nonempty_set_text (d : dict) (field cur new : string) :
  dict_get field d = Some (VStr cur) -> PyStr.nonempty new = true ->
  name_nonempty d -> name_nonempty (dict_set field (VStr new) d).
Proof.
  intros _ Hnew (n & Hn & Hne).
  destruct (String.eqb_spec field "name") as [->|Hfield].
  - exists new. now rewrite dict_get_set_eq.
  - exists n. now rewrite dict_get_set_ne.
Qed.

(** The record built from the flags carries the name given with
    [--name]. *)
Lemma flags_service_info_name (a : args) (w w' : world) (d : dict) :
  flags_service_info a w = (Ret d, w') ->
  dict_get "name" d = Some (VStr (text_of (a_name a))).
Proof.
  unfold flags_service_info. intros H. do 5 inv_bind H.
  destruct (String.eqb (text_of (a_template a)) "standard_python").
  - do 2 inv_bind H. unfold ret in H. injection H as <- _. reflexivity.
  - destruct (String.eqb (text_of (a_template a)) "gunicorn");
      unfold ret in H; injection H as <- _; reflexivity.
Qed.

(** What is saved is the record built first, or what the edit loop made
    of it. *)
Lemma prepare_config_inv (a : args) (w w' : world) (d : dict) :
  prepare_config a w = (Ret (inr d), w') ->
  exists d0 w0,
    build_service_info a w = (Ret (inr d0), w0)
    /\ (d = d0 \/ exists w1, edit_service_info d0 w0 = (Ret d, w1)).
Proof.
  unfold prepare_config. intros H. inv_bind H.
  destruct a0 as [code|d0]; [discriminate|].
  exists d0, w0. split; [exact Hstep|].
  inv_bind H. inv_bind H. destruct a1 as [code|]; [discriminate|].
  inv_bind H. destruct a1 as [code|]; [discriminate|].
  unfold ret in H. injection H as <- _.
  destruct (a_edit a && dict_truthy d0).
  - right. eauto.
  - left. unfold ret in Hstep0. congruence.
Qed.

(** C9, as amended. A record that the create command builds in flag
    mode and goes on to save has a non-empty text as its name. *)
Theorem flag_mode_persists_nonempty_name (a : args) (w w' : world) (d : dict) :
  flag_mode a = true ->
  prepare_config a w = (Ret (inr d), w') ->
  name_nonempty d.
Proof.
  intros Hflag H.
  destruct (prepare_config_inv a w w' d H) as (d0 & w0 & Hbuild & Hedit).
  assert (Hd0 : name_nonempty d0).
  { rewrite (build_service_info_flag_mode a w Hflag) in Hbuild. cbv zeta in Hbuild.
    destruct (String.eqb (text_of (a_template a)) "standard_python"
              && negb (is_given (a_script_path a))); [discriminate|].
    destruct (String.eqb (text_of (a_template a)) "gunicorn"
              && negb (is_given (a_app_module a))); [discriminate|].
    inv_bind Hbuild. unfold mret, M_ret, ret in Hbuild. injection Hbuild as <- _.
    exists (text_of (a_name a)). split; [exact (flags_service_info_name _ _ _ _ Hstep)|].
    destruct (flag_mode_inv a Hflag) as (_ & _ & Hn & _).
    unfold is_given, given in Hn.
    destruct (a_name a) as [s|]; [|discriminate].
    cbn [text_of]. destruct (PyStr.nonempty s); [reflexivity | discriminate]. }
  destruct Hedit as [-> | (w1 & Hedit)]; [exact Hd0|].
  exact (edit_service_info_preserves name_nonempty name_nonempty_set_list
           name_nonempty_set_text d0 d w0 w1 Hd0 Hedit).
Qed.

Lemma flag_mode_persists_nonempty_name_witness :
  exists w', prepare_config flag_args (venv_world []) = (Ret (inr demo_ctx), w')
             /\ name_nonempty demo_ctx.
Proof.
  eexists. split; [reflexivity|].
  eapply (flag_mode_persists_nonempty_name flag_args (venv_world []));
    reflexivity.
Defined.

(** The create command saves the record it prepared. *)
Lemma main_create_persists (a : args) (w w' : world) (d : dict) :
  prepare_config a w = (Ret (inr d), w') ->
  main_create a w = persist_and_deploy a d w'.
Proof. intros H. unfold main_create. now rewrite (bind_eq _ _ _ _ _ H). Qed.

(** C9 as stated fails: the wizard accepts an empty name, and the record
    is saved under [.json] with that name. *)
Lemma interactive_mode_persists_empty_name :
  exists d w',
    prepare_config default_args (venv_world blank_name_answers) = (Ret (inr d), w')
    /\ dict_get "name" d = Some (VStr "")
    /\ fst (main_create default_args (venv_world blank_name_answers)) = Ret None
    /\ w_fs (snd (main_create default_args (venv_world blank_name_answers)))
         !! ["home"; "ops"; ".config"; "pysysddeploy"; ".json"]
       = Some (File (Json.dumps d)).
Proof.
  eexists. eexists. split; [vm_compute; reflexivity|].
  split; [reflexivity|]. split; vm_compute; reflexivity.
Qed.

(** Load mode saves the name it finds in the file, empty or not. *)
Lemma load_mode_persists_empty_name :
  exists d w',
    prepare_config load_args (set_fs stored_fs (small_world [""])) = (Ret (inr d), w')
    /\ dict_get "name" d = Some (VStr "")
    /\ fst (main_create load_args (set_fs stored_fs (small_world [""]))) = Ret None
    /\ w_fs (snd (main_create load_args (set_fs stored_fs (small_world [""]))))
         !! ["home"; "ops"; ".config"; "pysysddeploy"; ".json"]
       = Some (File (Json.dumps d)).
Proof.
  eexists. eexists. split; [vm_compute; reflexivity|].
  split; [reflexivity|]. split; vm_compute; reflexivity.
Qed.

(** The wizard's default for the group is the account name. *)
Lemma interactive_mode_group_default :
  exists d w',
    prepare_config default_args (venv_world blank_name_answers) = (Ret (inr d), w')
    /\ dict_get "group" d = Some (VStr (w_user (venv_world blank_name_answers))).
Proof. eexists. eexists. split; [vm_compute; reflexivity | reflexivity]. Qed.

(** No mode checks that the name is safe as a file name: in flag mode a
    name with slashes is saved as given, and outside the config
    directory. *)
Lemma flag_mode_persists_unsafe_name :
  exists d w',
    prepare_config (with_name (Some "/tmp/demo") flag_args) (venv_world [])
    = (Ret (inr d), w')
    /\ dict_get "name" d = Some (VStr "/tmp/demo")
    /\ filesystem_safe "/tmp/demo" = false
    /\ w_fs (snd (main_create (with_name (Some "/tmp/demo") flag_args) (venv_world [""])))
         !! ["tmp"; "demo.json"]
       = Some (File (Json.dumps d)).
Proof.
  eexists. eexists. split; [vm_compute; reflexivity|].
  split; [reflexivity|]. split; vm_compute; reflexivity.
Qed.

(** ** The menus of the wizard *)

Lemma isdigit_nonempty (s : string) : PyStr.isdigit s = true -> PyStr.nonempty s = true.
Proof. unfold PyStr.isdigit. now intros [H _]%andb_prop. Qed.

(** An answer to the template menu that is empty, has a character that
    is not a digit, or reads as a decimal number outside 1..2 selects
    position 0, which is [standard_python]. *)
Lemma choose_template_idx_fallback (s : string) (w : world) :
  s = "" \/ PyStr.isdigit s = false
  \/ (exists n, PyStr.int s = PyStr.IntOk n /\ (n < 1 \/ 2 < n)) ->
  choose_template_idx s w = (Ret 0, w)
  /\ list_index (map fst TEMPLATES) 0 w = (Ret "standard_python", w).
Proof.
  intros H. split; [|reflexivity]. unfold choose_template_idx.
  destruct H as [-> | [H | (n & Hn & Hrange)]]; [reflexivity | |].
  - rewrite H, andb_false_r. reflexivity.
  - destruct (PyStr.nonempty s && PyStr.isdigit s); [|reflexivity].
    unfold py_int, mbind, M_bind, bind, ret. rewrite Hn.
    change (len TEMPLATES) with 2.
    destruct (0 <=? n - 1) eqn:H0; destruct (n - 1 <? 2) eqn:H1; try reflexivity.
    lia.
Qed.

(** Likewise an invalid answer to the restart menu selects position 1,
    which is [always]. *)
Lemma choose_restart_idx_fallback (s : string) (w : world) :
  s = "" \/ PyStr.isdigit s = false
  \/ (exists n, PyStr.int s = PyStr.IntOk n /\ (n < 0 \/ 6 < n)) ->
  choose_restart_idx s w = (Ret 1, w)
  /\ list_index restart_options 1 w = (Ret "always", w).
Proof.
  intros H. split; [|reflexivity]. unfold choose_restart_idx.
  destruct H as [-> | [H | (n & Hn & Hrange)]]; [reflexivity | |].
  - rewrite H, andb_false_r. reflexivity.
  - destruct (PyStr.nonempty s && PyStr.isdigit s); [|reflexivity].
    unfold py_int, mbind, M_bind, bind, ret. rewrite Hn.
    change (len restart_options) with 7.
    destruct (0 <=? n) eqn:H0; destruct (n <? 7) eqn:H1; try reflexivity.
    lia.
Qed.

(** A valid answer selects the entry at that position. *)
Lemma choose_template_idx_valid :
  fst (choose_template_idx "2" (small_world [])) = Ret 1
  /\ fst (list_index (map fst TEMPLATES) 1 (small_world [])) = Ret "gunicorn".
Proof. split; reflexivity. Qed.


(** ** What the tasks write *)

(** The unit file [create_service_file] reports is the rendering of the
    record with the chosen template. *)
Lemma create_service_file_content (service_name : value) (t : string)
    (e : template_entry) (context : dict) (output_dir p : string) (w w' : world) :
  templates_get t TEMPLATES = Some e ->
  dict_get "self" context = None ->
  create_service_file service_name (VStr t) context output_dir w = (Ret (true, p), w') ->
  p = path_join output_dir (str_value service_name +:+ ".service")
  /\ fs_read (w_fs w') (w_cwd w') p = inr (render context (t_template e)).
Proof.
  intros Hget Hself.
  unfold create_service_file, try_except, lookup_template, template_render,
    os_makedirs, write_file.
  unfold mbind, M_bind, bind, ret, raise. rewrite Hget, Hself.
  destruct (files_only_makedirs (String.length output_dir) output_dir w) as (f1 & Hmk).
  destruct (makedirs (String.length output_dir) output_dir w) as [[[]|err] w0];
    [|destruct (is_Exception err); discriminate].
  cbn [snd] in Hmk. subst w0. cbn [w_fs w_cwd set_fs].
  destruct (fs_write f1 (w_cwd w) _ (render context (t_template e)))
    as [err|f2] eqn:Hwrite; [cbn [is_Exception]; discriminate|].
  intros H. injection H as <- <-. split; [reflexivity|].
  cbn [w_fs w_cwd set_fs]. exact (proj2 (fs_write_read _ _ _ _ _ Hwrite)).
Qed.

(** ** The edit loop reaches the end of its input *)

Lemma print_stdin (s : string) (w w' : world) (u : unit) :
  print s w = (Ret u, w') -> w_stdin w' = w_stdin w.
Proof. unfold print. now intros [= _ <-]. Qed.

Lemma print_all_stdin (l : list string) (w w' : world) (u : unit) :
  print_all l w = (Ret u, w') -> w_stdin w' = w_stdin w.
Proof.
  revert w. induction l as [|s l IH]; intros w H.
  - unfold print_all, ret in H. now injection H as _ <-.
  - cbn [print_all] in H. inv_bind H.
    rewrite (IH _ H). exact (print_stdin _ _ _ _ Hstep).
Qed.

Lemma input_stdin (prompt line : string) (w w' : world) :
  input prompt w = (Ret line, w') -> w_stdin w = line :: w_stdin w'.
Proof.
  unfold input. destruct (w_stdin w) as [|x rest]; [discriminate|].
  now intros [= -> <-].
Qed.

Lemma py_int_world (s : string) (n : Z) (w w' : world) :
  py_int s w = (Ret n, w') -> w' = w.
Proof.
  unfold py_int. destruct (PyStr.int s); [now intros [= _ <-] | discriminate..].
Qed.

Lemma list_index_world {A} (l : list A) (i : Z) (x : A) (w w' : world) :
  list_index l i w = (Ret x, w') -> w' = w.
Proof.
  unfold list_index.
  destruct (if (if i <? 0 then i + Z.of_nat (List.length l) else i) <? 0
            then None else nth_error l _);
    [now intros [= _ <-] | discriminate].
Qed.

Lemma dict_index_world (k : string) (d : dict) (v : value) (w w' : world) :
  dict_index k d w = (Ret v, w') -> w' = w.
Proof. unfold dict_index. destruct (dict_get k d); [now intros [= _ <-] | discriminate]. Qed.

(** Every pass of the loop reads a line, so a unit of fuel per pending
    line and one more is never used up: with that much fuel the loop does
    what it does with any larger amount. *)
Lemma edit_loop_fuel (fuel : nat) :
  forall (fuel' : nat) (d : dict) (w : world),
    (List.length (w_stdin w) < fuel)%nat -> (List.length (w_stdin w) < fuel')%nat ->
    edit_loop fuel d w = edit_loop fuel' d w.
Proof.
  induction fuel as [|fuel IH]; intros fuel' d w Hf Hf'; [lia|].
  destruct fuel' as [|fuel']; [lia|].
  cbn [edit_loop].
  apply bind_ext. intros u0 w0 H0. apply print_stdin in H0.
  apply bind_ext. intros u1 w1 H1. apply print_all_stdin in H1.
  apply bind_ext. intros u2 w2 H2. apply print_stdin in H2.
  apply bind_ext. intros choice w3 H3. apply input_stdin in H3.
  assert (Hlen : (S (List.length (w_stdin w3)) = List.length (w_stdin w))%nat).
  { rewrite <- H0, <- H1, <- H2, H3. reflexivity. }
  destruct (negb (PyStr.isdigit (PyStr.strip choice))); [apply IH; lia|].
  apply bind_ext. intros n w4 H4. apply py_int_world in H4. subst w4.
  destruct (n =? len (dict_keys d) + 1); [reflexivity|].
  destruct ((1 <=? n) && (n <=? len (dict_keys d))).
  - apply bind_ext. intros field w5 H5. apply list_index_world in H5. subst w5.
    apply bind_ext. intros current w6 H6. apply dict_index_world in H6. subst w6.
    destruct current as [cur|l].
    + apply bind_ext. intros new_value w7 H7. apply input_stdin in H7.
      rewrite H7 in Hlen. simpl in Hlen. apply IH; lia.
    + apply bind_ext. intros u8 w8 H8. apply print_stdin in H8.
      apply bind_ext. intros new_value w9 H9. apply input_stdin in H9.
      rewrite <- H8, H9 in Hlen. simpl in Hlen. apply IH; lia.
  - apply bind_ext. intros u5 w5 H5. apply print_stdin in H5.
    apply IH; rewrite H5; lia.
Qed.

(** C10 on the code: an answer that passes [isdigit] is handed to [int],
    and [int] does not read every such answer.  A superscript digit is
    an invalid literal, and a numeral of 4301 digits, a number out of
    range, is over the conversion limit: the wizard raises ValueError at
    the template menu, and at the restart menu, instead of falling
    back. *)
Theorem menu_answer_int_rejects :
  (PyStr.isdigit superscript_two = true
   /\ PyStr.isdigit long_numeral = true)
  /\ (exists msg, fst (gather_service_info (small_world ["demo"; ""; superscript_two]))
                  = Raise (ValueError msg))
  /\ (exists msg, fst (gather_service_info (small_world ["demo"; ""; long_numeral]))
                  = Raise (ValueError msg))
  /\ (exists msg,
        fst (gather_service_info
               (small_world ["demo"; ""; "1"; ""; "/tmp/venv"; "/tmp/x.py"; "";
                             ""; ""; superscript_two]))
        = Raise (ValueError msg)).
Proof.
  split; [split; vm_compute; reflexivity|].
  split; [eexists; vm_compute; reflexivity|].
  split; eexists; vm_compute; reflexivity.
Qed.

(** The two errors, as [int] words them. *)
Lemma menu_answer_int_messages :
  fst (py_int superscript_two (small_world []))
  = Raise (ValueError ("invalid literal for int() with base 10: '"
                       +:+ superscript_two +:+ "'"))
  /\ fst (py_int long_numeral (small_world []))
     = Raise (ValueError "Exceeds the limit (4300 digits) for integer string conversion: value has 4301 digits; use sys.set_int_max_str_digits() to increase the limit").
Proof. split; vm_compute; reflexivity. Qed.

(** * Further properties of the code *)

(** ** The tokenizer *)

Lemma parse_env_vars_loop_unquoted (s : string) :
  forall parts current,
    PyStr.contains_char PyStr.dquote s = false ->
    parse_env_vars_loop s parts current false
    = parts ++ List.filter PyStr.nonempty
                 (match PyStr.split_char " " s with
                  | h :: t => (current +:+ h) :: t
                  | [] => [current]
                  end).
Proof.
  induction s as [|c r IH]; intros parts current Hq.
  - cbn. rewrite append_nil_r. destruct (PyStr.nonempty current); [reflexivity|].
    now rewrite app_nil_r.
  - cbn [PyStr.contains_char] in Hq. apply orb_false_iff in Hq as [Hc Hq].
    cbn [parse_env_vars_loop PyStr.split_char]. rewrite Hc.
    destruct (Ascii.eqb c " ") eqn:Hsp; cbn [andb negb].
    + destruct (PyStr.nonempty current) eqn:Hcur.
      * rewrite IH by assumption. cbn [List.filter]. rewrite append_nil_r, Hcur.
        rewrite <- app_assoc. cbn [app]. f_equal. f_equal.
        destruct (PyStr.split_char " " r); reflexivity.
      * rewrite IH by assumption. cbn [List.filter]. rewrite append_nil_r, Hcur.
        destruct current; [|discriminate].
        destruct (PyStr.split_char " " r); reflexivity.
    + rewrite IH by assumption.
      pose proof (split_char_nonempty " " r) as Hne.
      destruct (PyStr.split_char " " r) as [|h t]; [congruence|].
      now rewrite append_assoc.
Qed.

(** On a line without double quotes the tokens are the pieces between
    the spaces, the empty pieces left out. *)
Theorem parse_env_vars_unquoted (s : string) :
  PyStr.contains_char PyStr.dquote s = false ->
  parse_env_vars s = List.filter PyStr.nonempty (PyStr.split_char " " s).
Proof.
  intros Hq. unfold parse_env_vars. destruct s as [|c r]; [reflexivity|].
  cbn [PyStr.nonempty negb]. rewrite parse_env_vars_loop_unquoted by assumption.
  cbn [app]. destruct (PyStr.split_char " " (String c r)); reflexivity.
Qed.

Lemma parse_env_vars_unquoted_witness :
  parse_env_vars "A=1  B=2 " = ["A=1"; "B=2"].
Proof. rewrite (parse_env_vars_unquoted "A=1  B=2 "); reflexivity. Defined.

Lemma plain_entry_inv (e : string) :
  plain_entry e = true ->
  PyStr.nonempty e = true /\ PyStr.contains_char " " e = false
  /\ PyStr.contains_char PyStr.dquote e = false.
Proof.
  unfold plain_entry. intros H.
  apply andb_true_iff in H as [H H3]. apply andb_true_iff in H as [H1 H2].
  apply negb_true_iff in H2, H3. auto.
Qed.

Lemma split_join_plain (l : list string) :
  l <> [] -> forallb plain_entry l = true ->
  PyStr.split_char " " (PyStr.join " " l) = l
  /\ PyStr.contains_char PyStr.dquote (PyStr.join " " l) = false.
Proof.
  induction l as [|x r IH]; [congruence|]. intros _ H.
  cbn [forallb] in H. apply andb_true_iff in H as [Hx Hr].
  apply plain_entry_inv in Hx as (_ & Hsp & Hq).
  destruct r as [|y r'].
  - cbn [PyStr.join]. split; [now apply split_char_absent | assumption].
  - destruct IH as [IH1 IH2]; [congruence | assumption |].
    change (PyStr.join " " (x :: y :: r'))
      with (x +:+ String " " (PyStr.join " " (y :: r'))).
    split.
    + rewrite split_char_app, IH1, split_char_absent by assumption. reflexivity.
    + rewrite contains_char_app, Hq. cbn [PyStr.contains_char orb].
      rewrite IH2. reflexivity.
Qed.

(** Entries that are not empty and hold neither a space nor a double
    quote come back as they are when the line that joins them with
    spaces, as the edit loop shows them, is parsed again. *)
Theorem parse_env_vars_join (l : list string) :
  forallb plain_entry l = true -> parse_env_vars (PyStr.join " " l) = l.
Proof.
  intros H. destruct l as [|x r]; [reflexivity|].
  destruct (split_join_plain (x :: r)) as [Hs Hq]; [congruence | assumption |].
  assert (Hne : PyStr.nonempty (PyStr.join " " (x :: r)) = true).
  { cbn [forallb] in H. apply andb_true_iff in H as [Hx _].
    apply plain_entry_inv in Hx as (Hx & _).
    destruct x; [discriminate|]. destruct r; reflexivity. }
  unfold parse_env_vars. rewrite Hne. cbn [negb].
  rewrite parse_env_vars_loop_unquoted, Hs by assumption. cbn [app String.append].
  clear Hs Hq Hne. induction (x :: r) as [|y l IH]; [reflexivity|].
  cbn [forallb] in H. apply andb_true_iff in H as [Hy Hl].
  apply plain_entry_inv in Hy as (Hy & _). cbn [List.filter]. rewrite Hy.
  f_equal. now apply IH.
Qed.

Lemma parse_env_vars_join_witness :
  parse_env_vars (PyStr.join " " ["KEY1=VALUE1"; "DEBUG=1"]) = ["KEY1=VALUE1"; "DEBUG=1"].
Proof. apply (parse_env_vars_join ["KEY1=VALUE1"; "DEBUG=1"]). reflexivity. Defined.

(** ** Rendering a record that lacks a field *)






(** ** What the create command does before it saves the record *)

Lemma quiet_same {A} (m : M A) : (forall w, snd (m w) = w) -> quiet m.
Proof.
  intros H w. rewrite H. exists (w_stdin w), (w_stdout w). destruct w. reflexivity.
Qed.

Lemma quiet_ret {A} (a : A) : quiet (mret a : M A).
Proof. now apply quiet_same. Qed.

Lemma quiet_raise {A} (e : exn) : quiet (raise e : M A).
Proof. now apply quiet_same. Qed.

Lemma quiet_bind {A B} (m : M A) (k : A -> M B) :
  quiet m -> (forall a, quiet (k a)) -> quiet (m ≫= k).
Proof.
  intros Hm Hk w. destruct (Hm w) as (i & o & Hw).
  unfold mbind, M_bind, bind. destruct (m w) as [[a|e] w1]; cbn [snd] in *; subst w1.
  - destruct (Hk a (set_stdin i (set_stdout o w))) as (i' & o' & ->).
    exists i', o'. reflexivity.
  - eauto.
Qed.

Lemma quiet_try_except {A} (m : M A) (handled : exn -> bool) (h : exn -> M A) :
  quiet m -> (forall e, quiet (h e)) -> quiet (try_except m handled h).
Proof.
  intros Hm Hh w. destruct (Hm w) as (i & o & Hw).
  unfold try_except. destruct (m w) as [[a|e] w1]; cbn [snd] in *; subst w1; [eauto|].
  destruct (handled e); [|eauto].
  destruct (Hh e (set_stdin i (set_stdout o w))) as (i' & o' & ->).
  exists i', o'. reflexivity.
Qed.

Lemma quiet_print (s : string) : quiet (print s).
Proof. intros w. exists (w_stdin w), (w_stdout w ++ [s]). destruct w. reflexivity. Qed.

Lemma quiet_print_all (l : list string) : quiet (print_all l).
Proof.
  induction l as [|s l IH]; [apply quiet_ret|].
  cbn [print_all]. apply quiet_bind; [apply quiet_print | intros _; exact IH].
Qed.

Lemma quiet_input (prompt : string) : quiet (input prompt).
Proof.
  intros w. unfold input. destruct w as [f c h p u i o cm sy].
  destruct i as [|line rest]; cbn [w_stdin w_stdout snd];
    [exists [], (o ++ [prompt]) | exists rest, (o ++ [prompt])]; reflexivity.
Qed.

Lemma quiet_get_world : quiet get_world.
Proof. now apply quiet_same. Qed.

Lemma quiet_getcwd : quiet getcwd.
Proof. now apply quiet_same. Qed.

Lemma quiet_getuser : quiet getuser.
Proof. now apply quiet_same. Qed.

Lemma quiet_os_expanduser (p : string) : quiet (os_expanduser p).
Proof. now apply quiet_same. Qed.

Lemma quiet_os_abspath (p : string) : quiet (os_abspath p).
Proof. now apply quiet_same. Qed.

Lemma quiet_os_path_exists (p : string) : quiet (os_path_exists p).
Proof. now apply quiet_same. Qed.

Lemma quiet_Path_exists (p : string) : quiet (Path_exists p).
Proof.
  apply quiet_same. intros w. unfold Path_exists.
  destruct (Path_stat (w_fs w) (w_cwd w) p) as [e|n]; [destruct (pathlib_ignores e)|];
    reflexivity.
Qed.

Lemma quiet_Path_is_file (p : string) : quiet (Path_is_file p).
Proof.
  apply quiet_same. intros w. unfold Path_is_file.
  destruct (Path_stat (w_fs w) (w_cwd w) p) as [e|[|c]]; [destruct (pathlib_ignores e)| |];
    reflexivity.
Qed.

Lemma quiet_read_file (p : string) : quiet (read_file p).
Proof.
  apply quiet_same. intros w. unfold read_file.
  destruct (fs_read (w_fs w) (w_cwd w) p); reflexivity.
Qed.

Lemma quiet_as_text (v : value) : quiet (as_text v).
Proof. destruct v; [apply quiet_ret | apply quiet_raise]. Qed.

Lemma quiet_dict_index (k : string) (d : dict) : quiet (dict_index k d).
Proof. unfold dict_index. destruct (dict_get k d); [apply quiet_ret | apply quiet_raise]. Qed.

Lemma quiet_py_int (s : string) : quiet (py_int s).
Proof. unfold py_int. destruct (PyStr.int s); first [apply quiet_ret | apply quiet_raise]. Qed.

Lemma quiet_list_index {A} (l : list A) (i : Z) : quiet (list_index l i).
Proof.
  unfold list_index.
  destruct (if _ <? 0 then None else _); [apply quiet_ret | apply quiet_raise].
Qed.

Lemma quiet_getpass_getattr (name : string) : quiet (getpass_getattr name).
Proof.
  unfold getpass_getattr. destruct (existsb _ _); [apply quiet_ret | apply quiet_raise].
Qed.

Lemma quiet_lookup_template (v : value) : quiet (lookup_template v).
Proof. destruct v; [apply quiet_ret | apply quiet_raise]. Qed.

Lemma quiet_template_render (t : list tnode) (context : dict) :
  quiet (template_render t context).
Proof.
  unfold template_render. destruct (dict_get "self" context);
    [apply quiet_raise | apply quiet_ret].
Qed.

Lemma quiet_json_load (text : string) : quiet (json_load text).
Proof. unfold json_load. destruct (Json.loads text); [apply quiet_ret | apply quiet_raise]. Qed.

Create HintDb quiet.
#[local] Hint Resolve quiet_ret quiet_raise quiet_print quiet_print_all quiet_input
  quiet_get_world quiet_getcwd quiet_getuser quiet_os_expanduser quiet_os_abspath
  quiet_os_path_exists quiet_Path_exists quiet_Path_is_file quiet_read_file quiet_as_text quiet_dict_index quiet_py_int
  quiet_list_index quiet_getpass_getattr quiet_lookup_template quiet_template_render
  quiet_json_load : quiet.

(** Splits a computation at its binds and its branches, and closes the
    steps that are known to be quiet. *)
Ltac quiet_steps :=
  repeat first
    [ solve [auto with quiet nocore]
    | apply quiet_bind; [|intros ?]
    | apply quiet_try_except; [|intros ?]
    | match goal with
      | |- quiet (if ?b then _ else _) => destruct b
      | |- quiet (match ?x with _ => _ end) => destruct x
      end ].

Lemma quiet_choose_template_idx (s : string) : quiet (choose_template_idx s).
Proof. unfold choose_template_idx. quiet_steps. Qed.

Lemma quiet_choose_restart_idx (s : string) : quiet (choose_restart_idx s).
Proof. unfold choose_restart_idx. quiet_steps. Qed.

#[local] Hint Resolve quiet_choose_template_idx quiet_choose_restart_idx : quiet.

Lemma quiet_gather_service_info : quiet gather_service_info.
Proof. unfold gather_service_info. quiet_steps. Qed.

Lemma quiet_edit_loop (fuel : nat) : forall d, quiet (edit_loop fuel d).
Proof.
  induction fuel as [|fuel IH]; intros d; [apply quiet_raise|].
  cbn [edit_loop]. quiet_steps; apply IH.
Qed.

Lemma quiet_edit_service_info (d : dict) : quiet (edit_service_info d).
Proof.
  unfold edit_service_info.
  apply quiet_bind; [apply quiet_get_world | intros w; apply quiet_edit_loop].
Qed.

Lemma quiet_validate_venv (v : value) : quiet (validate_venv v).
Proof. unfold validate_venv. quiet_steps. Qed.

Lemma quiet_validate_python_script (v : value) : quiet (validate_python_script v).
Proof. unfold validate_python_script. quiet_steps. Qed.

Lemma quiet_preview_service_file (v : value) (context : dict) :
  quiet (preview_service_file v context).
Proof. unfold preview_service_file. quiet_steps. Qed.

Lemma quiet_load_service_config (name path : option string) :
  quiet (load_service_config name path).
Proof. unfold load_service_config. quiet_steps. Qed.

Lemma quiet_flags_service_info (a : args) : quiet (flags_service_info a).
Proof. unfold flags_service_info. quiet_steps. Qed.

#[local] Hint Resolve quiet_gather_service_info quiet_edit_service_info
  quiet_validate_venv quiet_validate_python_script quiet_preview_service_file
  quiet_load_service_config quiet_flags_service_info : quiet.

Lemma quiet_build_service_info (a : args) : quiet (build_service_info a).
Proof. unfold build_service_info. quiet_steps. Qed.

Lemma quiet_check_paths (d : dict) : quiet (check_paths d).
Proof. unfold check_paths. quiet_steps. Qed.

Lemma quiet_preview_step (a : args) (d : dict) : quiet (preview_step a d).
Proof. unfold preview_step. quiet_steps. Qed.

#[local] Hint Resolve quiet_build_service_info quiet_check_paths quiet_preview_step : quiet.

Lemma quiet_prepare_config (a : args) : quiet (prepare_config a).
Proof. unfold prepare_config. quiet_steps. Qed.

(** Until the record is saved the create command writes no file, makes
    no directory and runs no command: whatever the mode, the answers and
    the way this part ends (with the record to save, an early return, an
    exception or the exit of the cancelled wizard), the file system and
    the log of commands are those it started with. *)
Theorem prepare_config_writes_nothing (a : args) (w : world) :
  w_fs (snd (prepare_config a w)) = w_fs w
  /\ w_cmds (snd (prepare_config a w)) = w_cmds w.
Proof.
  destruct (quiet_prepare_config a w) as (i & o & ->). split; reflexivity.
Qed.

(** ** The edit loop *)

Lemma same_kind_refl (v : value) : same_kind v v = true.
Proof. destruct v; reflexivity. Qed.

Lemma same_kind_trans (a b c : value) :
  same_kind a b = true -> same_kind b c = true -> same_kind a c = true.
Proof. destruct a, b, c; cbn; congruence. Qed.

Lemma same_shape_refl (d : dict) : same_shape d d.
Proof.
  unfold same_shape. induction d as [|kv d IH]; constructor; [|exact IH].
  split; [reflexivity | apply same_kind_refl].
Qed.

Lemma same_shape_set (d0 d : dict) (k : string) (v v' : value) :
  same_shape d0 d -> dict_get k d = Some v -> same_kind v v' = true ->
  same_shape d0 (dict_set k v' d).
Proof.
  unfold same_shape. intros H. induction H as [|kv0 [k1 v1] r0 r [Hk Hv] Hr IH];
    intros Hget Hkind; [discriminate|].
  cbn [dict_get dict_set] in *. destruct (String.eqb k1 k).
  - injection Hget as ->. constructor; [|exact Hr].
    split; [exact Hk | eapply same_kind_trans; eassumption].
  - constructor; [split; assumption | now apply IH].
Qed.

(** The edit loop neither adds nor removes a field, keeps the fields in
    their order, and leaves a text a text and a list a list. *)
Theorem edit_service_info_keeps_shape (d d' : dict) (w w' : world) :
  edit_service_info d w = (Ret d', w') -> same_shape d d'.
Proof.
  apply (edit_service_info_preserves (same_shape d)).
  - intros x field l l' Hget Hx. now apply (same_shape_set d x field (VList l)).
  - intros x field cur new Hget _ Hx. now apply (same_shape_set d x field (VStr cur)).
  - apply same_shape_refl.
Qed.

Lemma edit_service_info_keeps_shape_witness :
  same_shape demo_ctx (dict_set "name" (VStr "svc") demo_ctx).
Proof.
  eapply (edit_service_info_keeps_shape demo_ctx _ (small_world ["1"; "svc"; "13"])).
  vm_compute. reflexivity.
Defined.

Lemma bind_raise_inv {A B} (m : M A) (k : A -> M B) (w w' : world) (e : exn) :
  (m ≫= k) w = (Raise e, w') ->
  m w = (Raise e, w') \/ exists a w1, m w = (Ret a, w1) /\ k a w1 = (Raise e, w').
Proof.
  unfold mbind, M_bind, bind. intros H.
  destruct (m w) as [[a|e0] w1]; [right; eauto | left; congruence].
Qed.

Lemma print_all_returns (l : list string) (w w' : world) (e : exn) :
  print_all l w <> (Raise e, w').
Proof.
  revert w. induction l as [|s l IH]; intros w H; [discriminate|].
  cbn [print_all] in H. apply bind_raise_inv in H as [H | (u & w1 & _ & H)];
    [discriminate | exact (IH _ H)].
Qed.

Lemma input_raises (prompt : string) (w w' : world) (e : exn) :
  input prompt w = (Raise e, w') -> e = EOFError.
Proof. unfold input. destruct (w_stdin w); intros H; congruence. Qed.

Lemma py_int_raises (s : string) (w w' : world) (e : exn) :
  py_int s w = (Raise e, w') -> exists msg, e = ValueError msg.
Proof.
  unfold py_int. destruct (PyStr.int s); intros H; [discriminate| |];
    injection H as <- _; eauto.
Qed.

(** A position within the list is there. *)
Lemma list_index_in_range {A} (l : list A) (i : Z) (w : world) :
  0 <= i < len l -> exists x, list_index l i w = (Ret x, w) /\ In x l.
Proof.
  intros [Hlo Hhi]. unfold list_index, len in *.
  destruct (i <? 0) eqn:Hneg; [lia|]. rewrite Hneg.
  destruct (nth_error l (Z.to_nat i)) as [x|] eqn:Hnth.
  - exists x. split; [reflexivity | eapply nth_error_In; eassumption].
  - apply nth_error_None in Hnth. lia.
Qed.

Lemma dict_index_key (k : string) (d : dict) (w : world) :
  In k (dict_keys d) -> exists v, dict_index k d w = (Ret v, w).
Proof.
  unfold dict_index, dict_keys. induction d as [|[k1 v1] d IH]; [intros []|].
  cbn [map fst In dict_get]. destruct (String.eqb_spec k1 k) as [->|Hne].
  - eauto.
  - intros [?|Hin]; [congruence | exact (IH Hin)].
Qed.

Lemma edit_loop_raises (fuel : nat) :
  forall (d : dict) (w w' : world) (e : exn),
    edit_loop fuel d w = (Raise e, w') ->
    e = EOFError \/ exists msg, e = ValueError msg.
Proof.
  induction fuel as [|fuel IH]; intros d w w' e H.
  - injection H as <- _. now left.
  - cbn [edit_loop] in H.
    apply bind_raise_inv in H as [H | (u1 & w1 & _ & H)]; [discriminate|].
    apply bind_raise_inv in H as [H | (u2 & w2 & _ & H)];
      [now apply print_all_returns in H|].
    apply bind_raise_inv in H as [H | (u3 & w3 & _ & H)]; [discriminate|].
    apply bind_raise_inv in H as [H | (choice & w4 & _ & H)];
      [left; exact (input_raises _ _ _ _ H)|].
    destruct (negb (PyStr.isdigit (PyStr.strip choice))); [exact (IH _ _ _ _ H)|].
    apply bind_raise_inv in H as [H | (n & w5 & _ & H)];
      [right; exact (py_int_raises _ _ _ _ H)|].
    destruct (n =? len (dict_keys d) + 1); [discriminate|].
    destruct ((1 <=? n) && (n <=? len (dict_keys d))) eqn:Hrange.
    + apply andb_true_iff in Hrange as [Hlo Hhi].
      apply Z.leb_le in Hlo, Hhi.
      destruct (list_index_in_range (dict_keys d) (n - 1) w5) as (field & Hfield & Hin);
        [lia|].
      apply bind_raise_inv in H as [H | (field' & w6 & Hf & H)]; [congruence|].
      rewrite Hfield in Hf. injection Hf as <- <-.
      destruct (dict_index_key field d w5 Hin) as (v & Hv).
      apply bind_raise_inv in H as [H | (v' & w7 & Hv' & H)]; [congruence|].
      rewrite Hv in Hv'. injection Hv' as <- <-.
      destruct v as [cur|l].
      * apply bind_raise_inv in H as [H | (new_value & w8 & _ & H)];
          [left; exact (input_raises _ _ _ _ H) | exact (IH _ _ _ _ H)].
      * apply bind_raise_inv in H as [H | (u8 & w8 & _ & H)]; [discriminate|].
        apply bind_raise_inv in H as [H | (new_value & w9 & _ & H)];
          [left; exact (input_raises _ _ _ _ H) | exact (IH _ _ _ _ H)].
    + apply bind_raise_inv in H as [H | (u5 & w6 & _ & H)]; [discriminate|].
      exact (IH _ _ _ _ H).
Qed.

(** The edit loop fails in two ways only: the input ends (EOFError), or
    the choice is a digit string that [int] does not read (ValueError).
    The field it looks up is always there: no KeyError, no
    IndexError. *)
Theorem edit_service_info_raises (d : dict) (w w' : world) (e : exn) :
  edit_service_info d w = (Raise e, w') ->
  e = EOFError \/ exists msg, e = ValueError msg.
Proof.
  unfold edit_service_info. intros H.
  apply bind_raise_inv in H as [H | (w0 & w1 & _ & H)]; [discriminate|].
  exact (edit_loop_raises _ _ _ _ _ H).
Qed.

Lemma edit_service_info_raises_witness :
  EOFError = EOFError \/ exists msg, EOFError = ValueError msg.
Proof.
  eapply (edit_service_info_raises demo_ctx (small_world ["1"])).
  vm_compute. reflexivity.
Defined.

(** ** The record of the wizard *)

Lemma list_index_In {A} (l : list A) (i : Z) (x : A) (w w' : world) :
  list_index l i w = (Ret x, w') -> In x l.
Proof.
  unfold list_index.
  destruct (if _ <? 0 then None else _) as [y|] eqn:Hy; [|discriminate].
  intros H. injection H as <- _.
  destruct (_ <? 0) in Hy; [|destruct (_ <? 0) in Hy]; try discriminate;
    eapply nth_error_In; eassumption.
Qed.

(** Whatever is typed, a record the wizard returns names a template of
    the registry, holds the fields of that template in the order of the
    questions, a restart policy of the menu, and a list of entries none
    of which is empty. *)
Theorem gather_service_info_record (w w' : world) (d : dict) :
  gather_service_info w = (Ret d, w') ->
  exists t r l,
    dict_get "template" d = Some (VStr t) /\ In t (map fst TEMPLATES)
    /\ dict_keys d = wizard_fields t
    /\ dict_get "restart_policy" d = Some (VStr r) /\ In r restart_options
    /\ dict_get "additional_env_vars" d = Some (VList l)
    /\ Forall (fun e => PyStr.nonempty e = true) l.
Proof.
  unfold gather_service_info. intros H.
  repeat inv_bind H.
  destruct (String.eqb _ "n") in H;
    [inv_bind H; discriminate | injection H as <- _].
  match goal with
  | Ht : list_index (map fst TEMPLATES) _ _ = (Ret ?t, _),
    Hr : list_index restart_options _ _ = (Ret ?r, _),
    Hb : (if String.eqb ?t "standard_python" then _ else _) _ = (Ret ?d0, _) |- _ =>
      rename Ht into Htemplate, Hr into Hrestart, Hb into Hbranch;
      exists t, r
  end.
  eexists. apply list_index_In in Htemplate, Hrestart.
  destruct Htemplate as [<-|[<-|[]]].
  - replace (String.eqb "standard_python" "standard_python") with true in Hbranch
      by reflexivity.
    repeat inv_bind Hbranch. injection Hbranch as <- _.
    repeat split;
      first [ reflexivity | exact Hrestart | cbn; tauto
            | unfold parse_env_vars; destruct (negb _);
              [constructor | apply parse_env_vars_loop_nonempty; constructor] ].
  - replace (String.eqb "gunicorn" "standard_python") with false in Hbranch
      by reflexivity.
    replace (String.eqb "gunicorn" "gunicorn") with true in Hbranch by reflexivity.
    repeat inv_bind Hbranch. injection Hbranch as <- _.
    repeat split;
      first [ reflexivity | exact Hrestart | cbn; tauto
            | unfold parse_env_vars; destruct (negb _);
              [constructor | apply parse_env_vars_loop_nonempty; constructor] ].
Qed.

Lemma gather_service_info_record_witness :
  exists t r l,
    dict_get "template" blank_name_record = Some (VStr t)
    /\ In t (map fst TEMPLATES)
    /\ dict_keys blank_name_record = wizard_fields t
    /\ dict_get "restart_policy" blank_name_record = Some (VStr r)
    /\ In r restart_options
    /\ dict_get "additional_env_vars" blank_name_record = Some (VList l)
    /\ Forall (fun e => PyStr.nonempty e = true) l.
Proof.
  eapply (gather_service_info_record (venv_world blank_name_answers)).
  vm_compute. reflexivity.
Defined.

(** ** The paths of a record that is built *)

Lemma is_abs_inv (p : string) : is_abs p = true -> exists r, p = String "/" r.
Proof.
  destruct p as [|c r]; [discriminate|]. unfold is_abs. cbn [PyStr.startswith_char].
  intros H. apply Ascii.eqb_eq in H. subst c. eauto.
Qed.

(** [os.path.normpath] keeps a path that starts at the root at the
    root. *)
Lemma normpath_is_abs (rest : string) : is_abs (normpath (String "/" rest)) = true.
Proof.
  unfold normpath. cbn [PyStr.nonempty negb]. cbv zeta.
  match goal with
  | |- context [replicate ?k "/"] => remember k as n eqn:Hn
  end.
  assert (Hk : n = 1%nat \/ n = 2%nat).
  { subst n. destruct rest as [|c2 r2]; [left; reflexivity|].
    destruct c2 as [[] [] [] [] [] [] [] []]; try (left; reflexivity).
    destruct r2 as [|c3 r3]; [right; reflexivity|].
    destruct c3 as [[] [] [] [] [] [] [] []];
      first [left; reflexivity | right; reflexivity]. }
  clear Hn. destruct Hk as [-> | ->]; reflexivity.
Qed.

Lemma abspath_is_abs (cwd p : string) :
  is_abs cwd = true -> is_abs (abspath cwd p) = true.
Proof.
  intros Hc. unfold abspath. destruct (is_abs p) eqn:Hp.
  - apply is_abs_inv in Hp as [r ->]. apply normpath_is_abs.
  - apply is_abs_inv in Hc as [c ->]. unfold path_join. rewrite Hp.
    destruct (_ || _); cbn [String.append]; apply normpath_is_abs.
Qed.

Lemma quiet_cwd {A} (m : M A) (w w' : world) (r : outcome A) :
  quiet m -> m w = (r, w') -> w_cwd w' = w_cwd w.
Proof.
  intros Hq H. destruct (Hq w) as (i & o & Hw). rewrite H in Hw.
  cbn [snd] in Hw. subst w'. reflexivity.
Qed.

(** Collects, for every step of a computation that was taken apart,
    that the step left the current directory as it was. *)
Ltac cwd_steps :=
  repeat match goal with
  | H : ?m ?w = (Ret _, ?w') |- _ =>
      lazymatch goal with
      | _ : w_cwd w' = w_cwd w |- _ => fail
      | _ => assert (w_cwd w' = w_cwd w)
               by (refine (quiet_cwd m w w' _ _ H); solve [quiet_steps])
      end
  end.

Lemma os_abspath_inv (p a : string) (w w' : world) :
  os_abspath p w = (Ret a, w') -> a = abspath (w_cwd w) p.
Proof. unfold os_abspath. intros H. now injection H as <- _. Qed.

Lemma gather_service_info_paths (w w' : world) (d : dict) (k : string) (v : value) :
  is_abs (w_cwd w) = true ->
  gather_service_info w = (Ret d, w') ->
  k = "venv_path" \/ k = "script_path" ->
  dict_get k d = Some v -> exists p, v = VStr p /\ is_abs p = true.
Proof.
  intros Hcwd H Hk Hget. unfold gather_service_info in H.
  repeat inv_bind H.
  destruct (String.eqb _ "n") in H;
    [inv_bind H; discriminate | injection H as <- _].
  match goal with
  | Hb : (if String.eqb ?t "standard_python" then _ else _) _ = (Ret ?d0, _) |- _ =>
      rename Hb into Hbranch
  end.
  cwd_steps.
  destruct (String.eqb _ "standard_python") in Hbranch;
    [| destruct (String.eqb _ "gunicorn") in Hbranch];
    repeat inv_bind Hbranch; injection Hbranch as <- _; cwd_steps;
    repeat match goal with
    | Ha : os_abspath _ _ = (Ret _, _) |- _ => apply os_abspath_inv in Ha
    end;
    destruct Hk as [-> | ->]; cbn in Hget; try discriminate; injection Hget as <-;
    eexists; (split; [reflexivity|]); subst; apply abspath_is_abs; congruence.
Qed.

Lemma flags_service_info_paths (a : args) (w w' : world) (d : dict) (k : string)
    (v : value) :
  is_abs (w_cwd w) = true ->
  flags_service_info a w = (Ret d, w') ->
  k = "venv_path" \/ k = "script_path" ->
  dict_get k d = Some v -> exists p, v = VStr p /\ is_abs p = true.
Proof.
  intros Hcwd H Hk Hget. unfold flags_service_info in H.
  repeat inv_bind H.
  destruct (String.eqb _ "standard_python") in H;
    [| destruct (String.eqb _ "gunicorn") in H];
    repeat inv_bind H; injection H as <- _; cwd_steps;
    repeat match goal with
    | Ha : os_abspath _ _ = (Ret _, _) |- _ => apply os_abspath_inv in Ha
    end;
    destruct Hk as [-> | ->]; cbn in Hget; try discriminate; injection Hget as <-;
    eexists; (split; [reflexivity|]); subst; apply abspath_is_abs; congruence.
Qed.

(** A record that is built, by the wizard or from the flags, holds
    absolute paths for the virtual environment and the script, whatever
    was typed or given: both go through [os.path.abspath].  (A record
    that is loaded holds what the file holds.) *)
Theorem built_paths_absolute (a : args) (w w' : world) (d : dict) (k : string)
    (v : value) :
  is_abs (w_cwd w) = true ->
  given (a_load a) = None ->
  build_service_info a w = (Ret (inr d), w') ->
  k = "venv_path" \/ k = "script_path" ->
  dict_get k d = Some v ->
  exists p, v = VStr p /\ is_abs p = true.
Proof.
  intros Hcwd Hload H Hk Hget. unfold build_service_info in H. rewrite Hload in H.
  destruct (a_interactive a || _) in H.
  - inv_bind H. injection H as <- _.
    eapply gather_service_info_paths; eassumption.
  - destruct (_ && _) in H; [inv_bind H; discriminate|].
    destruct (_ && _) in H; [inv_bind H; discriminate|].
    inv_bind H. injection H as <- _.
    eapply flags_service_info_paths; eassumption.
Qed.

Lemma built_paths_absolute_witness :
  exists p, VStr "/home/ops/venv" = VStr p /\ is_abs p = true.
Proof.
  eapply (built_paths_absolute relative_flag_args (small_world []) _ _ "venv_path");
    [reflexivity | reflexivity | vm_compute; reflexivity | left; reflexivity
    | reflexivity].
Defined.

(** ** The deployer *)

(** [deploy_service] copies the unit file and then reloads the service
    manager.  It reports success exactly when both commands exit with
    status 0; when the copy fails the reload is not run, and the failure
    reported is that of the command that failed. *)
Theorem deploy_service_outcome (v : value) (p : string) (w : world)
    (rc1 rc2 : N) (out1 out2 : string) :
  w_sys w (w_cmds w ++ [cp_cmd (str_value v) p]) = Completed rc1 out1 ->
  (rc1 = 0%N ->
   w_sys w (w_cmds w ++ [cp_cmd (str_value v) p; reload_cmd]) = Completed rc2 out2) ->
  deploy_service v p w
  = if (rc1 =? 0)%N then
      (Ret (if (rc2 =? 0)%N
            then (true, "Service " +:+ str_value v +:+ " deployed successfully")
            else (false, "Failed to deploy service: "
                         +:+ exn_str (CalledProcessError reload_cmd rc2))),
       set_cmds (w_cmds w ++ [cp_cmd (str_value v) p; reload_cmd]) w)
    else
      (Ret (false, "Failed to deploy service: "
                   +:+ exn_str (CalledProcessError (cp_cmd (str_value v) p) rc1)),
       set_cmds (w_cmds w ++ [cp_cmd (str_value v) p]) w).
Proof.
  intros H1 H2.
  unfold deploy_service, try_except, subprocess_run.
  unfold mbind, M_bind, bind, ret. fold (cp_cmd (str_value v) p) reload_cmd.
  rewrite H1. destruct (N.eqb_spec rc1 0) as [->|Hrc1];
    cbn [andb negb w_cmds w_sys set_cmds]; [|reflexivity].
  rewrite <- app_assoc. cbn [app]. rewrite (H2 eq_refl).
  destruct (rc2 =? 0)%N; reflexivity.
Qed.

Lemma deploy_service_outcome_witness :
  deploy_service (VStr "demo") "/tmp/out/demo.service"
    (with_sys healthy_system (small_world []))
  = (Ret (true, "Service demo deployed successfully"),
     set_cmds [cp_cmd "demo" "/tmp/out/demo.service"; reload_cmd]
       (with_sys healthy_system (small_world []))).
Proof.
  exact (deploy_service_outcome (VStr "demo") "/tmp/out/demo.service"
           (with_sys healthy_system (small_world [])) 0 0 "" "" eq_refl
           (fun _ => eq_refl)).
Defined.

(** [check_service_status] never reports a failure: the command is run
    without [check=True], so its handler for a failed command is never
    entered, and whatever the exit status the verdict is [True] with the
    captured output. *)
Theorem check_service_status_verdict (v : value) (w w' : world) (ok : bool)
    (msg : string) :
  check_service_status v w = (Ret (ok, msg), w') ->
  ok = true
  /\ exists name rc,
       v = VStr name
       /\ w_sys w (w_cmds w ++ [status_cmd name]) = Completed rc msg
       /\ w' = set_cmds (w_cmds w ++ [status_cmd name]) w.
Proof.
  unfold check_service_status, try_except, as_text, subprocess_run.
  destruct v as [name|l]; [|discriminate].
  unfold mbind, M_bind, bind, ret. fold (status_cmd name).
  destruct (w_sys w (w_cmds w ++ [status_cmd name])) as [rc out|e] eqn:H1;
    [|discriminate].
  cbn [andb snd]. intros H. injection H as <- <- <-.
  split; [reflexivity|]. exists name, rc. auto.
Qed.

Lemma check_service_status_verdict_witness :
  true = true
  /\ exists name rc,
       VStr "demo" = VStr name
       /\ refusing_system ([] ++ [status_cmd name]) = Completed rc ""
       /\ set_cmds [status_cmd "demo"] (with_sys refusing_system (small_world []))
          = set_cmds ([] ++ [status_cmd name]) (with_sys refusing_system (small_world [])).
Proof.
  apply (check_service_status_verdict (VStr "demo")
           (with_sys refusing_system (small_world []))).
  reflexivity.
Defined.

(** ** The status, stop and start commands *)

(** As long as the commands can be started, [status], [stop] and
    [start] end without an exception and without a return value, so the
    process exits with status 0, also when the service manager refuses
    the request. *)
Theorem service_commands_exit_zero (c : command) (name : string) (w : world) :
  launches w ->
  c = Status name \/ c = Stop name \/ c = Start name ->
  exists r w', main c w = (Ret r, w') /\ exit_status r = 0.
Proof.
  intros Hsys [-> | [-> | ->]]; cbn [main]; exists None.
  - unfold main_status, check_service_status, try_except, as_text, subprocess_run.
    unfold mbind, M_bind, bind, ret.
    destruct (Hsys (w_cmds w ++ [["systemctl"; "status"; name]])) as (rc & out & ->).
    cbn. eauto.
  - unfold main_stop, try_except, subprocess_run.
    unfold mbind, M_bind, bind, ret.
    destruct (Hsys (w_cmds w ++ [["sudo"; "systemctl"; "stop"; name]])) as (rc & out & ->).
    destruct (rc =? 0)%N; cbn; eauto.
  - unfold main_start, check_service_status, try_except, as_text, subprocess_run.
    unfold mbind, M_bind, bind, ret.
    destruct (Hsys (w_cmds w ++ [["sudo"; "systemctl"; "start"; name]])) as (rc & out & ->).
    destruct (rc =? 0)%N; cbn [andb negb w_cmds w_sys set_cmds is_CalledProcessError];
      [|cbn; eauto].
    destruct (Hsys ((w_cmds w ++ [["sudo"; "systemctl"; "start"; name]])
                    ++ [["systemctl"; "status"; name]])) as (rc2 & out2 & ->).
    cbn. eauto.
Qed.

Lemma service_commands_exit_zero_witness :
  exists r w', main (Stop "demo") (with_sys refusing_system (small_world []))
               = (Ret r, w') /\ exit_status r = 0.
Proof.
  apply (service_commands_exit_zero (Stop "demo") "demo"
           (with_sys refusing_system (small_world []))); [|right; left; reflexivity].
  intros log. exists 1%N, "". reflexivity.
Defined.

(** What [stop] prints: that the service is stopped when the command
    exits with status 0, the failure of the command otherwise. *)
Lemma stop_command_outcome (name : string) (w : world) (rc : N) (out : string) :
  w_sys w (w_cmds w ++ [stop_cmd name]) = Completed rc out ->
  main (Stop name) w
  = (Ret None,
     set_stdout
       (w_stdout w
        ++ [if (rc =? 0)%N then "Service " +:+ name +:+ " stopped"
            else "Failed to stop service: "
                 +:+ exn_str (CalledProcessError (stop_cmd name) rc)])
       (set_cmds (w_cmds w ++ [stop_cmd name]) w)).
Proof.
  intros H. cbn [main]. unfold main_stop, try_except, subprocess_run.
  unfold mbind, M_bind, bind, ret. fold (stop_cmd name). rewrite H.
  destruct (rc =? 0)%N; reflexivity.
Qed.


(** [start] asks for the status only after the unit was started: when
    the start command fails, its failure is printed and no other command
    is run; when it succeeds, the status text is printed whatever the
    exit status of the status query. *)
Theorem start_command_outcome (name : string) (w : world) (rc rc2 : N)
    (out out2 : string) :
  w_sys w (w_cmds w ++ [start_cmd name]) = Completed rc out ->
  (rc = 0%N ->
   w_sys w (w_cmds w ++ [start_cmd name; status_cmd name]) = Completed rc2 out2) ->
  main (Start name) w
  = if (rc =? 0)%N then
      (Ret None,
       set_stdout (w_stdout w ++ [out2])
         (set_cmds (w_cmds w ++ [start_cmd name; status_cmd name]) w))
    else
      (Ret None,
       set_stdout
         (w_stdout w
          ++ ["Failed to start service: "
              +:+ exn_str (CalledProcessError (start_cmd name) rc)])
         (set_cmds (w_cmds w ++ [start_cmd name]) w)).
Proof.
  intros H1 H2. cbn [main].
  unfold main_start, check_service_status, try_except, as_text, subprocess_run.
  unfold mbind, M_bind, bind, ret. fold (start_cmd name) (status_cmd name).
  rewrite H1. destruct (N.eqb_spec rc 0) as [->|Hrc];
    cbn [andb negb w_cmds w_sys set_cmds]; [|reflexivity].
  rewrite <- app_assoc. cbn [app]. rewrite (H2 eq_refl). reflexivity.
Qed.

Lemma start_command_outcome_witness :
  main (Start "demo") (with_sys healthy_system (small_world []))
  = (Ret None,
     set_stdout [""]
       (set_cmds [start_cmd "demo"; status_cmd "demo"]
          (with_sys healthy_system (small_world [])))).
Proof.
  exact (start_command_outcome "demo" (with_sys healthy_system (small_world []))
           0 0 "" "" eq_refl (fun _ => eq_refl)).
Defined.

(** ** Writing the unit file *)

Lemma mkdir_exist_ok_raises (name : string) (w w' : world) (e : exn) :
  try_except (os_mkdir name) is_OSError
    (fun e => isdir ← os_path_isdir name; if isdir : bool then ret tt else raise e) w
  = (Raise e, w') ->
  is_OSError e = true.
Proof.
  unfold try_except, os_mkdir, os_path_isdir, mbind, M_bind, bind, ret, raise.
  destruct (fs_mkdir (w_fs w) (w_cwd w) name) as [errno|f]; [|discriminate].
  cbn [is_OSError]. destruct (path_isdir (w_fs w) (w_cwd w) name); [discriminate|].
  now intros [= <- _].
Qed.

(** [os.makedirs] raises nothing but [OSError]. *)
Lemma makedirs_raises (fuel : nat) :
  forall name w w' e, makedirs fuel name w = (Raise e, w') -> is_OSError e = true.
Proof.
  induction fuel as [|fuel IH]; intros name w w' e H; cbn [makedirs] in H;
    destruct (path_split name) as [head tail];
    destruct (if PyStr.nonempty tail then (head, tail) else path_split head)
      as [head' tail'];
    (apply bind_raise_inv in H as [H | (missing & w1 & _ & H)];
     [destruct (PyStr.nonempty head' && PyStr.nonempty tail'); [|discriminate];
      apply bind_raise_inv in H as [H | (found & w1 & _ & H)]; discriminate|]);
    apply bind_raise_inv in H as [H | (made & w2 & _ & H)].
  1, 3: destruct missing; [|discriminate].
  - discriminate.
  - apply bind_raise_inv in H as [H | (u & w3 & _ & H)]; [|discriminate].
    unfold try_except in H.
    destruct (makedirs fuel head' w1) as [[[]|e0] w3] eqn:Hrec; [discriminate|].
    destruct (is_FileExistsError e0); [discriminate|].
    injection H as <- <-. exact (IH _ _ _ _ Hrec).
  - destruct made; [discriminate|]. revert H. apply mkdir_exist_ok_raises.
  - destruct made; [discriminate|]. revert H. apply mkdir_exist_ok_raises.
Qed.

(** [create_service_file] catches every exception of its body: whatever
    the arguments and the state of the file system, it returns a verdict
    and a message, and it runs no command. *)
Theorem create_service_file_returns (service_name template_name : value)
    (context : dict) (output_dir : string) (w : world) :
  exists ok msg w',
    create_service_file service_name template_name context output_dir w
    = (Ret (ok, msg), w')
    /\ w_cmds w' = w_cmds w.
Proof.
  unfold create_service_file, try_except, lookup_template, template_render,
    os_makedirs, write_file.
  unfold mbind, M_bind, bind, ret, raise.
  destruct template_name as [t|l]; [|cbn; eauto].
  destruct (templates_get t TEMPLATES) as [e|]; [|eauto].
  destruct (dict_get "self" context); [cbn; eauto|].
  destruct (files_only_makedirs (String.length output_dir) output_dir w) as (f1 & Hmk).
  destruct (makedirs (String.length output_dir) output_dir w) as [[[]|err] w0] eqn:Hrun;
    cbn [snd] in Hmk; subst w0.
  - cbn [w_fs w_cwd set_fs].
    destruct (fs_write f1 (w_cwd w) _ _) as [err|f2]; cbn; eauto.
  - apply makedirs_raises in Hrun. destruct err; try discriminate. cbn. eauto.
Qed.

(** ** The config store, by path *)

Lemma fs_write_nonempty (f f' : fs) (cwd p c : string) :
  fs_write f cwd p c = inr f' -> PyStr.nonempty p = true.
Proof.
  unfold fs_write, resolve, resolve_entry.
  destruct (PyStr.nonempty p); [reflexivity|]. destruct (PyStr.endswith_char _ p); discriminate.
Qed.

(** The path [save_service_config] returns leads back to the record:
    loading from that path gives the record that was saved, for every
    name, and [create --load] with that path starts from it. *)
Theorem saved_config_loads_from_its_path (d : dict) (path : option string)
    (w w1 : world) (p : string) :
  NoDup (dict_keys d) ->
  save_service_config d path w = (Ret p, w1) ->
  load_service_config None (Some p) w1 = (Ret (Some d), w1)
  /\ forall a : args,
       a_load a = Some p ->
       build_service_info a w1
       = (Ret (inr d),
          set_stdout (w_stdout w1 ++ ["Loaded service configuration from " +:+ p]) w1).
Proof.
  intros Hkeys Hsave.
  assert (Hwrite : exists w0 f2,
             fs_write (w_fs w0) (w_cwd w0) p (Json.dumps d) = inr f2
             /\ w1 = set_fs f2 w0).
  { unfold save_service_config in Hsave. inv_bind Hsave. inv_bind Hsave.
    injection Hsave as <- <-. unfold write_file in Hstep0.
    destruct (fs_write (w_fs w0) (w_cwd w0) a (Json.dumps d)) as [e|f2] eqn:Hw;
      [discriminate|].
    injection Hstep0 as _ <-. eauto. }
  destruct Hwrite as (w0 & f2 & Hwrite & ->).
  destruct (fs_write_read _ _ _ _ _ Hwrite) as [Hex Hread].
  assert (Hload : load_service_config None (Some p) (set_fs f2 w0)
                  = (Ret (Some d), set_fs f2 w0)).
  { unfold load_service_config, os_path_exists, read_file, json_load.
    unfold mbind, M_bind, bind, ret. cbn [w_fs w_cwd set_fs].
    rewrite Hex. cbn [negb w_fs w_cwd set_fs].
    rewrite Hread, (loads_dumps d Hkeys). reflexivity. }
  split; [exact Hload|].
  intros a Ha. unfold build_service_info, given. rewrite Ha.
  rewrite (fs_write_nonempty _ _ _ _ _ Hwrite).
  unfold mbind, M_bind, bind. rewrite Hload. reflexivity.
Qed.

Lemma saved_config_loads_from_its_path_witness :
  exists w1,
    save_service_config (dict_set "name" (VStr "/tmp/demo") demo_ctx) None (small_world [])
    = (Ret "/tmp/demo.json", w1)
    /\ load_service_config None (Some "/tmp/demo.json") w1
       = (Ret (Some (dict_set "name" (VStr "/tmp/demo") demo_ctx)), w1).
Proof.
  eexists. split; [reflexivity|].
  apply (saved_config_loads_from_its_path
           (dict_set "name" (VStr "/tmp/demo") demo_ctx) None (small_world []));
    [apply (bool_decide_unpack (NoDup (dict_keys (dict_set "name" (VStr "/tmp/demo") demo_ctx))));
     vm_compute; reflexivity
    | reflexivity].
Defined.

(** Load mode with a file that is not there: the create command prints
    that it could not load the configuration and returns 1; nothing is
    read from the input, written or run. *)
Theorem load_mode_missing_file (a : args) (file : string) (w : world) :
  given (a_load a) = Some file ->
  path_exists (w_fs w) (w_cwd w) file = false ->
  main_create a w
  = (Ret (Some 1),
     set_stdout (w_stdout w ++ ["Error: Could not load configuration from " +:+ file]) w).
Proof.
  intros Hload Hmiss.
  unfold main_create, prepare_config, build_service_info. rewrite Hload.
  unfold load_service_config, os_path_exists.
  unfold mbind, M_bind, bind, ret. rewrite Hmiss. reflexivity.
Qed.

Lemma load_mode_missing_file_witness :
  main_create load_args (small_world [])
  = (Ret (Some 1),
     set_stdout ["Error: Could not load configuration from /tmp/cfg.json"]
       (small_world [])).
Proof.
  apply (load_mode_missing_file load_args "/tmp/cfg.json" (small_world []));
    reflexivity.
Defined.

(** ** The text of a saved configuration *)

Lemma all_chars_app (p : ascii -> bool) (a b : string) :
  PyStr.all_chars p (a +:+ b) = PyStr.all_chars p a && PyStr.all_chars p b.
Proof.
  induction a as [|c a IH]; [reflexivity|].
  cbn [String.append PyStr.all_chars]. now rewrite IH, andb_assoc.
Qed.

Lemma ascii_only_app (a b : string) :
  ascii_only (a +:+ b) = ascii_only a && ascii_only b.
Proof. apply all_chars_app. Qed.

Lemma ascii_only_escape_char (c : ascii) : ascii_only (Json.escape_char c) = true.
Proof. destruct c as [[] [] [] [] [] [] [] []]; reflexivity. Qed.

Lemma ascii_only_escape (s : string) : ascii_only (Json.escape s) = true.
Proof.
  induction s as [|c s IH]; [reflexivity|].
  cbn [Json.escape]. now rewrite ascii_only_app, ascii_only_escape_char, IH.
Qed.

Lemma ascii_only_dumps_str (s : string) : ascii_only (Json.dumps_str s) = true.
Proof.
  unfold Json.dumps_str. now rewrite !ascii_only_app, ascii_only_escape.
Qed.

Lemma ascii_only_join (sep : string) (l : list string) :
  ascii_only sep = true -> Forall (fun s => ascii_only s = true) l ->
  ascii_only (PyStr.join sep l) = true.
Proof.
  intros Hsep Hl. induction Hl as [|x r Hx Hr IH]; [reflexivity|].
  destruct r as [|y r']; [exact Hx|].
  change (PyStr.join sep (x :: y :: r')) with (x +:+ sep +:+ PyStr.join sep (y :: r')).
  now rewrite !ascii_only_app, Hx, Hsep, IH.
Qed.

Lemma ascii_only_dumps_value (v : value) : ascii_only (Json.dumps_value v) = true.
Proof.
  destruct v as [s|l]; [apply ascii_only_dumps_str|].
  destruct l as [|x r]; [reflexivity|].
  unfold Json.dumps_value. rewrite !ascii_only_app.
  rewrite ascii_only_join; [reflexivity | reflexivity |].
  apply Forall_map, Forall_forall. intros s _. apply ascii_only_dumps_str.
Qed.

(** A saved configuration is plain ASCII, whatever the record holds:
    [json.dump] escapes every other character. *)
Theorem dumps_ascii_only (d : dict) : ascii_only (Json.dumps d) = true.
Proof.
  destruct d as [|kv r]; [reflexivity|].
  unfold Json.dumps. rewrite !ascii_only_app.
  rewrite ascii_only_join; [reflexivity | reflexivity |].
  apply Forall_map, Forall_forall. intros [k v] _. cbn [fst snd].
  now rewrite !ascii_only_app, ascii_only_dumps_str, ascii_only_dumps_value.
Qed.

(** ** The commands of a deployment *)

Lemma set_cmds_same (w : world) : set_cmds (w_cmds w ++ []) w = w.
Proof. rewrite app_nil_r. destruct w. reflexivity. Qed.

(** The commands [deploy_service] has run, and that it reports success
    only after both. *)
Lemma deploy_service_cmds (v : value) (p : string) (w : world) :
  exists k : nat,
    (k <= 2)%nat
    /\ snd (deploy_service v p w)
       = set_cmds (w_cmds w ++ firstn k [cp_cmd (str_value v) p; reload_cmd]) w
    /\ (forall msg, fst (deploy_service v p w) = Ret (true, msg) -> k = 2%nat).
Proof.
  unfold deploy_service, try_except, subprocess_run.
  unfold mbind, M_bind, bind, ret. fold (cp_cmd (str_value v) p) reload_cmd.
  destruct (w_sys w (w_cmds w ++ [cp_cmd (str_value v) p])) as [rc1 out1|e1];
    [|exists 0%nat; cbn; repeat split; [lia | now rewrite set_cmds_same | discriminate]].
  destruct (rc1 =? 0)%N; cbn [andb negb w_cmds w_sys set_cmds];
    [|exists 1%nat; cbn; repeat split; [lia | discriminate]].
  rewrite <- app_assoc. cbn [app].
  destruct (w_sys w (w_cmds w ++ [cp_cmd (str_value v) p; reload_cmd])) as [rc2 out2|e2];
    [|exists 1%nat; cbn; repeat split; [lia | discriminate]].
  exists 2%nat. destruct (rc2 =? 0)%N; cbn; repeat split; auto.
Qed.

Lemma enable_service_cmds (name : string) (w : world) :
  exists k : nat,
    (k <= 3)%nat
    /\ snd (enable_service (VStr name) w)
       = set_cmds (w_cmds w
                   ++ firstn k [enable_cmd name; start_cmd name; is_active_cmd name]) w
    /\ (forall msg, fst (enable_service (VStr name) w) = Ret (true, msg) -> k = 3%nat).
Proof.
  unfold enable_service, try_except, as_text, subprocess_run.
  unfold mbind, M_bind, bind, ret.
  fold (enable_cmd name) (start_cmd name) (is_active_cmd name).
  destruct (w_sys w (w_cmds w ++ [enable_cmd name])) as [rc1 out1|e1];
    [|exists 0%nat; cbn; repeat split; [lia | now rewrite set_cmds_same | discriminate]].
  destruct (rc1 =? 0)%N; cbn [andb negb w_cmds w_sys set_cmds];
    [|exists 1%nat; cbn; repeat split; [lia | discriminate]].
  rewrite <- app_assoc. cbn [app].
  destruct (w_sys w (w_cmds w ++ [enable_cmd name; start_cmd name])) as [rc2 out2|e2];
    [|exists 1%nat; cbn; repeat split; [lia | discriminate]].
  destruct (rc2 =? 0)%N; cbn [andb negb w_cmds w_sys set_cmds];
    [|exists 2%nat; cbn; repeat split; [lia | discriminate]].
  rewrite <- app_assoc. cbn [app].
  destruct (w_sys w (w_cmds w ++ [enable_cmd name; start_cmd name; is_active_cmd name]))
    as [rc3 out3|e3];
    [|exists 2%nat; cbn; repeat split; [lia | discriminate]].
  exists 3%nat. cbn [andb negb snd].
  destruct (String.eqb _ "active"); cbn; repeat split; auto.
Qed.

Lemma check_service_status_cmds (name : string) (w : world) :
  exists k : nat,
    (k <= 1)%nat
    /\ snd (check_service_status (VStr name) w)
       = set_cmds (w_cmds w ++ firstn k [status_cmd name]) w.
Proof.
  unfold check_service_status, try_except, as_text, subprocess_run.
  unfold mbind, M_bind, bind, ret. fold (status_cmd name).
  destruct (w_sys w (w_cmds w ++ [status_cmd name])) as [rc out|e];
    [exists 1%nat; split; [lia | reflexivity]
    | exists 0%nat; cbn; split; [lia | now rewrite set_cmds_same]].
Qed.

Lemma deploy_step_run (d : dict) (name result : string) (w : world) :
  dict_get "name" d = Some (VStr name) ->
  exists k : nat,
    w_cmds (snd (deploy_step d result w))
    = w_cmds w ++ firstn k (deploy_sequence name result)
    /\ w_fs (snd (deploy_step d result w)) = w_fs w.
Proof.
  intros Hname.
  unfold deploy_step, dict_index, input, print.
  unfold mbind, M_bind, bind, ret. rewrite Hname.
  destruct (w_stdin w) as [|deploy stdin];
    [exists 0%nat; cbn; rewrite app_nil_r; auto|].
  destruct (String.eqb _ "y");
    [|exists 0%nat; cbn; rewrite app_nil_r; auto].
  cbn [w_stdout].
  match goal with
  | |- context [deploy_service ?v ?p ?w0] =>
      destruct (deploy_service_cmds v p w0) as (k1 & Hk1 & Hw1 & Hok1);
      destruct (deploy_service v p w0) as [[[ok1 msg1]|e1] w1]
  end; cbn [fst snd str_value] in *; subst w1;
    [|exists k1; cbn; split; [|reflexivity];
      destruct k1 as [|[|[|k1]]]; [reflexivity.. | lia]].
  destruct ok1;
    [|exists k1; cbn; split; [|reflexivity];
      destruct k1 as [|[|[|k1]]]; [reflexivity.. | lia]].
  rewrite (Hok1 msg1 eq_refl). clear Hok1 Hk1 k1.
  cbn [w_stdin w_stdout w_cmds w_fs set_stdout set_stdin set_cmds firstn].
  destruct stdin as [|start stdin]; [exists 2%nat; cbn; auto|].
  destruct (negb _); [|exists 2%nat; cbn; auto].
  match goal with
  | |- context [enable_service ?v ?w0] =>
      destruct (enable_service_cmds name w0) as (k2 & Hk2 & Hw2 & Hok2);
      destruct (enable_service v w0) as [[[ok2 msg2]|e2] w2]
  end; cbn [fst snd] in *; subst w2;
    [|exists (2 + k2)%nat; cbn; split; [|reflexivity];
      rewrite <- app_assoc; destruct k2 as [|[|[|[|k2]]]]; [reflexivity.. | lia]].
  destruct ok2;
    [|exists (2 + k2)%nat; cbn; split; [|reflexivity];
      rewrite <- app_assoc; destruct k2 as [|[|[|[|k2]]]]; [reflexivity.. | lia]].
  rewrite (Hok2 msg2 eq_refl). clear Hok2 Hk2 k2.
  cbn [w_stdin w_stdout w_cmds w_fs set_stdout set_stdin set_cmds firstn].
  match goal with
  | |- context [check_service_status ?v ?w0] =>
      destruct (check_service_status_cmds name w0) as (k3 & Hk3 & Hw3);
      destruct (check_service_status v w0) as [[[ok3 msg3]|e3] w3]
  end; cbn [fst snd] in *; subst w3;
    exists (5 + k3)%nat; cbn; (split; [|reflexivity]);
    rewrite <- !app_assoc; destruct k3 as [|[|k3]]; first [reflexivity | lia].
Qed.

(** Whatever the answers and however the commands end, the commands a
    deployment has run are the first ones of the fixed sequence copy,
    reload, enable, start, is-active, status, in that order: a step is
    run only after the one before it. *)
Theorem deploy_step_commands (d : dict) (name result : string) (w : world) :
  dict_get "name" d = Some (VStr name) ->
  exists k : nat,
    w_cmds (snd (deploy_step d result w))
    = w_cmds w ++ firstn k (deploy_sequence name result).
Proof.
  intros Hname. destruct (deploy_step_run d name result w Hname) as (k & Hk & _).
  now exists k.
Qed.

Lemma deploy_step_commands_witness :
  exists k : nat,
    w_cmds (snd (deploy_step demo_ctx "/home/ops/systemd-services/demo.service"
                   (with_sys healthy_system (small_world ["y"; ""]))))
    = w_cmds (with_sys healthy_system (small_world ["y"; ""]))
      ++ firstn k (deploy_sequence "demo" "/home/ops/systemd-services/demo.service").
Proof.
  apply (deploy_step_commands demo_ctx "demo"). reflexivity.
Defined.

(** ** The list command *)

(** Without a config directory, or with one that holds no file whose
    name ends in [.json], [list] prints that there are no saved
    configurations and returns 0; it reads nothing and changes
    nothing else. *)
Theorem list_without_configs (w : world) :
  path_exists (w_fs w) (w_cwd w) (config_dir w) = false
  \/ (exists names, os_listdir (config_dir w) w = (Ret names, w)
                    /\ List.filter (endswith ".json") names = []) ->
  main_list w
  = (Ret (Some 0),
     set_stdout (w_stdout w ++ ["No saved service configurations found."]) w).
Proof.
  intros H. unfold main_list, os_expanduser, os_path_exists.
  unfold mbind, M_bind, bind, ret. fold (config_dir w).
  destruct (path_exists (w_fs w) (w_cwd w) (config_dir w)) eqn:Hex; [|reflexivity].
  destruct H as [H | (names & Hls & Hnone)]; [discriminate|].
  cbn [negb]. rewrite Hls, Hnone. reflexivity.
Qed.

Lemma list_without_configs_witness :
  main_list (small_world [])
  = (Ret (Some 0),
     set_stdout (w_stdout (small_world []) ++ ["No saved service configurations found."])
       (small_world [])).
Proof. apply (list_without_configs (small_world [])). left. reflexivity. Defined.

(** A configuration saved under the empty name is the file [.json],
    and [os.path.splitext] finds no extension in that name: [list] looks
    for the configuration [.json], that is for the file [.json.json],
    finds none and fails with a TypeError on the missing record. *)
Theorem list_fails_on_nameless_config (w : world) (names rest : list string) :
  path_exists (w_fs w) (w_cwd w) (config_dir w) = true ->
  os_listdir (config_dir w) w = (Ret names, w) ->
  List.filter (endswith ".json") names = ".json" :: rest ->
  path_exists (w_fs w) (w_cwd w) (config_dir w +:+ "/.json.json") = false ->
  exists msg w', main_list w = (Raise (TypeError msg), w').
Proof.
  intros Hex Hls Hconfigs Hmiss.
  unfold main_list, os_expanduser, os_path_exists.
  unfold mbind, M_bind, bind, ret. fold (config_dir w).
  rewrite Hex. cbn [negb]. rewrite Hls, Hconfigs.
  unfold print at 1. cbn [list_configs].
  change (fst (splitext ".json")) with ".json".
  unfold load_service_config, os_expanduser, os_path_exists.
  unfold mbind, M_bind, bind, ret.
  cbn [w_home w_pw_dir w_fs w_cwd set_stdout].
  rewrite (load_path_eq w ".json").
  change (config_dir w +:+ "/" +:+ ".json" +:+ ".json")
    with (config_dir w +:+ "/.json.json").
  rewrite Hmiss. cbn. eauto.
Qed.

Lemma list_fails_on_nameless_config_witness :
  exists msg w', main_list nameless_saved_world = (Raise (TypeError msg), w').
Proof.
  apply (list_fails_on_nameless_config nameless_saved_world [".json"] []);
    vm_compute; reflexivity.
Defined.

(** ** How the wizard can fail *)

Lemma choose_template_idx_range (s : string) (w w' : world) (i : Z) :
  choose_template_idx s w = (Ret i, w') -> 0 <= i < len (map fst TEMPLATES).
Proof.
  unfold choose_template_idx, len. cbn [map TEMPLATES List.length].
  destruct (_ && _).
  - intros H. inv_bind H. injection H as <- _.
    destruct (_ && _) eqn:Hr; [|lia].
    apply andb_true_iff in Hr as [H1 H2]. apply Z.leb_le in H1. apply Z.ltb_lt in H2. lia.
  - intros H. injection H as <- _. lia.
Qed.

Lemma choose_restart_idx_range (s : string) (w w' : world) (i : Z) :
  choose_restart_idx s w = (Ret i, w') -> 0 <= i < len restart_options.
Proof.
  unfold choose_restart_idx, len. cbn [restart_options List.length].
  destruct (_ && _).
  - intros H. inv_bind H. injection H as <- _.
    destruct (_ && _) eqn:Hr; [|lia].
    apply andb_true_iff in Hr as [H1 H2]. apply Z.leb_le in H1. apply Z.ltb_lt in H2. lia.
  - intros H. injection H as <- _. lia.
Qed.

Lemma choose_template_idx_raises (s : string) (w w' : world) (e : exn) :
  choose_template_idx s w = (Raise e, w') -> exists msg, e = ValueError msg.
Proof.
  unfold choose_template_idx. destruct (_ && _); [|discriminate].
  intros H. apply bind_raise_inv in H as [H | (n & w1 & _ & H)]; [|discriminate].
  exact (py_int_raises _ _ _ _ H).
Qed.

Lemma choose_restart_idx_raises (s : string) (w w' : world) (e : exn) :
  choose_restart_idx s w = (Raise e, w') -> exists msg, e = ValueError msg.
Proof.
  unfold choose_restart_idx. destruct (_ && _); [|discriminate].
  intros H. apply bind_raise_inv in H as [H | (n & w1 & _ & H)]; [|discriminate].
  exact (py_int_raises _ _ _ _ H).
Qed.

Lemma list_index_returns {A} (l : list A) (i : Z) (w w' : world) (e : exn) :
  0 <= i < len l -> list_index l i w <> (Raise e, w').
Proof.
  intros Hi H. destruct (list_index_in_range l i w Hi) as (x & Hx & _). congruence.
Qed.

(** Takes the first step of a computation that raised: either the step
    raised, or it returned and what follows raised. *)
Ltac raise_step H :=
  let a := fresh "a" in
  let w := fresh "w" in
  let Hstep := fresh "Hstep" in
  apply bind_raise_inv in H as [H | (a & w & Hstep & H)].

(** Closes the case of a step that cannot raise, or raises one of the
    exceptions of the wizard. *)
Ltac wizard_leaf H :=
  first [ discriminate H
        | now apply print_all_returns in H
        | left; exact (input_raises _ _ _ _ H)
        | right; left; exact (choose_template_idx_raises _ _ _ _ H)
        | right; left; exact (choose_restart_idx_raises _ _ _ _ H)
        | exfalso; revert H; apply list_index_returns;
          first [ eapply choose_template_idx_range; eassumption
                | eapply choose_restart_idx_range; eassumption ] ].

(** With a working directory and an account name at hand, the wizard
    ends in one of four ways: with the record, with the end of the input
    (EOFError), with a menu answer that [int] does not read (ValueError),
    or with exit status 0 when the summary is declined. *)
Lemma gather_service_info_raises (w w' : world) (e : exn) :
  gather_service_info w = (Raise e, w') ->
  e = EOFError \/ (exists msg, e = ValueError msg) \/ e = SystemExit 0.
Proof.
  unfold gather_service_info. intros H.
  repeat (raise_step H; [solve [wizard_leaf H]|]).
  raise_step H.
  { destruct (String.eqb _ "standard_python") in H;
      [|destruct (String.eqb _ "gunicorn") in H];
      repeat (raise_step H; [solve [wizard_leaf H]|]); discriminate H. }
  repeat (raise_step H; [solve [wizard_leaf H]|]).
  destruct (String.eqb _ "n") in H; [|discriminate H].
  raise_step H; [discriminate H|].
  injection H as <- _. auto.
Qed.

(** The positions the wizard looks up in its two menus are always
    there: whatever is typed, it does not fail with IndexError. *)
Theorem gather_service_info_in_range (w w' : world) (e : exn) :
  gather_service_info w = (Raise e, w') -> e <> IndexError.
Proof.
  intros H. destruct (gather_service_info_raises w w' e H) as [->|[(msg & ->)| ->]];
    discriminate.
Qed.

Lemma gather_service_info_in_range_witness : SystemExit 0 <> IndexError.
Proof.
  eapply (gather_service_info_in_range
            (venv_world [""; ""; ""; ""; "/tmp/venv"; "/tmp/x.py"; ""; ""; ""; "";
                         ""; ""; " N "])).
  vm_compute. reflexivity.
Defined.

(** ** The properties above, at work *)

Lemma choose_template_idx_fallback_witness :
  choose_template_idx "7" (small_world []) = (Ret 0, small_world [])
  /\ list_index (map fst TEMPLATES) 0 (small_world [])
     = (Ret "standard_python", small_world []).
Proof.
  apply (choose_template_idx_fallback "7" (small_world [])).
  right. right. exists 7. split; [reflexivity | lia].
Defined.

Lemma choose_restart_idx_fallback_witness :
  choose_restart_idx "on-failure" (small_world []) = (Ret 1, small_world [])
  /\ list_index restart_options 1 (small_world []) = (Ret "always", small_world []).
Proof.
  apply (choose_restart_idx_fallback "on-failure" (small_world [])).
  right. left. reflexivity.
Defined.

Lemma enable_service_success_inv_witness :
  exists out1 out2 rc out,
    healthy_system ([] ++ [enable_cmd "demo"]) = Completed 0 out1
    /\ healthy_system ([] ++ [enable_cmd "demo"; start_cmd "demo"]) = Completed 0 out2
    /\ healthy_system ([] ++ [enable_cmd "demo"; start_cmd "demo"; is_active_cmd "demo"])
       = Completed rc out
    /\ PyStr.strip out = "active"
    /\ [enable_cmd "demo"; start_cmd "demo"; is_active_cmd "demo"]
       = [] ++ [enable_cmd "demo"; start_cmd "demo"; is_active_cmd "demo"].
Proof.
  apply (enable_service_success_inv "demo" (with_sys healthy_system (small_world []))
           (set_cmds [enable_cmd "demo"; start_cmd "demo"; is_active_cmd "demo"]
              (with_sys healthy_system (small_world [])))
           "Service demo is now active and enabled at boot").
  reflexivity.
Defined.

Lemma create_service_file_content_witness :
  "/tmp/out/demo.service" = path_join "/tmp/out" (str_value (VStr "demo") +:+ ".service")
  /\ fs_read
       (w_fs (snd (create_service_file (VStr "demo") (VStr "standard_python") demo_ctx
                     "/tmp/out" (small_world []))))
       "/home/ops" "/tmp/out/demo.service"
     = inr (render demo_ctx STANDARD_PYTHON_TEMPLATE).
Proof.
  eapply (create_service_file_content (VStr "demo") "standard_python"
            standard_python_entry demo_ctx
            "/tmp/out" "/tmp/out/demo.service" (small_world [])
            (snd (create_service_file (VStr "demo") (VStr "standard_python") demo_ctx
                    "/tmp/out" (small_world []))));
    [reflexivity | reflexivity | vm_compute; reflexivity].
Defined.

(** ** The unit, line by line *)

Lemma lines_glue (a b : string) : lines (a +:+ b) = glue (lines a) (lines b).
Proof.
  unfold lines. pose proof (split_char_nonempty PyStr.LF b) as Hb.
  induction a as [|c a IH].
  - cbn. destruct (PyStr.split_char PyStr.LF b); [congruence | reflexivity].
  - cbn [String.append PyStr.split_char]. rewrite IH.
    pose proof (split_char_nonempty PyStr.LF a) as Ha.
    destruct (PyStr.split_char PyStr.LF b) as [|h t]; [congruence|].
    destruct (PyStr.split_char PyStr.LF a) as [|x r]; [congruence|].
    destruct (Ascii.eqb c PyStr.LF); [reflexivity|].
    destruct r as [|y r]; reflexivity.
Qed.

Lemma render_env_block_entries (ctx : dict) :
  render_node ctx env_block
  = PyStr.concat_strings (map (fun e => nl +:+ env_line e) (env_entries ctx)).
Proof.
  unfold env_block, env_entries. cbn [render_node].
  destruct (dict_get "additional_env_vars" ctx) as [v|]; [|reflexivity].
  destruct (truthy v) eqn:Hv.
  - rewrite append_nil_r. f_equal.
  - destruct v as [[|c s]|[|x l]]; try discriminate; reflexivity.
Qed.

Lemma lines_plain (s : string) : no_line_break s = true -> lines s = [s].
Proof.
  unfold no_line_break, lines. intros H. apply negb_true_iff in H.
  now apply split_char_absent.
Qed.

Lemma templates_get_inv (id : string) (e : template_entry) :
  templates_get id TEMPLATES = Some e ->
  (id = "standard_python" /\ t_template e = STANDARD_PYTHON_TEMPLATE)
  \/ (id = "gunicorn" /\ t_template e = GUNICORN_TEMPLATE).
Proof.
  cbn [templates_get TEMPLATES].
  destruct (String.eqb_spec "standard_python" id) as [<-|_].
  - intros H. injection H as <-. left. split; reflexivity.
  - destruct (String.eqb_spec "gunicorn" id) as [<-|_]; [|discriminate].
    intros H. injection H as <-. right. split; reflexivity.
Qed.

Lemma glue_blank (la t : list string) : la <> [] -> glue la ("" :: t) = la ++ t.
Proof.
  intros Hla. unfold glue. rewrite append_nil_r.
  rewrite (app_removelast_last EmptyString Hla) at 3.
  now rewrite <- app_assoc.
Qed.

Lemma lines_chunks (l : list string) :
  forallb no_line_break l = true ->
  lines (PyStr.concat_strings (map (fun e => nl +:+ env_line e) l))
  = "" :: map env_line l.
Proof.
  intros H. change (PyStr.concat_strings (map (fun e => nl +:+ env_line e) l))
    with ("" +:+ PyStr.concat_strings (map (fun e => nl +:+ env_line e) l)).
  induction l as [|x l IH]; [reflexivity|].
  cbn [forallb] in H. apply andb_true_iff in H as [Hx Hl].
  cbn [map PyStr.concat_strings String.append].
  change (nl +:+ env_line x) with (String PyStr.LF (env_line x)).
  cbn [String.append].
  change (String PyStr.LF (env_line x +:+ ?r)) with ("" +:+ String PyStr.LF (env_line x +:+ r)).
  rewrite lines_app, lines_glue.
  rewrite (lines_plain (env_line x)).
  2:{ unfold no_line_break. now rewrite env_line_no_line_break. }
  cbn [String.append] in IH. rewrite (IH Hl).
  cbn [glue removelast List.last app]. rewrite append_nil_r. reflexivity.
Qed.

(** The lines of a rendered text whose fields hold no line break:
    the text is cut at its pieces, the lines of the pieces are glued, and
    the two sides are compared as texts. *)
Ltac unit_lines_of ctx Hfields Hentries :=
  cbn [app render]; rewrite render_env_block_entries;
  cbn [render_node];
  fold (field ctx "description") (field ctx "venv_path")
    (field ctx "script_path") (field ctx "script_args")
    (field ctx "bind_address") (field ctx "app_module")
    (field ctx "working_directory") (field ctx "user") (field ctx "group")
    (field ctx "restart_policy") (field ctx "restart_sec");
  cbn [unit_fields String.eqb Ascii.eqb Bool.eqb app forallb] in Hfields;
  repeat match type of Hfields with
         | _ && _ = true =>
             let H := fresh "Hf" in
             apply andb_true_iff in Hfields as [H Hfields]
         end;
  (let tail := fresh "tail" in
   match goal with
   | |- context [PyStr.concat_strings ?m +:+ ?tl] => set (tail := tl)
   end;
   rewrite !lines_glue;
   rewrite (lines_chunks _ Hentries);
   repeat match goal with
          | H : no_line_break ?f = true |- _ => rewrite (lines_plain f H)
          end;
   subst tail);
  repeat match goal with
         | |- context [lines ?s] =>
             let r := eval vm_compute in (lines s) in change (lines s) with r
         end;
  rewrite (glue_blank ("" :: map env_line (env_entries ctx))) by discriminate;
  cbn [glue removelast List.last app];
  unfold unit_lines, exec_start, env_line, unit_tail_lines;
  cbn [String.eqb Ascii.eqb Bool.eqb];
  rewrite ?append_assoc, ?append_nil_r; reflexivity.

(** The unit of a record, line by line, for both templates: when no
    field that is printed as text and no entry of [additional_env_vars]
    holds a line break, the unit has the fifteen lines of the template
    with the fields in place, one [Environment=] line per entry, and the
    three closing lines.  A field that is missing is printed as nothing. *)
Theorem render_unit_lines (ctx : dict) (id : string) (e : template_entry) :
  templates_get id TEMPLATES = Some e ->
  forallb (fun k => no_line_break (field ctx k)) (unit_fields id) = true ->
  forallb no_line_break (env_entries ctx) = true ->
  lines (render ctx (t_template e)) = unit_lines id ctx.
Proof.
  intros He Hfields Hentries.
  destruct (templates_get_inv id e He) as [[-> ->] | [-> ->]].
  - unfold STANDARD_PYTHON_TEMPLATE, unit_head, unit_settings, unit_tail.
    unit_lines_of ctx Hfields Hentries.
  - unfold GUNICORN_TEMPLATE, unit_head, unit_settings, unit_tail.
    unit_lines_of ctx Hfields Hentries.
Qed.

Lemma render_unit_lines_witness :
  lines (render demo_ctx STANDARD_PYTHON_TEMPLATE) = unit_lines "standard_python" demo_ctx
  /\ nth_error (unit_lines "standard_python" demo_ctx) 6
     = Some ("ExecStart=/bin/bash -c " +:+ dq
             +:+ "source /tmp/venv/bin/activate && python3 /tmp/x.py " +:+ dq).
Proof.
  split; [|reflexivity].
  apply (render_unit_lines demo_ctx "standard_python" standard_python_entry);
    reflexivity.
Defined.

(** ** A run of the create command that reaches its end *)














